(** * goal-tracker: the undo/redo command engine

    A shallow embedding of
      - [src/lib/db.ts]        (the day-record store the commands mutate),
      - [src/lib/commands.ts]  (the command catalog),
      - [src/lib/undoRedo.ts]  (the history store and the history manager),
      - [src/lib/searchService.ts] (the index entries that the store writes),
      - [src/hooks/useUndoRedo.ts] (the wrappers around the manager),
    followed by the properties of the engine that the specification states
    and by further properties of the code.

    Conventions.
    - JavaScript arrays are lists with index 0 first: [push] appends at the
      end, [pop] removes the last element, [shift] removes the first.
    - Asynchronous functions are run to completion: every [await] is a
      sequencing point, and a re-entrant call is a call made on a manager
      whose [isExecuting] flag is set.
    - Mutable module variables and object fields are threaded explicitly;
      a method that mutates its receiver returns the updated receiver.
    - [createdAt], [updatedAt] and [lastModified] are wall-clock stamps
      ([new Date()]); they are not part of the model.  A command's
      [timestamp], which the merge logic reads, is. *)

From Stdlib Require Import ZArith String List Bool Lia Sorted.
From Stdlib Require Floats.SpecFloat.
From stdpp Require Import base option list gmap strings pretty.
Import ListNotations.

Local Open Scope string_scope.
Local Open Scope list_scope.
Local Open Scope Z_scope.

Set Default Proof Using "Type".

(* ================================================================== *)
(** * JavaScript values used by the engine *)
(* ================================================================== *)

Module Js.

(** A [Date] holds a time value in milliseconds, or NaN ("Invalid Date"),
    which is what [new Date(s)] yields for an unparsable string. *)
Inductive Date := ValidDate (ms : Z) | InvalidDate.

(** [(a.getTime() - b.getTime()) < w]: any comparison with NaN is false. *)
Definition diff_lt (a b : Date) (w : Z) : bool :=
  match a, b with
  | ValidDate x, ValidDate y => x - y <? w
  | _, _ => false
  end.

(** Thrown values.  [Thrown] is a thrown value that is not an [Error]
    instance; the other constructors are [Error] and the three classes
    that undoRedo.ts declares ([PersistenceError] and
    [CommandExecutionError] extend [UndoRedoError]). *)
Inductive Exn :=
| Error (name message : string)
| Thrown (value : string)
| UndoRedoError (message : string)
| PersistenceError (message : string) (cause : Exn)
| CommandExecutionError (message : string) (cause : Exn).

(** [error instanceof Error] *)
Definition instanceof_Error (e : Exn) : bool :=
  match e with Thrown _ => false | _ => true end.

(** [error.message]; the two subclasses prefix the message in their
    constructors.  A non-Error thrown value has no [message]. *)
Definition message (e : Exn) : string :=
  match e with
  | Error _ m => m
  | Thrown _ => ""
  | UndoRedoError m => m
  | PersistenceError m _ => "Persistence failed: " +:+ m
  | CommandExecutionError m _ => "Command execution failed: " +:+ m
  end.

Definition is_PersistenceError (e : Exn) : bool :=
  match e with PersistenceError _ _ => true | _ => false end.

Definition is_CommandExecutionError (e : Exn) : bool :=
  match e with CommandExecutionError _ _ => true | _ => false end.

(** The result of running a function body: it returns or it throws. *)
Inductive Outcome (A : Type) :=
| Done (a : A)
| Throw (e : Exn).
Arguments Done {A} a.
Arguments Throw {A} e.

Definition TypeError_undefined (prop : string) : Exn :=
  Error "TypeError"
        ("Cannot read properties of undefined (reading '" +:+ prop +:+ "')").

Definition RangeError_invalid_time : Exn :=
  Error "RangeError" "Invalid time value".

(** [d.toISOString()] throws a RangeError on an invalid date.  The ISO
    string of a valid date is represented by its time value, which
    [new Date(iso)] recovers. *)
Definition toISOString (d : Date) : Outcome Z :=
  match d with
  | ValidDate ms => Done ms
  | InvalidDate => Throw RangeError_invalid_time
  end.

(** A caller-supplied callback ([onNoteAdded], [onItemToggled], ...).
    The callbacks of the UI only touch component state; what the engine
    can observe of one is whether it returns or throws. *)
Inductive Callback := Returns | Raises (e : Exn).

(** [cb?.(...)] *)
Definition call_opt (cb : option Callback) : Outcome unit :=
  match cb with
  | None | Some Returns => Done tt
  | Some (Raises e) => Throw e
  end.

End Js.
Export Js.

(* ================================================================== *)
(** * db.ts: the day-record store *)
(* ================================================================== *)

Record Note := mkNote {
  note_id : string;
  note_content : string }.

Record ChecklistItem := mkItem {
  item_id : string;
  item_text : string;
  item_completed : bool;
  item_order : Z;
  item_originalDate : option string }.

Record DayData := mkDay {
  day_date : string;
  day_notes : list Note;
  day_checklist : list ChecklistItem }.

Definition set_notes (d : DayData) (ns : list Note) : DayData :=
  mkDay (day_date d) ns (day_checklist d).

Definition set_checklist (d : DayData) (cl : list ChecklistItem) : DayData :=
  mkDay (day_date d) (day_notes d) cl.

(** The world the commands run in: the module variables of db.ts and the
    source of [crypto.randomUUID()].

    [idbDayData] is the IndexedDB object store ['dayData'] (key path
    ['date']); reads from it return copies.  [fallbackStorage] is the
    in-memory [Map]; reads from it return the stored object itself.
    The IndexedDB handle is taken to open and to answer whenever
    [isIndexedDBAvailable] holds: a store whose initialisation failed is a
    world with [isIndexedDBAvailable = false]. *)
Record World := mkWorld {
  isIndexedDBAvailable : bool;
  idbDayData : gmap string DayData;
  fallbackStorage : gmap string DayData;
  uuidSource : nat -> string;
  uuidNext : nat }.

Definition set_idbDayData (w : World) (m : gmap string DayData) : World :=
  mkWorld (isIndexedDBAvailable w) m (fallbackStorage w)
          (uuidSource w) (uuidNext w).

Definition set_fallbackStorage (w : World) (m : gmap string DayData) : World :=
  mkWorld (isIndexedDBAvailable w) (idbDayData w) m
          (uuidSource w) (uuidNext w).

(** [crypto.randomUUID()] *)
Definition randomUUID (w : World) : World * string :=
  (mkWorld (isIndexedDBAvailable w) (idbDayData w) (fallbackStorage w)
           (uuidSource w) (S (uuidNext w)),
   uuidSource w (uuidNext w)).

(** [Array.prototype.sort((a, b) => a.order - b.order)]: a stable sort by
    ascending [order]. *)
Fixpoint insert_by_order (x : ChecklistItem) (l : list ChecklistItem)
  : list ChecklistItem :=
  match l with
  | [] => [x]
  | y :: l' =>
      if item_order x <=? item_order y then x :: y :: l'
      else y :: insert_by_order x l'
  end.

Fixpoint sort_by_order (l : list ChecklistItem) : list ChecklistItem :=
  match l with
  | [] => []
  | x :: l' => insert_by_order x (sort_by_order l')
  end.

(** The normalisation of [getDayData]:
    [data.checklist = data.checklist.map((item, index) =>
       ({...item, order: item.order ?? index})).sort(...)].
    [order] is a number in [ChecklistItem], so [item.order ?? index] is
    [item.order]. *)
Definition normalise (d : DayData) : DayData :=
  set_checklist d (sort_by_order (day_checklist d)).

Definition getDayData (date : string) (w : World) : World * option DayData :=
  if negb (isIndexedDBAvailable w) then
    match fallbackStorage w !! date with
    | Some data =>
        (* the stored object itself is normalised, in place *)
        let data' := normalise data in
        (set_fallbackStorage w (<[date := data']> (fallbackStorage w)),
         Some data')
    | None => (w, None)
    end
  else
    match idbDayData w !! date with
    | Some data => (w, Some (normalise data))
    | None => (w, None)
    end.

Definition saveDayData (dayData : DayData) (w : World) : World :=
  if negb (isIndexedDBAvailable w) then
    set_fallbackStorage w (<[day_date dayData := dayData]> (fallbackStorage w))
  else
    set_idbDayData w (<[day_date dayData := dayData]> (idbDayData w)).

Definition createEmptyDayData (date : string) (w : World) : World * DayData :=
  let dayData := mkDay date [] [] in
  (saveDayData dayData w, dayData).

(** [await getDayData(date) || await createEmptyDayData(date)] *)
Definition getOrCreateDayData (date : string) (w : World) : World * DayData :=
  match getDayData date w with
  | (w1, Some d) => (w1, d)
  | (w1, None) => createEmptyDayData date w1
  end.

Definition addNote (date content : string) (w : World) : World * Note :=
  let '(w1, dayData) := getOrCreateDayData date w in
  let '(w2, id) := randomUUID w1 in
  let note := mkNote id content in
  (saveDayData (set_notes dayData (day_notes dayData ++ [note])) w2, note).

(** [l.find(p)] followed by an assignment to a field of the element found:
    the first element satisfying [p] is updated. *)
Fixpoint update_first {A} (p : A -> bool) (f : A -> A) (l : list A) : list A :=
  match l with
  | [] => []
  | x :: l' => if p x then f x :: l' else x :: update_first p f l'
  end.

(** [note.content = content] *)
Definition setContent (content : string) (n : Note) : Note :=
  mkNote (note_id n) content.

Definition updateNote (date noteId content : string) (w : World) : World :=
  match getDayData date w with
  | (w1, None) => w1
  | (w1, Some dayData) =>
      let is_it := fun n : Note => String.eqb (note_id n) noteId in
      match List.find is_it (day_notes dayData) with
      | Some _ =>
          saveDayData
            (set_notes dayData
               (update_first is_it (setContent content) (day_notes dayData)))
            w1
      | None => w1
      end
  end.

Definition deleteNote (date noteId : string) (w : World) : World :=
  match getDayData date w with
  | (w1, None) => w1
  | (w1, Some dayData) =>
      saveDayData
        (set_notes dayData
           (List.filter (fun n => negb (String.eqb (note_id n) noteId))
                        (day_notes dayData)))
        w1
  end.

(** [Math.max(...orders)] for a non-empty list of numbers. *)
Definition max_order (l : list ChecklistItem) : Z :=
  match l with
  | [] => -1
  | x :: l' => fold_left Z.max (List.map item_order l') (item_order x)
  end.

Definition addChecklistItem (date text : string) (w : World)
  : World * ChecklistItem :=
  let '(w1, dayData) := getOrCreateDayData date w in
  let maxOrder := max_order (day_checklist dayData) in
  let '(w2, id) := randomUUID w1 in
  let item := mkItem id text false (maxOrder + 1) (Some date) in
  (saveDayData
     (set_checklist dayData (sort_by_order (day_checklist dayData ++ [item])))
     w2,
   item).

(** [Partial<Pick<ChecklistItem, 'text' | 'completed'>>] *)
Record ItemUpdates := mkUpdates {
  upd_text : option string;
  upd_completed : option bool }.

(** [Object.assign(item, updates)] *)
Definition assign_updates (u : ItemUpdates) (i : ChecklistItem) : ChecklistItem :=
  mkItem (item_id i)
         (default (item_text i) (upd_text u))
         (default (item_completed i) (upd_completed u))
         (item_order i) (item_originalDate i).

Definition updateChecklistItem (date itemId : string) (updates : ItemUpdates)
                               (w : World) : World :=
  match getDayData date w with
  | (w1, None) => w1
  | (w1, Some dayData) =>
      let is_it := fun i : ChecklistItem => String.eqb (item_id i) itemId in
      match List.find is_it (day_checklist dayData) with
      | Some _ =>
          saveDayData
            (set_checklist dayData
               (update_first is_it (assign_updates updates)
                             (day_checklist dayData)))
            w1
      | None => w1
      end
  end.

(** [new Map(checklist.map(item => [item.id, item]))]: a later entry with
    the same id replaces an earlier one. *)
Definition item_map (l : list ChecklistItem) : gmap string ChecklistItem :=
  fold_left (fun m i => <[item_id i := i]> m) l ∅.

(** [item.order = order] *)
Definition setOrder (order : Z) (i : ChecklistItem) : ChecklistItem :=
  mkItem (item_id i) (item_text i) (item_completed i) order
         (item_originalDate i).

(** The last position of [id] in [itemIds], whose head has position [pos]. *)
Fixpoint last_index_of (id : string) (pos : Z) (itemIds : list string)
  : option Z :=
  match itemIds with
  | [] => None
  | id' :: rest =>
      match last_index_of id (pos + 1) rest with
      | Some j => Some j
      | None => if String.eqb id' id then Some pos else None
      end
  end.

(** The [forEach] of [reorderChecklistItems]:
    [const item = itemMap.get(id);
     if (item) { item.order = index; reorderedItems.push(item); }].
    Two occurrences of one id push the same object twice, so both entries
    carry the [order] written last: the last position of the id. *)
Fixpoint reorder_from (m : gmap string ChecklistItem) (index : Z)
                      (itemIds : list string) : list ChecklistItem :=
  match itemIds with
  | [] => []
  | id :: rest =>
      match m !! id with
      | Some item =>
          setOrder (default index (last_index_of id (index + 1) rest)) item
          :: reorder_from m (index + 1) rest
      | None => reorder_from m (index + 1) rest
      end
  end.

Definition reorderChecklistItems (date : string) (itemIds : list string)
                                 (w : World) : World :=
  match getDayData date w with
  | (w1, None) => w1
  | (w1, Some dayData) =>
      saveDayData
        (set_checklist dayData
           (reorder_from (item_map (day_checklist dayData)) 0 itemIds))
        w1
  end.

Definition deleteChecklistItem (date itemId : string) (w : World) : World :=
  match getDayData date w with
  | (w1, None) => w1
  | (w1, Some dayData) =>
      saveDayData
        (set_checklist dayData
           (List.filter (fun i => negb (String.eqb (item_id i) itemId))
                        (day_checklist dayData)))
        w1
  end.

(** ** The other readers and writers of db.ts *)

(** [trimEmptyChecklistItems(date)].  [trim] is [String.prototype.trim];
    the function is the same whatever [trim] takes to be white space.  In
    the in-memory fallback the assignment to [dayData.checklist] writes to
    the stored record even when nothing is saved; the list it writes then
    has the elements the record had. *)
Section Trimming.

Variable trim : string -> string.

Definition trimEmptyChecklistItems (date : string) (w : World) : World :=
  match getDayData date w with
  | (w1, None) => w1
  | (w1, Some dayData) =>
      let originalLength := length (day_checklist dayData) in
      let checklist :=
        List.filter (fun item => negb (String.eqb (trim (item_text item)) ""))
                    (day_checklist dayData) in
      if negb (length checklist =? originalLength)%nat
      then saveDayData (set_checklist dayData checklist) w1
      else w1
  end.

End Trimming.


(** JavaScript numbers: IEEE 754 binary64 values, whose operations round
    to nearest, ties to even. *)
Module JsNumber.

Definition Number : Type := SpecFloat.spec_float.

Definition prec : Z := 53.
Definition emax : Z := 1024.

(** The number that an integer (a literal, the [length] of an array)
    denotes. *)
Definition of_Z (z : Z) : Number := SpecFloat.binary_normalize prec emax z 0 false.

Definition div (x y : Number) : Number := SpecFloat.SFdiv prec emax x y.
Definition mul (x y : Number) : Number := SpecFloat.SFmul prec emax x y.

(** [Math.round(x)]: the integer nearest to [x], the larger one of two
    that are equally near; [x] itself if it is an integer, infinite or
    NaN; a zero with the sign of [x] if the integer is 0.  A finite number
    [m * 2^e] with [e >= 0] is an integer; for [e < 0] the result is
    [floor (m * 2^e + 1/2)], computed exactly. *)
Definition Math_round (x : Number) : Number :=
  match x with
  | SpecFloat.S754_finite s m (Zneg k) =>
      let sm := if s then Zneg m else Zpos m in
      let r := (2 * sm + 2 ^ Zpos k) / 2 ^ (Zpos k + 1) in
      if r =? 0 then SpecFloat.S754_zero s else of_Z r
  | _ => x
  end.

(** The same number, bit for bit. *)
Definition same (x y : JsNumber.Number) : bool :=
  match x, y with
  | SpecFloat.S754_zero a, SpecFloat.S754_zero b => Bool.eqb a b
  | SpecFloat.S754_infinity a, SpecFloat.S754_infinity b => Bool.eqb a b
  | SpecFloat.S754_nan, SpecFloat.S754_nan => true
  | SpecFloat.S754_finite s m e, SpecFloat.S754_finite s' m' e' =>
      Bool.eqb s s' && Pos.eqb m m' && Z.eqb e e'
  | _, _ => false
  end.

(** The integer that a number is, if it is one. *)
Definition to_Z (x : JsNumber.Number) : option Z :=
  match x with
  | SpecFloat.S754_zero _ => Some 0
  | SpecFloat.S754_finite s m e =>
      let sm := if s then Zneg m else Zpos m in
      match e with
      | Zneg k =>
          if Zpos m mod 2 ^ Zpos k =? 0 then Some (sm / 2 ^ Zpos k) else None
      | _ => Some (sm * 2 ^ e)
      end
  | _ => None
  end.

End JsNumber.

(** [getCompletionPercentage(date)]:
    [Math.round((completed / dayData.checklist.length) * 100)] *)
Definition getCompletionPercentage (date : string) (w : World)
  : World * JsNumber.Number :=
  let '(w1, dayData) := getDayData date w in
  (w1,
   match dayData with
   | None => JsNumber.of_Z 0
   | Some d =>
       if (length (day_checklist d) =? 0)%nat then JsNumber.of_Z 0
       else
         let completed :=
           length (List.filter item_completed (day_checklist d)) in
         JsNumber.Math_round
           (JsNumber.mul
              (JsNumber.div (JsNumber.of_Z (Z.of_nat completed))
                            (JsNumber.of_Z
                               (Z.of_nat (length (day_checklist d)))))
              (JsNumber.of_Z 100))
   end).

(* ================================================================== *)
(** * searchService.ts: the search index that db.ts keeps up to date *)
(* ================================================================== *)

(** ['note' | 'checklist'] *)
Inductive SearchKind := KindNote | KindChecklist.

(** [interface SearchIndex] (without its two stamps). *)
Record SearchIndex := mkSearchIndex {
  si_id : string;
  si_type : SearchKind;
  si_content : string;
  si_date : string;
  si_noteId : option string;
  si_checklistId : option string }.

(** The module variables of searchService.ts ([searchDbInstance], which is
    [null] or a handle, [isSearchIndexAvailable], [fallbackSearchIndex])
    and the browser's database ['goal-tracker-search']: whether [openDB]
    succeeds and whether [put] and [delete] do, and the rows of the object
    store ['searchIndex'] (key path ['id']). *)
Record SearchDB := mkSearchDB {
  searchDbInstance : bool;
  isSearchIndexAvailable : bool;
  fallbackSearchIndex : list SearchIndex;
  sidb_opens : bool;
  sidb_writes : bool;
  sidb_rows : gmap string SearchIndex }.

Definition set_fallbackSearchIndex (l : list SearchIndex) (s : SearchDB)
  : SearchDB :=
  mkSearchDB (searchDbInstance s) (isSearchIndexAvailable s) l
             (sidb_opens s) (sidb_writes s) (sidb_rows s).

Definition set_sidb_rows (m : gmap string SearchIndex) (s : SearchDB)
  : SearchDB :=
  mkSearchDB (searchDbInstance s) (isSearchIndexAvailable s)
             (fallbackSearchIndex s) (sidb_opens s) (sidb_writes s) m.

(** [initSearchDB()] *)
Definition initSearchDB (s : SearchDB) : SearchDB :=
  if sidb_opens s then
    mkSearchDB true (isSearchIndexAvailable s) (fallbackSearchIndex s)
               (sidb_opens s) (sidb_writes s) (sidb_rows s)
  else
    mkSearchDB (searchDbInstance s) false (fallbackSearchIndex s)
               (sidb_opens s) (sidb_writes s) (sidb_rows s).

(** [const existingIndex = index.findIndex(i => i.id === item.id);
     if (existingIndex >= 0) index[existingIndex] = item;
     else index.push(item)] *)
Definition upsert (item : SearchIndex) (index : list SearchIndex)
  : list SearchIndex :=
  match list_find (fun i => si_id i = si_id item) index with
  | Some (existingIndex, _) => <[existingIndex := item]> index
  | None => index ++ [item]
  end.

(** [addToSearchIndex(item)] *)
Definition addToSearchIndex (item : SearchIndex) (s : SearchDB) : SearchDB :=
  if negb (isSearchIndexAvailable s) then
    set_fallbackSearchIndex (upsert item (fallbackSearchIndex s)) s
  else
    let s1 := if negb (searchDbInstance s) then initSearchDB s else s in
    if negb (searchDbInstance s1) then
      set_fallbackSearchIndex (upsert item (fallbackSearchIndex s1)) s1
    else if sidb_writes s1 then
      set_sidb_rows (<[si_id item := item]> (sidb_rows s1)) s1
    else (* catch *)
      set_fallbackSearchIndex (upsert item (fallbackSearchIndex s1)) s1.

(** [removeFromSearchIndex(id)] *)
Definition removeFromSearchIndex (id : string) (s : SearchDB) : SearchDB :=
  let without := fun l : list SearchIndex =>
    List.filter (fun i => negb (String.eqb (si_id i) id)) l in
  if negb (isSearchIndexAvailable s) then
    set_fallbackSearchIndex (without (fallbackSearchIndex s)) s
  else
    let s1 := if negb (searchDbInstance s) then initSearchDB s else s in
    if negb (searchDbInstance s1) then
      set_fallbackSearchIndex (without (fallbackSearchIndex s1)) s1
    else if sidb_writes s1 then
      set_sidb_rows (delete id (sidb_rows s1)) s1
    else (* catch *)
      set_fallbackSearchIndex (without (fallbackSearchIndex s1)) s1.

(** [indexNote(date, note)] and [indexChecklistItem(date, item)] *)
Definition indexNote (date : string) (note : Note) (s : SearchDB) : SearchDB :=
  addToSearchIndex
    (mkSearchIndex ("note-" +:+ note_id note) KindNote (note_content note)
                   date (Some (note_id note)) None)
    s.

Definition indexChecklistItem (date : string) (item : ChecklistItem)
                              (s : SearchDB) : SearchDB :=
  addToSearchIndex
    (mkSearchIndex ("checklist-" +:+ item_id item) KindChecklist
                   (item_text item) date None (Some (item_id item)))
    s.

(** [indexDayData(dayData)] *)
Definition indexDayData (dayData : DayData) (s : SearchDB) : SearchDB :=
  fold_left (fun s item => indexChecklistItem (day_date dayData) item s)
            (day_checklist dayData)
            (fold_left (fun s note => indexNote (day_date dayData) note s)
                       (day_notes dayData) s).

(** The writers of db.ts with the calls into searchService.ts that follow
    their [saveDayData]: the day-record store and the search index are
    updated side by side.  (The calls sit in [try] blocks; an
    [addToSearchIndex] or [removeFromSearchIndex] that fails falls back by
    itself.) *)
Module WithSearch.

Definition addNote (date content : string) (w : World) (s : SearchDB)
  : World * SearchDB * Note :=
  let '(w1, dayData) := getOrCreateDayData date w in
  let '(w2, id) := randomUUID w1 in
  let note := mkNote id content in
  (saveDayData (set_notes dayData (day_notes dayData ++ [note])) w2,
   indexNote date note s, note).

Definition updateNote (date noteId content : string) (w : World) (s : SearchDB)
  : World * SearchDB :=
  match getDayData date w with
  | (w1, None) => (w1, s)
  | (w1, Some dayData) =>
      let is_it := fun n : Note => String.eqb (note_id n) noteId in
      match List.find is_it (day_notes dayData) with
      | Some note =>
          (saveDayData
             (set_notes dayData
                (update_first is_it (setContent content) (day_notes dayData)))
             w1,
           indexNote date (setContent content note) s)
      | None => (w1, s)
      end
  end.

Definition deleteNote (date noteId : string) (w : World) (s : SearchDB)
  : World * SearchDB :=
  match getDayData date w with
  | (w1, None) => (w1, s)
  | (w1, Some dayData) =>
      (saveDayData
         (set_notes dayData
            (List.filter (fun n => negb (String.eqb (note_id n) noteId))
                         (day_notes dayData)))
         w1,
       removeFromSearchIndex ("note-" +:+ noteId) s)
  end.

Definition addChecklistItem (date text : string) (w : World) (s : SearchDB)
  : World * SearchDB * ChecklistItem :=
  let '(w1, dayData) := getOrCreateDayData date w in
  let maxOrder := max_order (day_checklist dayData) in
  let '(w2, id) := randomUUID w1 in
  let item := mkItem id text false (maxOrder + 1) (Some date) in
  (saveDayData
     (set_checklist dayData (sort_by_order (day_checklist dayData ++ [item])))
     w2,
   indexChecklistItem date item s, item).

Definition updateChecklistItem (date itemId : string) (updates : ItemUpdates)
    (w : World) (s : SearchDB) : World * SearchDB :=
  match getDayData date w with
  | (w1, None) => (w1, s)
  | (w1, Some dayData) =>
      let is_it := fun i : ChecklistItem => String.eqb (item_id i) itemId in
      match List.find is_it (day_checklist dayData) with
      | Some item =>
          (saveDayData
             (set_checklist dayData
                (update_first is_it (assign_updates updates)
                              (day_checklist dayData)))
             w1,
           indexChecklistItem date (assign_updates updates item) s)
      | None => (w1, s)
      end
  end.

Definition deleteChecklistItem (date itemId : string) (w : World) (s : SearchDB)
  : World * SearchDB :=
  match getDayData date w with
  | (w1, None) => (w1, s)
  | (w1, Some dayData) =>
      (saveDayData
         (set_checklist dayData
            (List.filter (fun i => negb (String.eqb (item_id i) itemId))
                         (day_checklist dayData)))
         w1,
       removeFromSearchIndex ("checklist-" +:+ itemId) s)
  end.

End WithSearch.

(* ================================================================== *)
(** * undoRedo.ts: the [Command] interface and the persisted format *)
(* ================================================================== *)

(** The [timestamp] of a [SerializableCommand] is an ISO string: the image
    of a time value under [toISOString], or some other string, which
    [new Date(s)] turns into an invalid date. *)
Inductive IsoString := Iso (ms : Z) | Unparsable (s : string).

Definition Date_of_iso (s : IsoString) : Date :=
  match s with Iso ms => ValidDate ms | Unparsable _ => InvalidDate end.

(** [SerializableCommand] with its [data: Record<string, any>].  The
    payload is given the shape that the [serialize] method of each catalog
    class writes. *)
#[warnings="-register-all"]
Inductive SerializableCommand :=
| mkSer (id type dateKey : string) (timestamp : IsoString) (data : Payload)
with Payload :=
| PAddNote (content : string) (noteId : option string)
| PEditNote (noteId oldContent newContent : string)
| PDeleteNote (noteId : string) (deletedNote : option Note)
| PAddChecklistItem (text : string) (itemId : option string)
| PEditChecklistItem (itemId oldText newText : string)
| PToggleChecklistItem (itemId : string)
| PDeleteChecklistItem (itemId : string) (deletedItem : option ChecklistItem)
| PReorderChecklist (newOrder oldOrder : list string)
| PBatch (commands : list SerializableCommand) (description : string).

Definition ser_id (s : SerializableCommand) : string :=
  let 'mkSer i _ _ _ _ := s in i.
Definition ser_type (s : SerializableCommand) : string :=
  let 'mkSer _ t _ _ _ := s in t.
Definition ser_dateKey (s : SerializableCommand) : string :=
  let 'mkSer _ _ k _ _ := s in k.
Definition ser_timestamp (s : SerializableCommand) : IsoString :=
  let 'mkSer _ _ _ t _ := s in t.
Definition ser_data (s : SerializableCommand) : Payload :=
  let 'mkSer _ _ _ _ d := s in d.

(** [interface Command]; its methods [execute], [undo], [merge] and
    [serialize] are named [cmd_execute], [cmd_undo], [cmd_merge] and
    [cmd_serialize] here, [undo] being also a method of the manager.
    [execute] and [undo] are asynchronous and may reject; they may mutate
    the receiver, so the receiver is returned.  [merge?] and [serialize?]
    are optional members: an absent [merge] is indistinguishable from one
    that returns [null], an absent [serialize] yields [undefined].  [deserializeCommand] is the factory that
    undoRedo.ts imports from commands.ts; the constructors it calls draw a
    UUID, so it runs in the world. *)
Class Command (C : Type) := {
  cmd_type : C -> string;
  cmd_dateKey : C -> string;
  cmd_timestamp : C -> Date;
  cmd_execute : C -> World -> C * World * Outcome unit;
  cmd_undo : C -> World -> C * World * Outcome unit;
  cmd_merge : C -> C -> World -> World * option C;
  cmd_serialize : C -> Outcome (option SerializableCommand);
  deserializeCommand : SerializableCommand -> World -> World * option C }.

(* ================================================================== *)
(** * commands.ts: the command catalog *)
(* ================================================================== *)

(** The fields of [BaseCommand]. *)
Record BaseCommand := mkBase {
  base_id : string;
  base_type : string;
  base_dateKey : string;
  base_timestamp : Date }.

(** [super(type, dateKey)]: [this.id = crypto.randomUUID()] and
    [this.timestamp = new Date()], the clock reading [now]. *)
Definition new_base (type dateKey : string) (now : Date) (w : World)
  : World * BaseCommand :=
  let '(w1, id) := randomUUID w in
  (w1, mkBase id type dateKey now).

Definition set_timestamp (b : BaseCommand) (t : Date) : BaseCommand :=
  mkBase (base_id b) (base_type b) (base_dateKey b) t.

Definition set_id (b : BaseCommand) (i : string) : BaseCommand :=
  mkBase i (base_type b) (base_dateKey b) (base_timestamp b).

(** The catalog as a tagged union: one constructor per class, carrying the
    private fields of the class. *)
#[warnings="-register-all"]
Inductive Cmd :=
| AddNoteCommand (base : BaseCommand) (noteId : option string)
                 (content : string) (onNoteAdded : option Callback)
| EditNoteCommand (base : BaseCommand) (noteId newContent oldContent : string)
                  (onNoteUpdated : option Callback)
| DeleteNoteCommand (base : BaseCommand) (noteId : string)
                    (deletedNote : option Note)
                    (onNoteDeleted onNoteRestored : option Callback)
| AddChecklistItemCommand (base : BaseCommand) (itemId : option string)
                          (text : string) (onItemAdded : option Callback)
| EditChecklistItemCommand (base : BaseCommand) (itemId newText oldText : string)
                           (onItemUpdated : option Callback)
| ToggleChecklistItemCommand (base : BaseCommand) (itemId : string)
                             (onItemToggled : option Callback)
| DeleteChecklistItemCommand (base : BaseCommand) (itemId : string)
                             (deletedItem : option ChecklistItem)
                             (onItemDeleted onItemRestored : option Callback)
| ReorderChecklistCommand (base : BaseCommand) (newOrder oldOrder : list string)
                          (onItemsReordered : option Callback)
| BatchCommand (base : BaseCommand) (commands : list Cmd) (description : string).

Definition base_of (c : Cmd) : BaseCommand :=
  match c with
  | AddNoteCommand b _ _ _ | EditNoteCommand b _ _ _ _
  | DeleteNoteCommand b _ _ _ _ | AddChecklistItemCommand b _ _ _
  | EditChecklistItemCommand b _ _ _ _ | ToggleChecklistItemCommand b _ _
  | DeleteChecklistItemCommand b _ _ _ _ | ReorderChecklistCommand b _ _ _
  | BatchCommand b _ _ => b
  end.

Definition with_base (c : Cmd) (b : BaseCommand) : Cmd :=
  match c with
  | AddNoteCommand _ a1 a2 a3 => AddNoteCommand b a1 a2 a3
  | EditNoteCommand _ a1 a2 a3 a4 => EditNoteCommand b a1 a2 a3 a4
  | DeleteNoteCommand _ a1 a2 a3 a4 => DeleteNoteCommand b a1 a2 a3 a4
  | AddChecklistItemCommand _ a1 a2 a3 => AddChecklistItemCommand b a1 a2 a3
  | EditChecklistItemCommand _ a1 a2 a3 a4 => EditChecklistItemCommand b a1 a2 a3 a4
  | ToggleChecklistItemCommand _ a1 a2 => ToggleChecklistItemCommand b a1 a2
  | DeleteChecklistItemCommand _ a1 a2 a3 a4 =>
      DeleteChecklistItemCommand b a1 a2 a3 a4
  | ReorderChecklistCommand _ a1 a2 a3 => ReorderChecklistCommand b a1 a2 a3
  | BatchCommand _ a1 a2 => BatchCommand b a1 a2
  end.


Definition new_EditNoteCommand (dateKey noteId oldContent newContent : string)
    (onNoteUpdated : option Callback) (now : Date) (w : World) : World * Cmd :=
  let '(w1, b) := new_base "edit-note" dateKey now w in
  (w1, EditNoteCommand b noteId newContent oldContent onNoteUpdated).

Definition new_DeleteNoteCommand (dateKey noteId : string)
    (onNoteDeleted onNoteRestored : option Callback) (now : Date) (w : World)
  : World * Cmd :=
  let '(w1, b) := new_base "delete-note" dateKey now w in
  (w1, DeleteNoteCommand b noteId None onNoteDeleted onNoteRestored).

Definition new_AddChecklistItemCommand (dateKey text : string)
    (onItemAdded : option Callback) (now : Date) (w : World) : World * Cmd :=
  let '(w1, b) := new_base "add-checklist-item" dateKey now w in
  (w1, AddChecklistItemCommand b None text onItemAdded).

Definition new_EditChecklistItemCommand (dateKey itemId oldText newText : string)
    (onItemUpdated : option Callback) (now : Date) (w : World) : World * Cmd :=
  let '(w1, b) := new_base "edit-checklist-item" dateKey now w in
  (w1, EditChecklistItemCommand b itemId newText oldText onItemUpdated).

Definition new_ToggleChecklistItemCommand (dateKey itemId : string)
    (onItemToggled : option Callback) (now : Date) (w : World) : World * Cmd :=
  let '(w1, b) := new_base "toggle-checklist-item" dateKey now w in
  (w1, ToggleChecklistItemCommand b itemId onItemToggled).

Definition new_DeleteChecklistItemCommand (dateKey itemId : string)
    (onItemDeleted onItemRestored : option Callback) (now : Date) (w : World)
  : World * Cmd :=
  let '(w1, b) := new_base "delete-checklist-item" dateKey now w in
  (w1, DeleteChecklistItemCommand b itemId None onItemDeleted onItemRestored).

Definition new_ReorderChecklistCommand (dateKey : string) (newOrder : list string)
    (onItemsReordered : option Callback) (now : Date) (w : World) : World * Cmd :=
  let '(w1, b) := new_base "reorder-checklist" dateKey now w in
  (w1, ReorderChecklistCommand b newOrder [] onItemsReordered).

Definition new_BatchCommand (dateKey : string) (commands : list Cmd)
    (description : string) (now : Date) (w : World) : World * Cmd :=
  let '(w1, b) := new_base "batch" dateKey now w in
  (w1, BatchCommand b commands description).

(** [if (this.noteId)]: [null] and the empty string are falsy. *)
Definition truthy_id (s : option string) : option string :=
  match s with
  | Some i => if String.eqb i "" then None else Some i
  | None => None
  end.

(** [execute()] of each class. *)
Fixpoint Cmd_execute (c : Cmd) (w : World) {struct c}
  : Cmd * World * Outcome unit :=
  match c with
  | AddNoteCommand b _ content cb =>
      let '(w1, note) := addNote (base_dateKey b) content w in
      (AddNoteCommand b (Some (note_id note)) content cb, w1, call_opt cb)
  | EditNoteCommand b noteId newContent _ cb =>
      (c, updateNote (base_dateKey b) noteId newContent w, call_opt cb)
  | DeleteNoteCommand b noteId _ cbDeleted cbRestored =>
      let '(w1, dayData) := getDayData (base_dateKey b) w in
      let deletedNote :=
        match dayData with
        | Some d => List.find (fun n => String.eqb (note_id n) noteId) (day_notes d)
        | None => None
        end in
      (DeleteNoteCommand b noteId deletedNote cbDeleted cbRestored,
       deleteNote (base_dateKey b) noteId w1, call_opt cbDeleted)
  | AddChecklistItemCommand b _ text cb =>
      let '(w1, item) := addChecklistItem (base_dateKey b) text w in
      (AddChecklistItemCommand b (Some (item_id item)) text cb, w1, call_opt cb)
  | EditChecklistItemCommand b itemId newText _ cb =>
      (c, updateChecklistItem (base_dateKey b) itemId
            (mkUpdates (Some newText) None) w,
       call_opt cb)
  | ToggleChecklistItemCommand b itemId cb =>
      let '(w1, dayData) := getDayData (base_dateKey b) w in
      match match dayData with
            | Some d => List.find (fun i => String.eqb (item_id i) itemId)
                                  (day_checklist d)
            | None => None
            end with
      | Some item =>
          (c, updateChecklistItem (base_dateKey b) itemId
                (mkUpdates None (Some (negb (item_completed item)))) w1,
           call_opt cb)
      | None => (c, w1, Done tt)
      end
  | DeleteChecklistItemCommand b itemId _ cbDeleted cbRestored =>
      let '(w1, dayData) := getDayData (base_dateKey b) w in
      let deletedItem :=
        match dayData with
        | Some d => List.find (fun i => String.eqb (item_id i) itemId)
                              (day_checklist d)
        | None => None
        end in
      (DeleteChecklistItemCommand b itemId deletedItem cbDeleted cbRestored,
       deleteChecklistItem (base_dateKey b) itemId w1, call_opt cbDeleted)
  | ReorderChecklistCommand b newOrder oldOrder cb =>
      let '(w1, dayData) := getDayData (base_dateKey b) w in
      let oldOrder' :=
        match dayData with
        | Some d => List.map item_id (sort_by_order (day_checklist d))
        | None => oldOrder
        end in
      (ReorderChecklistCommand b newOrder oldOrder' cb,
       reorderChecklistItems (base_dateKey b) newOrder w1, call_opt cb)
  | BatchCommand b commands description =>
      let fix each (l : list Cmd) (w : World) : list Cmd * World * Outcome unit :=
        match l with
        | [] => ([], w, Done tt)
        | c1 :: l' =>
            match Cmd_execute c1 w with
            | (c1', w1, Done _) =>
                let '(l'', w2, r) := each l' w1 in (c1' :: l'', w2, r)
            | (c1', w1, Throw e) => (c1' :: l', w1, Throw e)
            end
        end in
      let '(commands', w1, r) := each commands w in
      (BatchCommand b commands' description, w1, r)
  end.

(** [undo()] of each class.  No [undo] of the catalog writes a field of its
    receiver; [BatchCommand.undo] runs its commands last to first. *)
Fixpoint Cmd_undo (c : Cmd) (w : World) {struct c}
  : Cmd * World * Outcome unit :=
  match c with
  | AddNoteCommand b noteId _ _ =>
      match truthy_id noteId with
      | Some nid => (c, deleteNote (base_dateKey b) nid w, Done tt)
      | None => (c, w, Done tt)
      end
  | EditNoteCommand b noteId _ oldContent cb =>
      (c, updateNote (base_dateKey b) noteId oldContent w, call_opt cb)
  | DeleteNoteCommand b _ deletedNote _ cbRestored =>
      match deletedNote with
      | Some note =>
          let '(w1, _) := addNote (base_dateKey b) (note_content note) w in
          (c, w1, call_opt cbRestored)
      | None => (c, w, Done tt)
      end
  | AddChecklistItemCommand b itemId _ _ =>
      match truthy_id itemId with
      | Some iid => (c, deleteChecklistItem (base_dateKey b) iid w, Done tt)
      | None => (c, w, Done tt)
      end
  | EditChecklistItemCommand b itemId _ oldText cb =>
      (c, updateChecklistItem (base_dateKey b) itemId
            (mkUpdates (Some oldText) None) w,
       call_opt cb)
  | ToggleChecklistItemCommand b itemId cb =>
      let '(w1, dayData) := getDayData (base_dateKey b) w in
      match match dayData with
            | Some d => List.find (fun i => String.eqb (item_id i) itemId)
                                  (day_checklist d)
            | None => None
            end with
      | Some item =>
          (c, updateChecklistItem (base_dateKey b) itemId
                (mkUpdates None (Some (negb (item_completed item)))) w1,
           call_opt cb)
      | None => (c, w1, Done tt)
      end
  | DeleteChecklistItemCommand b _ deletedItem _ cbRestored =>
      match deletedItem with
      | Some deleted =>
          let '(w1, item) :=
            addChecklistItem (base_dateKey b) (item_text deleted) w in
          let w2 :=
            if item_completed deleted
            then updateChecklistItem (base_dateKey b) (item_id item)
                   (mkUpdates None (Some true)) w1
            else w1 in
          (c, w2, call_opt cbRestored)
      | None => (c, w, Done tt)
      end
  | ReorderChecklistCommand b _ oldOrder cb =>
      match oldOrder with
      | _ :: _ =>
          (c, reorderChecklistItems (base_dateKey b) oldOrder w, call_opt cb)
      | [] => (c, w, Done tt)
      end
  | BatchCommand b commands description =>
      let fix each (l : list Cmd) (w : World) : list Cmd * World * Outcome unit :=
        match l with
        | [] => ([], w, Done tt)
        | c1 :: l' =>
            match each l' w with
            | (l'', w1, Done _) =>
                let '(c1', w2, r) := Cmd_undo c1 w1 in (c1' :: l'', w2, r)
            | (l'', w1, Throw e) => (c1 :: l'', w1, Throw e)
            end
        end in
      let '(commands', w1, r) := each commands w in
      (BatchCommand b commands' description, w1, r)
  end.

(** [this.merge(other)].  [BaseCommand.merge] returns [null]; the two text
    edits and the reorder override it.  The merged command is built by the
    class constructor (which draws a fresh id) and then given
    [other.timestamp]. *)
Definition Cmd_merge (this other : Cmd) (w : World) : World * option Cmd :=
  match this, other with
  | EditNoteCommand b noteId _ oldContent cb,
    EditNoteCommand ob onoteId onewContent _ _ =>
      if String.eqb onoteId noteId
         && String.eqb (base_type ob) (base_type b)
         && diff_lt (base_timestamp ob) (base_timestamp b) 2000
      then
        let '(w1, mergedCommand) :=
          new_EditNoteCommand (base_dateKey b) noteId
            oldContent    (* this.oldContent *)
            onewContent   (* other.newContent *)
            cb (base_timestamp ob) w in
        (w1, Some (with_base mergedCommand
                     (set_timestamp (base_of mergedCommand) (base_timestamp ob))))
      else (w, None)
  | EditChecklistItemCommand b itemId _ oldText cb,
    EditChecklistItemCommand ob oitemId onewText _ _ =>
      if String.eqb oitemId itemId
         && String.eqb (base_type ob) (base_type b)
         && diff_lt (base_timestamp ob) (base_timestamp b) 1500
      then
        let '(w1, mergedCommand) :=
          new_EditChecklistItemCommand (base_dateKey b) itemId
            oldText       (* this.oldText *)
            onewText      (* other.newText *)
            cb (base_timestamp ob) w in
        (w1, Some (with_base mergedCommand
                     (set_timestamp (base_of mergedCommand) (base_timestamp ob))))
      else (w, None)
  | ReorderChecklistCommand b _ oldOrder cb,
    ReorderChecklistCommand ob onewOrder _ _ =>
      if String.eqb (base_type ob) (base_type b)
         && diff_lt (base_timestamp ob) (base_timestamp b) 500
      then
        let '(w1, b') :=
          new_base "reorder-checklist" (base_dateKey b) (base_timestamp ob) w in
        (w1, Some (ReorderChecklistCommand
                     (set_timestamp b' (base_timestamp ob))
                     onewOrder    (* other.newOrder *)
                     oldOrder     (* this.oldOrder *)
                     cb))
      else (w, None)
  | _, _ => (w, None)
  end.

(** [serialize()] of each class.  The object literal evaluates
    [this.timestamp.toISOString()] before [data]. *)
Definition payload_of_simple (c : Cmd) : Payload :=
  match c with
  | AddNoteCommand _ noteId content _ => PAddNote content noteId
  | EditNoteCommand _ noteId newContent oldContent _ =>
      PEditNote noteId oldContent newContent
  | DeleteNoteCommand _ noteId deletedNote _ _ => PDeleteNote noteId deletedNote
  | AddChecklistItemCommand _ itemId text _ => PAddChecklistItem text itemId
  | EditChecklistItemCommand _ itemId newText oldText _ =>
      PEditChecklistItem itemId oldText newText
  | ToggleChecklistItemCommand _ itemId _ => PToggleChecklistItem itemId
  | DeleteChecklistItemCommand _ itemId deletedItem _ _ =>
      PDeleteChecklistItem itemId deletedItem
  | ReorderChecklistCommand _ newOrder oldOrder _ =>
      PReorderChecklist newOrder oldOrder
  | BatchCommand _ _ description => PBatch [] description
  end.

Fixpoint Cmd_serialize (c : Cmd) : Outcome SerializableCommand :=
  let b := base_of c in
  match toISOString (base_timestamp b) with
  | Throw e => Throw e
  | Done ms =>
      let header := mkSer (base_id b) (base_type b) (base_dateKey b) (Iso ms) in
      match c with
      | BatchCommand _ commands description =>
          (* this.commands.map(cmd => cmd.serialize?.() || null).filter(Boolean) *)
          let fix each (l : list Cmd) : Outcome (list SerializableCommand) :=
            match l with
            | [] => Done []
            | c1 :: l' =>
                match Cmd_serialize c1 with
                | Throw e => Throw e
                | Done s1 =>
                    match each l' with
                    | Throw e => Throw e
                    | Done ss => Done (s1 :: ss)
                    end
                end
            end in
          match each commands with
          | Throw e => Throw e
          | Done ss => Done (header (PBatch ss description))
          end
      | _ => Done (header (payload_of_simple c))
      end
  end.

(** [deserializeCommand(data)]: the [switch] on [data.type], each arm
    calling [fromSerialized] of the class, in a [try] whose handler returns
    [null].  [fromSerialized] calls the constructor without callbacks, then
    overwrites [id] and [timestamp].  A payload that does not have the shape
    written by the class named in [data.type] is outside the typed model;
    the reconstruction is taken to fail on it. *)
Definition restore_base (b : BaseCommand) (data : SerializableCommand)
  : BaseCommand :=
  set_timestamp (set_id b (ser_id data)) (Date_of_iso (ser_timestamp data)).

Fixpoint Cmd_deserialize (data : SerializableCommand) (w : World) {struct data}
  : World * option Cmd :=
  let restore := fun (r : World * Cmd) =>
    (fst r, Some (with_base (snd r) (restore_base (base_of (snd r)) data))) in
  let now := Date_of_iso (ser_timestamp data) in
  match data with
  | mkSer _ type dateKey _ payload =>
      if String.eqb type "add-note" then
        match payload with
        | PAddNote content noteId =>
            let '(w1, b) := new_base "add-note" dateKey now w in
            restore (w1, AddNoteCommand b noteId content None)
        | _ => (w, None)
        end
      else if String.eqb type "edit-note" then
        match payload with
        | PEditNote noteId oldContent newContent =>
            restore (new_EditNoteCommand dateKey noteId oldContent newContent
                                         None now w)
        | _ => (w, None)
        end
      else if String.eqb type "delete-note" then
        match payload with
        | PDeleteNote noteId deletedNote =>
            let '(w1, b) := new_base "delete-note" dateKey now w in
            restore (w1, DeleteNoteCommand b noteId deletedNote None None)
        | _ => (w, None)
        end
      else if String.eqb type "add-checklist-item" then
        match payload with
        | PAddChecklistItem text itemId =>
            let '(w1, b) := new_base "add-checklist-item" dateKey now w in
            restore (w1, AddChecklistItemCommand b itemId text None)
        | _ => (w, None)
        end
      else if String.eqb type "edit-checklist-item" then
        match payload with
        | PEditChecklistItem itemId oldText newText =>
            restore (new_EditChecklistItemCommand dateKey itemId oldText newText
                                                  None now w)
        | _ => (w, None)
        end
      else if String.eqb type "toggle-checklist-item" then
        match payload with
        | PToggleChecklistItem itemId =>
            restore (new_ToggleChecklistItemCommand dateKey itemId None now w)
        | _ => (w, None)
        end
      else if String.eqb type "delete-checklist-item" then
        match payload with
        | PDeleteChecklistItem itemId deletedItem =>
            let '(w1, b) := new_base "delete-checklist-item" dateKey now w in
            restore (w1, DeleteChecklistItemCommand b itemId deletedItem None None)
        | _ => (w, None)
        end
      else if String.eqb type "reorder-checklist" then
        match payload with
        | PReorderChecklist newOrder oldOrder =>
            let '(w1, b) := new_base "reorder-checklist" dateKey now w in
            restore (w1, ReorderChecklistCommand b newOrder oldOrder None)
        | _ => (w, None)
        end
      else if String.eqb type "batch" then
        match payload with
        | PBatch commands description =>
            (* data.data.commands.map(deserializeCommand).filter(Boolean) *)
            let fix each (l : list SerializableCommand) (w : World)
              : World * list Cmd :=
              match l with
              | [] => (w, [])
              | s1 :: l' =>
                  let '(w1, c1) := Cmd_deserialize s1 w in
                  let '(w2, cs) := each l' w1 in
                  (w2, match c1 with Some c => c :: cs | None => cs end)
              end in
            let '(w1, cs) := each commands w in
            restore (new_BatchCommand dateKey cs description now w1)
        | _ => (w, None)
        end
      else (w, None)   (* unknown command type *)
  end.

#[export] Instance Cmd_Command : Command Cmd := {|
  cmd_type c := base_type (base_of c);
  cmd_dateKey c := base_dateKey (base_of c);
  cmd_timestamp c := base_timestamp (base_of c);
  cmd_execute := Cmd_execute;
  cmd_undo := Cmd_undo;
  cmd_merge := Cmd_merge;
  cmd_serialize c :=
    match Cmd_serialize c with Done s => Done (Some s) | Throw e => Throw e end;
  deserializeCommand := Cmd_deserialize |}.

(* ================================================================== *)
(** * undoRedo.ts: the history store *)
(* ================================================================== *)

(** [HistoryState], the persisted unit (without [lastModified]). *)
Record HistoryState := mkHistoryState {
  hs_undoStack : list SerializableCommand;
  hs_redoStack : list SerializableCommand;
  hs_dateKey : string;
  hs_maxHistorySize : Z }.

Record UndoRedoConfig := mkConfig {
  cfg_maxHistorySize : Z;
  cfg_enablePersistence : bool;
  cfg_mergeTimeWindow : Z;
  cfg_enableOptimisticUpdates : bool }.

Definition DEFAULT_MAX_HISTORY_SIZE : Z := 100.
Definition MERGE_TIME_WINDOW : Z := 1000.

Definition defaultConfig : UndoRedoConfig :=
  mkConfig DEFAULT_MAX_HISTORY_SIZE true MERGE_TIME_WINDOW true.

(** A call made to the durable backend (IndexedDB). *)
Inductive IdbCall :=
| IdbOpen
| IdbGet (key : string)
| IdbPut (key : string).

(** The module variables of undoRedo.ts ([historyDbInstance], which is
    [null] or a handle, [isHistoryDBAvailable], [fallbackHistoryStorage],
    [globalConfig]) and the browser's IndexedDB database
    ['goal-tracker-history']: whether [openDB], [get] and [put] succeed at
    present, the rows of the object store ['history'] (key path
    ['dateKey']), and the calls made so far, latest first. *)
Record HistoryDB := mkHistoryDB {
  historyDbInstance : bool;
  isHistoryDBAvailable : bool;
  fallbackHistoryStorage : gmap string HistoryState;
  globalConfig : UndoRedoConfig;
  idb_opens : bool;
  idb_reads : bool;
  idb_writes : bool;
  idb_rows : gmap string HistoryState;
  idb_calls : list IdbCall }.

Definition log_call (k : IdbCall) (h : HistoryDB) : HistoryDB :=
  mkHistoryDB (historyDbInstance h) (isHistoryDBAvailable h)
              (fallbackHistoryStorage h) (globalConfig h)
              (idb_opens h) (idb_reads h) (idb_writes h) (idb_rows h)
              (k :: idb_calls h).

Definition set_fallbackHistory (st : HistoryState) (h : HistoryDB) : HistoryDB :=
  mkHistoryDB (historyDbInstance h) (isHistoryDBAvailable h)
              (<[hs_dateKey st := st]> (fallbackHistoryStorage h))
              (globalConfig h)
              (idb_opens h) (idb_reads h) (idb_writes h) (idb_rows h)
              (idb_calls h).

Definition put_row (st : HistoryState) (h : HistoryDB) : HistoryDB :=
  mkHistoryDB (historyDbInstance h) (isHistoryDBAvailable h)
              (fallbackHistoryStorage h) (globalConfig h)
              (idb_opens h) (idb_reads h) (idb_writes h)
              (<[hs_dateKey st := st]> (idb_rows h))
              (idb_calls h).

(** [configureUndoRedo(config)] with every key of [config] present. *)
Definition configureUndoRedo (config : UndoRedoConfig) (h : HistoryDB) : HistoryDB :=
  mkHistoryDB (historyDbInstance h) (isHistoryDBAvailable h)
              (fallbackHistoryStorage h) config
              (idb_opens h) (idb_reads h) (idb_writes h) (idb_rows h)
              (idb_calls h).

(** [initHistoryDB()]: on success the handle is stored; on failure the
    handler clears [isHistoryDBAvailable]. *)
Definition initHistoryDB (h : HistoryDB) : HistoryDB :=
  let h1 := log_call IdbOpen h in
  if idb_opens h1 then
    mkHistoryDB true (isHistoryDBAvailable h1)
                (fallbackHistoryStorage h1) (globalConfig h1)
                (idb_opens h1) (idb_reads h1) (idb_writes h1) (idb_rows h1)
                (idb_calls h1)
  else
    mkHistoryDB (historyDbInstance h1) false
                (fallbackHistoryStorage h1) (globalConfig h1)
                (idb_opens h1) (idb_reads h1) (idb_writes h1) (idb_rows h1)
                (idb_calls h1).

(** [getPersistedHistory(dateKey)] *)
Definition getPersistedHistory (dateKey : string) (h : HistoryDB)
  : HistoryDB * option HistoryState :=
  if negb (isHistoryDBAvailable h) then
    (h, fallbackHistoryStorage h !! dateKey)
  else
    let h1 := if negb (historyDbInstance h) then initHistoryDB h else h in
    if negb (historyDbInstance h1) then (h1, None)
    else
      let h2 := log_call (IdbGet dateKey) h1 in
      if idb_reads h2 then (h2, idb_rows h2 !! dateKey)
      else (* catch *) (h2, fallbackHistoryStorage h2 !! dateKey).

Section HistoryManager.

Context {C : Type} `{Command C}.

(** [class HistoryManager] (without its listeners: a listener runs inside
    [notifyListeners], which catches whatever it throws, and while
    [isExecuting] is set).  A stack entry is a command or [undefined]:
    [this.redoStack.pop()!] on an empty stack yields [undefined], and the
    handlers of [undo] and [redo] push what they popped. *)
Record HistoryManager := mkManager {
  undoStack : list (option C);
  redoStack : list (option C);
  currentDateKey : string;
  maxHistorySize : Z;
  isExecuting : bool }.

(** The manager together with the module state it reads and writes. *)
Record State := mkState {
  manager : HistoryManager;
  history : HistoryDB;
  world : World }.

Definition set_undoStack (l : list (option C)) (s : State) : State :=
  let m := manager s in
  mkState (mkManager l (redoStack m) (currentDateKey m) (maxHistorySize m)
                     (isExecuting m))
          (history s) (world s).

Definition set_redoStack (l : list (option C)) (s : State) : State :=
  let m := manager s in
  mkState (mkManager (undoStack m) l (currentDateKey m) (maxHistorySize m)
                     (isExecuting m))
          (history s) (world s).

Definition set_currentDateKey (k : string) (s : State) : State :=
  let m := manager s in
  mkState (mkManager (undoStack m) (redoStack m) k (maxHistorySize m)
                     (isExecuting m))
          (history s) (world s).

Definition set_isExecuting (b : bool) (s : State) : State :=
  let m := manager s in
  mkState (mkManager (undoStack m) (redoStack m) (currentDateKey m)
                     (maxHistorySize m) b)
          (history s) (world s).

Definition set_history (h : HistoryDB) (s : State) : State :=
  mkState (manager s) h (world s).

Definition set_world (w : World) (s : State) : State :=
  mkState (manager s) (history s) w.

(** Array operations on a stack. *)
Definition push (x : option C) (l : list (option C)) : list (option C) :=
  l ++ [x].

(** [l[l.length - 1]], and the value of [l.pop()]: the last element,
    [undefined] if there is none. *)
Definition top (l : list (option C)) : option C :=
  match last l with Some x => x | None => None end.

Definition pop_rest (l : list (option C)) : list (option C) := removelast l.

(** [l.shift()] *)
Definition shift (l : list (option C)) : list (option C) := tail l.

(** The same object sits on top of the stack and is mutated by a method
    call: the top entry becomes the updated object. *)
Definition update_top (x : option C) (l : list (option C)) : list (option C) :=
  match l with
  | [] => []
  | _ => removelast l ++ [x]
  end.

(** [command.execute()] and [command.undo()] on a stack entry; on
    [undefined] the member access throws a TypeError. *)
Definition entry_execute (e : option C) (w : World)
  : option C * World * Outcome unit :=
  match e with
  | Some c => let '(c', w', r) := cmd_execute c w in (Some c', w', r)
  | None => (None, w, Throw (TypeError_undefined "execute"))
  end.

Definition entry_undo (e : option C) (w : World)
  : option C * World * Outcome unit :=
  match e with
  | Some c => let '(c', w', r) := cmd_undo c w in (Some c', w', r)
  | None => (None, w, Throw (TypeError_undefined "undo"))
  end.

(** [stack.map(cmd => cmd.serialize?.()).filter(Boolean)] *)
Fixpoint serializeStack (l : list (option C))
  : Outcome (list SerializableCommand) :=
  match l with
  | [] => Done []
  | None :: _ => Throw (TypeError_undefined "serialize")
  | Some c :: l' =>
      match cmd_serialize c with
      | Throw e => Throw e
      | Done s =>
          match serializeStack l' with
          | Throw e => Throw e
          | Done ss => Done (match s with Some x => x :: ss | None => ss end)
          end
      end
  end.

(** The [HistoryState] that [saveHistory] builds. *)
Definition currentHistoryState (m : HistoryManager) : Outcome HistoryState :=
  match serializeStack (undoStack m) with
  | Throw e => Throw e
  | Done undoStackSerialized =>
      match serializeStack (redoStack m) with
      | Throw e => Throw e
      | Done redoStackSerialized =>
          Done (mkHistoryState undoStackSerialized redoStackSerialized
                               (currentDateKey m) (maxHistorySize m))
      end
  end.

(** [saveHistory()].  The handler of its [try] serialises the stacks again
    and stores the state in the in-memory map; only what the handler
    itself throws leaves the function. *)
Definition saveHistory (m : HistoryManager) (h : HistoryDB)
  : HistoryDB * Outcome unit :=
  if negb (cfg_enablePersistence (globalConfig h)) then (h, Done tt)
  else
    let handler := fun h' : HistoryDB =>
      match currentHistoryState m with
      | Throw e => (h', Throw e)
      | Done state => (set_fallbackHistory state h', Done tt)
      end in
    match currentHistoryState m with
    | Throw _ => handler h
    | Done state =>
        if negb (isHistoryDBAvailable h) then
          (set_fallbackHistory state h, Done tt)
        else
          let h1 := if negb (historyDbInstance h) then initHistoryDB h else h in
          if historyDbInstance h1 then
            let h2 := log_call (IdbPut (currentDateKey m)) h1 in
            if idb_writes h2
            then (put_row state h2, Done tt)
            else handler h2
          else (h1, Done tt)
    end.

Definition do_saveHistory (s : State) : State * Outcome unit :=
  let '(h, r) := saveHistory (manager s) (history s) in
  (set_history h s, r).

(** [savedState.undoStack.map(d => deserializeCommand(d)).filter(Boolean)] *)
Fixpoint deserializeStack (l : list SerializableCommand) (w : World)
  : World * list (option C) :=
  match l with
  | [] => (w, [])
  | d :: l' =>
      let '(w1, c) := deserializeCommand d w in
      let '(w2, cs) := deserializeStack l' w1 in
      (w2, match c with Some c' => Some c' :: cs | None => cs end)
  end.

(** [loadHistory()] *)
Definition loadHistory (s : State) : State :=
  if negb (cfg_enablePersistence (globalConfig (history s))) then
    set_redoStack [] (set_undoStack [] s)
  else
    let '(h, savedState) :=
      getPersistedHistory (currentDateKey (manager s)) (history s) in
    let s1 := set_history h s in
    match savedState with
    | Some st =>
        let '(w1, us) := deserializeStack (hs_undoStack st) (world s1) in
        let '(w2, rs) := deserializeStack (hs_redoStack st) w1 in
        set_world w2 (set_redoStack rs (set_undoStack us s1))
    | None => set_redoStack [] (set_undoStack [] s1)
    end.

(** [new HistoryManager(dateKey, maxHistorySize)]; the second argument
    defaults to [globalConfig.maxHistorySize].  The constructor starts
    [loadHistory]. *)
Definition new_HistoryManager (dateKey : string) (maxSize : option Z)
                              (h : HistoryDB) (w : World) : State :=
  loadHistory
    (mkState (mkManager [] [] dateKey
                        (default (cfg_maxHistorySize (globalConfig h)) maxSize)
                        false)
             h w).

(** [canMergeCommands(last, current)] *)
Definition canMergeCommands (h : HistoryDB) (last current : C) : bool :=
  String.eqb (cmd_type last) (cmd_type current)
  && String.eqb (cmd_dateKey last) (cmd_dateKey current)
  && diff_lt (cmd_timestamp current) (cmd_timestamp last)
             (cfg_mergeTimeWindow (globalConfig h)).

(** The merge attempt that opens the [try] block of [executeCommand]:
    [lastCommand && command.merge && this.canMergeCommands(lastCommand,
    command)], then [command.merge(lastCommand)]. *)
Definition tryMerge (command : C) (s : State) : World * option C :=
  match top (undoStack (manager s)) with
  | Some lastCommand =>
      if canMergeCommands (history s) lastCommand command
      then cmd_merge command lastCommand (world s)
      else (world s, None)
  | None => (world s, None)
  end.

(** [this.undoStack.push(command); this.redoStack = [];
    if (this.undoStack.length > this.maxHistorySize) this.undoStack.shift()] *)
Definition pushCommand (command : C) (s : State) : State :=
  let pushed := push (Some command) (undoStack (manager s)) in
  let trimmed :=
    if maxHistorySize (manager s) <? Z.of_nat (length pushed)
    then shift pushed else pushed in
  set_redoStack [] (set_undoStack trimmed s).

(** The inner [try] of [executeCommand] around [saveHistory], entered
    with the executed command on the stack. *)
Definition persistCommand (command : C) (optimisticUpdateApplied : bool)
                          (s : State) : State * bool * Outcome unit :=
  let '(s1, r) := do_saveHistory s in
  match r with
  | Done _ => (s1, optimisticUpdateApplied, Done tt)
  | Throw persistError =>
      let s2 :=
        if optimisticUpdateApplied then
          let '(c', w', r') := cmd_undo command (world s1) in
          let s' := set_world w' s1 in
          match r' with
          | Done _ =>      (* this.undoStack.pop() *)
              set_undoStack (pop_rest (undoStack (manager s'))) s'
          | Throw _ =>     (* the rollback failed; it is only logged *)
              set_undoStack (update_top (Some c') (undoStack (manager s'))) s'
          end
        else s1 in
      (s2, optimisticUpdateApplied,
       Throw (PersistenceError "Failed to persist command" persistError))
  end.

(** The [try] block of [executeCommand].  The result carries the value
    that [optimisticUpdateApplied] has when the block is left. *)
Definition executeCommand_try (command : C) (s : State)
  : State * bool * Outcome unit :=
  let optimistic := cfg_enableOptimisticUpdates (globalConfig (history s)) in
  let '(w0, merged) := tryMerge command s in
  let s := set_world w0 s in
  match merged with
  | Some mergedCommand =>
      if optimistic then
        let '(mc, w1, r) := cmd_execute mergedCommand (world s) in
        let s1 := set_world w1 s in
        match r with
        | Throw e => (s1, false, Throw e)
        | Done _ =>
            let s2 :=
              set_undoStack (update_top (Some mc) (undoStack (manager s1))) s1 in
            let '(s3, r') := do_saveHistory s2 in
            (s3, true, r')
        end
      else
        let s1 :=
          set_undoStack
            (update_top (Some mergedCommand) (undoStack (manager s))) s in
        let '(mc, w1, r) := cmd_execute mergedCommand (world s1) in
        let s2 :=
          set_world w1
            (set_undoStack (update_top (Some mc) (undoStack (manager s1))) s1) in
        match r with
        | Throw e => (s2, false, Throw e)
        | Done _ =>
            let '(s3, r') := do_saveHistory s2 in
            (s3, false, r')
        end
  | None =>
      if optimistic then
        let '(c1, w1, r) := cmd_execute command (world s) in
        let s1 := set_world w1 s in
        match r with
        | Throw e => (s1, false, Throw e)
        | Done _ => persistCommand c1 true (pushCommand c1 s1)
        end
      else
        let s1 := pushCommand command s in
        let '(c1, w1, r) := cmd_execute command (world s1) in
        let s2 :=
          set_world w1
            (set_undoStack (update_top (Some c1) (undoStack (manager s1))) s1) in
        match r with
        | Throw e => (s2, false, Throw e)
        | Done _ => persistCommand c1 false s2
        end
  end.

Definition busy : Exn :=
  UndoRedoError "Cannot execute command while another command is executing".

(** [executeCommand(command)] *)
Definition executeCommand (command : C) (s : State) : State * Outcome unit :=
  if isExecuting (manager s) then (s, Throw busy)
  else
    let '(s1, optimisticUpdateApplied, r) :=
      executeCommand_try command (set_isExecuting true s) in
    let r' :=
      match r with
      | Done _ => Done tt
      | Throw error =>
          if negb optimisticUpdateApplied && instanceof_Error error
          then Throw (CommandExecutionError (message error) error)
          else Throw error
      end in
    (* finally *)
    (set_isExecuting false s1, r').

(** [this.undoStack.push(this.redoStack.pop()!)] *)
Definition redo_to_undo (s : State) : State :=
  let popped := top (redoStack (manager s)) in
  let s1 := set_redoStack (pop_rest (redoStack (manager s))) s in
  set_undoStack (push popped (undoStack (manager s1))) s1.

(** [this.redoStack.push(this.undoStack.pop()!)] *)
Definition undo_to_redo (s : State) : State :=
  let popped := top (undoStack (manager s)) in
  let s1 := set_undoStack (pop_rest (undoStack (manager s))) s in
  set_redoStack (push popped (redoStack (manager s1))) s1.

(** The inner [try] of [undo] around [saveHistory], entered with the
    undone command on top of the redo stack. *)
Definition persistUndo (command : option C) (optimisticUndoApplied : bool)
                       (s : State) : State * bool * Outcome bool :=
  let '(s1, r) := do_saveHistory s in
  match r with
  | Done _ => (s1, optimisticUndoApplied, Done true)
  | Throw persistError =>
      let s2 :=
        if optimisticUndoApplied then
          let '(c', w', r') := entry_execute command (world s1) in
          let s' :=
            set_world w'
              (set_redoStack (update_top c' (redoStack (manager s1))) s1) in
          match r' with
          | Done _ => redo_to_undo s'
          | Throw _ => s'
          end
        else s1 in
      (s2, optimisticUndoApplied,
       Throw (PersistenceError "Failed to persist undo" persistError))
  end.

Definition undo_try (s : State) : State * bool * Outcome bool :=
  let optimistic := cfg_enableOptimisticUpdates (globalConfig (history s)) in
  let command := top (undoStack (manager s)) in
  let s1 := set_undoStack (pop_rest (undoStack (manager s))) s in
  if optimistic then
    let '(c1, w1, r) := entry_undo command (world s1) in
    let s2 := set_world w1 s1 in
    match r with
    | Throw e => (s2, false, Throw e)
    | Done _ =>
        persistUndo c1 true
          (set_redoStack (push c1 (redoStack (manager s2))) s2)
    end
  else
    let s2 := set_redoStack (push command (redoStack (manager s1))) s1 in
    let '(c1, w1, r) := entry_undo command (world s2) in
    let s3 :=
      set_world w1 (set_redoStack (update_top c1 (redoStack (manager s2))) s2) in
    match r with
    | Throw e => (s3, false, Throw e)
    | Done _ => persistUndo c1 false s3
    end.

(** [undo()] *)
Definition undo (s : State) : State * Outcome bool :=
  if (length (undoStack (manager s)) =? 0)%nat || isExecuting (manager s)
  then (s, Done false)
  else
    let '(s1, optimisticUndoApplied, r) := undo_try (set_isExecuting true s) in
    let '(s2, r') :=
      match r with
      | Done b => (s1, Done b)
      | Throw error =>
          ((if negb optimisticUndoApplied then redo_to_undo s1 else s1),
           Throw (CommandExecutionError "Undo failed" error))
      end in
    (set_isExecuting false s2, r').

(** The inner [try] of [redo] around [saveHistory]. *)
Definition persistRedo (command : option C) (optimisticRedoApplied : bool)
                       (s : State) : State * bool * Outcome bool :=
  let '(s1, r) := do_saveHistory s in
  match r with
  | Done _ => (s1, optimisticRedoApplied, Done true)
  | Throw persistError =>
      let s2 :=
        if optimisticRedoApplied then
          let '(c', w', r') := entry_undo command (world s1) in
          let s' :=
            set_world w'
              (set_undoStack (update_top c' (undoStack (manager s1))) s1) in
          match r' with
          | Done _ => undo_to_redo s'
          | Throw _ => s'
          end
        else s1 in
      (s2, optimisticRedoApplied,
       Throw (PersistenceError "Failed to persist redo" persistError))
  end.

Definition redo_try (s : State) : State * bool * Outcome bool :=
  let optimistic := cfg_enableOptimisticUpdates (globalConfig (history s)) in
  let command := top (redoStack (manager s)) in
  let s1 := set_redoStack (pop_rest (redoStack (manager s))) s in
  if optimistic then
    let '(c1, w1, r) := entry_execute command (world s1) in
    let s2 := set_world w1 s1 in
    match r with
    | Throw e => (s2, false, Throw e)
    | Done _ =>
        persistRedo c1 true
          (set_undoStack (push c1 (undoStack (manager s2))) s2)
    end
  else
    let s2 := set_undoStack (push command (undoStack (manager s1))) s1 in
    let '(c1, w1, r) := entry_execute command (world s2) in
    let s3 :=
      set_world w1 (set_undoStack (update_top c1 (undoStack (manager s2))) s2) in
    match r with
    | Throw e => (s3, false, Throw e)
    | Done _ => persistRedo c1 false s3
    end.

(** [redo()] *)
Definition redo (s : State) : State * Outcome bool :=
  if (length (redoStack (manager s)) =? 0)%nat || isExecuting (manager s)
  then (s, Done false)
  else
    let '(s1, optimisticRedoApplied, r) := redo_try (set_isExecuting true s) in
    let '(s2, r') :=
      match r with
      | Done b => (s1, Done b)
      | Throw error =>
          ((if negb optimisticRedoApplied then undo_to_redo s1 else s1),
           Throw (CommandExecutionError "Redo failed" error))
      end in
    (set_isExecuting false s2, r').

Definition canUndo (s : State) : bool :=
  negb (length (undoStack (manager s)) =? 0)%nat && negb (isExecuting (manager s)).

Definition canRedo (s : State) : bool :=
  negb (length (redoStack (manager s)) =? 0)%nat && negb (isExecuting (manager s)).

Definition getStackSizes (s : State) : nat * nat :=
  (length (undoStack (manager s)), length (redoStack (manager s))).

(** [switchDate(dateKey)] *)
Definition switchDate (dateKey : string) (s : State) : State * Outcome unit :=
  if String.eqb (currentDateKey (manager s)) dateKey then (s, Done tt)
  else
    let '(s1, r) := do_saveHistory s in
    match r with
    | Throw e => (s1, Throw e)
    | Done _ =>
        (loadHistory
           (set_currentDateKey dateKey (set_redoStack [] (set_undoStack [] s1))),
         Done tt)
    end.

(** [clearHistory()] *)
Definition clearHistory (s : State) : State * Outcome unit :=
  do_saveHistory (set_redoStack [] (set_undoStack [] s)).

End HistoryManager.

Arguments HistoryManager C : clear implicits.
Arguments State C : clear implicits.
Arguments push {C} x l : simpl never.
Arguments top {C} l : simpl never.
Arguments pop_rest {C} l : simpl never.
Arguments shift {C} l : simpl never.
Arguments update_top {C} x l : simpl never.

Section GlobalManager.

Context {C : Type} `{Command C}.

(** The module variable [globalHistoryManager], with the state of
    undoRedo.ts and db.ts. *)
Record Globals := mkGlobals {
  globalHistoryManager : option (HistoryManager C);
  g_history : HistoryDB;
  g_world : World }.

(** [getHistoryManager(dateKey, maxHistorySize)]; the manager it returns
    is the one that [globalHistoryManager] holds afterwards. *)
Definition getHistoryManager (dateKey : string) (maxSize : option Z)
                             (g : Globals) : Globals :=
  let create :=
    let s := new_HistoryManager dateKey maxSize (g_history g) (g_world g) in
    mkGlobals (Some (manager s)) (history s) (world s) in
  match globalHistoryManager g with
  | Some m => if String.eqb (currentDateKey m) dateKey then g else create
  | None => create
  end.

(** [resetHistoryManager()] *)
Definition resetHistoryManager (g : Globals) : Globals :=
  mkGlobals None (g_history g) (g_world g).

End GlobalManager.

Arguments Globals C : clear implicits.

(* ================================================================== *)
(** * Observations and sessions *)
(* ================================================================== *)

(** What [getDayData(date)] returns: the "read current day record"
    operation through which the day record is observed. *)
Definition readDay (date : string) (w : World) : option DayData :=
  snd (getDayData date w).

(** The notes and the checklist of a day as read; a day without a record
    reads as empty. *)
Definition notesOf (date : string) (w : World) : list Note :=
  match readDay date w with Some d => day_notes d | None => [] end.

Definition checklistOf (date : string) (w : World) : list ChecklistItem :=
  match readDay date w with Some d => day_checklist d | None => [] end.

Definition noteContent (date noteId : string) (w : World) : option string :=
  note_content <$>
    List.find (fun n => String.eqb (note_id n) noteId) (notesOf date w).

Definition itemText (date itemId : string) (w : World) : option string :=
  item_text <$>
    List.find (fun i => String.eqb (item_id i) itemId) (checklistOf date w).

(** A checklist in ascending [order]. *)
Definition le_order (a b : ChecklistItem) : Prop := item_order a <= item_order b.

Definition ordered (l : list ChecklistItem) : Prop := StronglySorted le_order l.



(** The store that is in use, and the invariant that [saveDayData]
    maintains: a record is stored under its own [date]. *)
Definition activeStore (w : World) : gmap string DayData :=
  if isIndexedDBAvailable w then idbDayData w else fallbackStorage w.

Definition wellKeyed (w : World) : Prop :=
  forall k d, activeStore w !! k = Some d -> day_date d = k.




(** The text an edit command writes, the text it restores, and the text
    its target currently has. *)
Definition isTextEdit (c : Cmd) : bool :=
  match c with
  | EditNoteCommand _ _ _ _ _ | EditChecklistItemCommand _ _ _ _ _ => true
  | _ => false
  end.

Definition editOld (c : Cmd) : string :=
  match c with
  | EditNoteCommand _ _ _ oldContent _ => oldContent
  | EditChecklistItemCommand _ _ _ oldText _ => oldText
  | _ => ""
  end.

Definition editNew (c : Cmd) : string :=
  match c with
  | EditNoteCommand _ _ newContent _ _ => newContent
  | EditChecklistItemCommand _ _ newText _ _ => newText
  | _ => ""
  end.

Definition targetText (c : Cmd) (w : World) : option string :=
  match c with
  | EditNoteCommand b noteId _ _ _ => noteContent (base_dateKey b) noteId w
  | EditChecklistItemCommand b itemId _ _ _ => itemText (base_dateKey b) itemId w
  | _ => None
  end.


(** Two text edits of one item: the same class, the same target id. *)
Definition sameTarget (c1 c2 : Cmd) : bool :=
  match c1, c2 with
  | EditNoteCommand _ n1 _ _ _, EditNoteCommand _ n2 _ _ _ => String.eqb n1 n2
  | EditChecklistItemCommand _ i1 _ _ _, EditChecklistItemCommand _ i2 _ _ _ =>
      String.eqb i1 i2
  | _, _ => false
  end.

(** The type tag that the constructor of the class of [c] sets. *)
Definition classTag (c : Cmd) : string :=
  match c with
  | AddNoteCommand _ _ _ _ => "add-note"
  | EditNoteCommand _ _ _ _ _ => "edit-note"
  | DeleteNoteCommand _ _ _ _ _ => "delete-note"
  | AddChecklistItemCommand _ _ _ _ => "add-checklist-item"
  | EditChecklistItemCommand _ _ _ _ _ => "edit-checklist-item"
  | ToggleChecklistItemCommand _ _ _ => "toggle-checklist-item"
  | DeleteChecklistItemCommand _ _ _ _ _ => "delete-checklist-item"
  | ReorderChecklistCommand _ _ _ _ => "reorder-checklist"
  | BatchCommand _ _ _ => "batch"
  end.


Section Session.

Context {C : Type} `{Command C}.

(** What can happen during a session: the operations of the manager, the
    creation of a manager for another date ([getHistoryManager]), a change
    of configuration, and a change of the durable backend's behaviour (it
    starts or stops opening, answering reads, accepting writes; its rows
    change). *)
Inductive Event :=
| EvExecuteCommand (command : C)
| EvUndo
| EvRedo
| EvSwitchDate (dateKey : string)
| EvClearHistory
| EvNewManager (dateKey : string) (maxSize : option Z)
| EvConfigure (config : UndoRedoConfig)
| EvBackend (opens reads writes : bool) (rows : gmap string HistoryState).

Definition set_backend (opens reads writes : bool)
    (rows : gmap string HistoryState) (h : HistoryDB) : HistoryDB :=
  mkHistoryDB (historyDbInstance h) (isHistoryDBAvailable h)
              (fallbackHistoryStorage h) (globalConfig h)
              opens reads writes rows (idb_calls h).

Definition step (e : Event) (s : State C) : State C :=
  match e with
  | EvExecuteCommand c => fst (executeCommand c s)
  | EvUndo => fst (undo s)
  | EvRedo => fst (redo s)
  | EvSwitchDate k => fst (switchDate k s)
  | EvClearHistory => fst (clearHistory s)
  | EvNewManager k maxSize => new_HistoryManager k maxSize (history s) (world s)
  | EvConfigure cfg => set_history (configureUndoRedo cfg (history s)) s
  | EvBackend o r wr rows => set_history (set_backend o r wr rows (history s)) s
  end.

Definition run (evs : list Event) (s : State C) : State C :=
  fold_left (fun s e => step e s) evs s.

(** A manager that has just been created over an empty history. *)
Definition fresh (s : State C) : Prop :=
  undoStack (manager s) = [] /\ redoStack (manager s) = []
  /\ isExecuting (manager s) = false.

(** The history store runs on the in-memory map, and the calls made to
    the durable backend are [calls]. *)
Definition memoryOnly (calls : list IdbCall) (h : HistoryDB) : Prop :=
  isHistoryDBAvailable h = false /\ idb_calls h = calls.

(** The two stacks together hold at most [maxHistorySize] entries. *)
Definition withinCapacity (m : HistoryManager C) : Prop :=
  Z.of_nat (length (undoStack m) + length (redoStack m)) <= maxHistorySize m.

(** The events that replace the stacks by what the history store holds. *)
Definition loadsHistory (e : Event) : bool :=
  match e with
  | EvSwitchDate _ | EvNewManager _ _ => true
  | _ => false
  end.

(** Every entry of a stack serialises; every entry of both stacks does. *)
Definition stackOK (l : list (option C)) : Prop :=
  exists ss, serializeStack l = Done ss.

Definition serialisable (m : HistoryManager C) : Prop :=
  exists st, currentHistoryState m = Done st.

End Session.

Arguments Event C : clear implicits.

(** ** The writers of the day store *)

(** A call to one of the writers of db.ts, for a date. *)
Inductive DbWrite :=
| WAddNote (content : string)
| WUpdateNote (noteId content : string)
| WDeleteNote (noteId : string)
| WAddChecklistItem (text : string)
| WUpdateChecklistItem (itemId : string) (updates : ItemUpdates)
| WReorderChecklistItems (itemIds : list string)
| WDeleteChecklistItem (itemId : string)
| WTrimEmptyChecklistItems
| WCreateEmptyDayData.

Definition applyWrite (trim : string -> string) (date : string) (op : DbWrite)
                      (w : World) : World :=
  match op with
  | WAddNote content => fst (addNote date content w)
  | WUpdateNote noteId content => updateNote date noteId content w
  | WDeleteNote noteId => deleteNote date noteId w
  | WAddChecklistItem text => fst (addChecklistItem date text w)
  | WUpdateChecklistItem itemId updates =>
      updateChecklistItem date itemId updates w
  | WReorderChecklistItems itemIds => reorderChecklistItems date itemIds w
  | WDeleteChecklistItem itemId => deleteChecklistItem date itemId w
  | WTrimEmptyChecklistItems => trimEmptyChecklistItems trim date w
  | WCreateEmptyDayData => fst (createEmptyDayData date w)
  end.

(** The checklist item with an id, as the day reads. *)
Definition itemOf (date itemId : string) (w : World) : option ChecklistItem :=
  List.find (fun i => String.eqb (item_id i) itemId) (checklistOf date w).

(** ** The persisted form of the catalog *)

(** A command as [fromSerialized] rebuilds it: without its callbacks, the
    commands of a batch likewise. *)
Fixpoint withoutCallbacks (c : Cmd) : Cmd :=
  match c with
  | AddNoteCommand b noteId content _ => AddNoteCommand b noteId content None
  | EditNoteCommand b noteId newContent oldContent _ =>
      EditNoteCommand b noteId newContent oldContent None
  | DeleteNoteCommand b noteId deletedNote _ _ =>
      DeleteNoteCommand b noteId deletedNote None None
  | AddChecklistItemCommand b itemId text _ =>
      AddChecklistItemCommand b itemId text None
  | EditChecklistItemCommand b itemId newText oldText _ =>
      EditChecklistItemCommand b itemId newText oldText None
  | ToggleChecklistItemCommand b itemId _ =>
      ToggleChecklistItemCommand b itemId None
  | DeleteChecklistItemCommand b itemId deletedItem _ _ =>
      DeleteChecklistItemCommand b itemId deletedItem None None
  | ReorderChecklistCommand b newOrder oldOrder _ =>
      ReorderChecklistCommand b newOrder oldOrder None
  | BatchCommand b commands description =>
      BatchCommand b (List.map withoutCallbacks commands) description
  end.

Definition isValidDate (d : Date) : bool :=
  match d with ValidDate _ => true | InvalidDate => false end.

(** A command as the constructor of its class tags it, with a timestamp
    that is a valid date; the commands of a batch likewise. *)
Fixpoint constructed (c : Cmd) : bool :=
  String.eqb (base_type (base_of c)) (classTag c)
  && isValidDate (base_timestamp (base_of c))
  && match c with
     | BatchCommand _ commands _ => forallb constructed commands
     | _ => true
     end.

(** Persisted data as [serialize] writes it: an ISO timestamp, and the
    payload of the class that the type tag names; the data of the commands
    of a batch likewise. *)
Fixpoint writtenBySerialize (data : SerializableCommand) : bool :=
  match data with
  | mkSer _ type _ timestamp payload =>
      match timestamp with Iso _ => true | Unparsable _ => false end
      && match payload with
         | PAddNote _ _ => String.eqb type "add-note"
         | PEditNote _ _ _ => String.eqb type "edit-note"
         | PDeleteNote _ _ => String.eqb type "delete-note"
         | PAddChecklistItem _ _ => String.eqb type "add-checklist-item"
         | PEditChecklistItem _ _ _ => String.eqb type "edit-checklist-item"
         | PToggleChecklistItem _ => String.eqb type "toggle-checklist-item"
         | PDeleteChecklistItem _ _ => String.eqb type "delete-checklist-item"
         | PReorderChecklist _ _ => String.eqb type "reorder-checklist"
         | PBatch commands _ =>
             String.eqb type "batch" && forallb writtenBySerialize commands
         end
  end.

(** A stack whose entries are commands of the catalog, each [constructed]. *)
Definition constructedStack (l : list (option Cmd)) : Prop :=
  Forall (fun e => exists c, e = Some c /\ constructed c = true) l.

(** A history store whose reads return what its writes stored: it runs on
    the in-memory map, or its durable backend opens, reads and writes. *)
Definition reliable (h : HistoryDB) : Prop :=
  isHistoryDBAvailable h = false
  \/ (isHistoryDBAvailable h = true /\ idb_opens h = true
      /\ idb_reads h = true /\ idb_writes h = true).

(* ================================================================== *)
(** * useUndoRedo.ts: the hook around the manager *)
(* ================================================================== *)

(** The calls that the hook makes to the callbacks it was given. *)
Inductive HookCall :=
| OnSuccess (action : string)
| OnError (error : Exn).

(** [error instanceof UndoRedoError] *)
Definition instanceof_UndoRedoError (e : Exn) : bool :=
  match e with
  | UndoRedoError _ | PersistenceError _ _ | CommandExecutionError _ _ => true
  | _ => false
  end.

(** [error instanceof Error ? error : new Error(String(error))] *)
Definition as_Error (e : Exn) : Exn :=
  match e with
  | Thrown value => Error "Error" value
  | _ => e
  end.

Section Hook.

Context {C : Type} `{Command C}.

(** The wrappers that [useUndoRedo] returns.  [current] is
    [historyManagerRef.current] with the module state; [isExecuting],
    [canUndo] and [canRedo] are the values of the hook's own state that
    the wrapper closed over. *)
Definition hook_executeCommand (current : option (State C)) (isExecuting : bool)
    (command : C) : option (State C) * list HookCall * Outcome unit :=
  match current with
  | None => (None, [], Throw (UndoRedoError "History manager not initialized"))
  | Some s =>
      if isExecuting then
        (Some s, [],
         Throw (UndoRedoError
                  "Cannot execute command while another command is executing"))
      else
        match executeCommand command s with
        | (s', Done _) => (Some s', [], Done tt)
        | (s', Throw error) =>
            let errorObj :=
              if instanceof_UndoRedoError error then error
              else as_Error error in
            (Some s', [OnError errorObj], Throw errorObj)
        end
  end.

Definition hook_undo (current : option (State C)) (isExecuting canUndo : bool)
  : option (State C) * list HookCall * bool :=
  match current with
  | None => (None, [], false)
  | Some s =>
      if isExecuting || negb canUndo then (Some s, [], false)
      else
        match undo s with
        | (s', Done success) =>
            (Some s', (if success then [OnSuccess "undo"] else []), success)
        | (s', Throw error) => (Some s', [OnError (as_Error error)], false)
        end
  end.

Definition hook_redo (current : option (State C)) (isExecuting canRedo : bool)
  : option (State C) * list HookCall * bool :=
  match current with
  | None => (None, [], false)
  | Some s =>
      if isExecuting || negb canRedo then (Some s, [], false)
      else
        match redo s with
        | (s', Done success) =>
            (Some s', (if success then [OnSuccess "redo"] else []), success)
        | (s', Throw error) => (Some s', [OnError (as_Error error)], false)
        end
  end.

Definition hook_clearHistory (current : option (State C)) (isExecuting : bool)
  : option (State C) * list HookCall :=
  match current with
  | None => (None, [])
  | Some s =>
      if isExecuting then (Some s, [])
      else
        match clearHistory s with
        | (s', Done _) => (Some s', [])
        | (s', Throw error) => (Some s', [OnError (as_Error error)])
        end
  end.

End Hook.

(** [s.includes(sub)] *)
Definition includes (s sub : string) : bool :=
  match String.index 0 sub s with Some _ => true | None => false end.

(** What [handleError] of [useUndoRedoNotifications] shows: a warning or
    an error text. *)
Inductive Notice :=
| Warning (text : string)
| ErrorText (text : string).

Definition handleError (error : Exn) : Notice :=
  if is_PersistenceError error then
    Warning
      "Action completed but could not be saved. Changes may be lost on page reload."
  else if is_CommandExecutionError error then
    ErrorText
      ("Failed to "
       +:+ (if includes (message error) "undo" then "undo"
            else if includes (message error) "redo" then "redo"
            else "execute")
       +:+ " action")
  else ErrorText (message error).

(* ================================================================== *)
(** * Observations and loops that the further properties are stated with *)
(* ================================================================== *)

(** The entry of the in-memory search index under an id. *)
Definition searchEntry (id : string) (index : list SearchIndex)
  : option SearchIndex :=
  List.find (fun e => String.eqb (si_id e) id) index.


(** The loops of [BatchCommand], by themselves: [execute] runs the commands
    first to last and stops at the first that throws, [undo] runs them
    last to first, [serialize] and [fromSerialized] map over them. *)
Fixpoint executeAll (l : list Cmd) (w : World)
  : list Cmd * World * Outcome unit :=
  match l with
  | [] => ([], w, Done tt)
  | c1 :: l' =>
      match Cmd_execute c1 w with
      | (c1', w1, Done _) =>
          let '(l'', w2, r) := executeAll l' w1 in (c1' :: l'', w2, r)
      | (c1', w1, Throw e) => (c1' :: l', w1, Throw e)
      end
  end.


Fixpoint serializeAll (l : list Cmd) : Outcome (list SerializableCommand) :=
  match l with
  | [] => Done []
  | c1 :: l' =>
      match Cmd_serialize c1 with
      | Throw e => Throw e
      | Done s1 =>
          match serializeAll l' with
          | Throw e => Throw e
          | Done ss => Done (s1 :: ss)
          end
      end
  end.

Fixpoint deserializeAll (l : list SerializableCommand) (w : World)
  : World * list Cmd :=
  match l with
  | [] => (w, [])
  | s1 :: l' =>
      let '(w1, c1) := Cmd_deserialize s1 w in
      let '(w2, cs) := deserializeAll l' w1 in
      (w2, match c1 with Some c => c :: cs | None => cs end)
  end.

(** Two worlds in which every day reads the same notes and checklist. *)
Definition sameDays (w w' : World) : Prop :=
  forall date,
    notesOf date w = notesOf date w' /\ checklistOf date w = checklistOf date w'.



(** What the history store in use holds for a date: the row of the object
    store while IndexedDB is in use, the entry of the in-memory map
    otherwise. *)
Definition stored (h : HistoryDB) (dateKey : string) : option HistoryState :=
  if isHistoryDBAvailable h then idb_rows h !! dateKey
  else fallbackHistoryStorage h !! dateKey.

Section SessionEvents.

Context {C : Type} `{Command C}.

(** The events that create a manager. *)
Definition createsManager (e : Event C) : bool :=
  match e with EvNewManager _ _ => true | _ => false end.

End SessionEvents.

(* ================================================================== *)
(** * Scenarios: the concrete inputs used below *)
(* ================================================================== *)

Module Scenario.

Definition uuid (n : nat) : string := "uuid-" +:+ pretty n.

Definition day : string := "2024-01-01".

(** A day with one note and two checklist items, in IndexedDB. *)
Definition world0 : World :=
  mkWorld true
    {[ day := mkDay day [mkNote "n1" "A"]
                [mkItem "i1" "Buy milk" false 0 (Some day);
                 mkItem "i2" "Walk" true 1 (Some day)] ]}
    ∅ uuid 0.

(** The module state of undoRedo.ts when the page has loaded, over a
    working IndexedDB without history rows. *)
Definition history0 : HistoryDB :=
  mkHistoryDB false true ∅ defaultConfig true true true ∅ [].

Definition start : State Cmd := new_HistoryManager day None history0 world0.

(** Construct a command in the current world, then execute it. *)
Definition exec (mk : World -> World * Cmd) (s : State Cmd)
  : State Cmd * Outcome unit :=
  let '(w, c) := mk (world s) in executeCommand c (set_world w s).

(** Three edits of the note, 100 ms apart: A -> B -> C -> D. *)
Definition edit1 := new_EditNoteCommand day "n1" "A" "B" None (ValidDate 1000).
Definition edit2 := new_EditNoteCommand day "n1" "B" "C" None (ValidDate 1100).
Definition edit3 := new_EditNoteCommand day "n1" "C" "D" None (ValidDate 1200).

Definition after_edit1 : State Cmd := fst (exec edit1 start).
Definition after_edit2 : State Cmd := fst (exec edit2 after_edit1).
Definition after_edit3 : State Cmd := fst (exec edit3 after_edit2).

(** A manager in the middle of an operation, with one entry to undo. *)
Definition executing : State Cmd := set_isExecuting true after_edit1.

(** The first edit, constructed and about to be executed. *)
Definition edit1_cmd : Cmd := snd (edit1 (world start)).
Definition edit1_ready : State Cmd := set_world (fst (edit1 (world start))) start.

(** An edit and a toggle are constructed; the edit is executed and
    undone, then the toggle is executed. *)
Definition toggle1 :=
  new_ToggleChecklistItemCommand day "i1" None (ValidDate 5000).
Definition toggle1_cmd : Cmd := snd (toggle1 (world edit1_ready)).
Definition both_ready : State Cmd :=
  set_world (fst (toggle1 (world edit1_ready))) edit1_ready.
Definition edit_done : State Cmd := fst (executeCommand edit1_cmd both_ready).
Definition edit_undone : State Cmd := fst (undo edit_done).
Definition toggle_done : State Cmd :=
  fst (executeCommand toggle1_cmd edit_undone).

(** A note is edited, then deleted by a command whose [onNoteRestored]
    callback throws. *)
Definition delete1 :=
  new_DeleteNoteCommand day "n1" None
    (Some (Raises (Error "Error" "restore failed"))) (ValidDate 9000).
Definition after_delete : State Cmd := fst (exec delete1 after_edit1).

(** A durable backend that opens and reads but rejects every [put]. *)
Definition history_noput : HistoryDB :=
  mkHistoryDB false true ∅ defaultConfig true true false ∅ [].
Definition start_noput : State Cmd :=
  new_HistoryManager day None history_noput world0.


(** A persisted history of three entries, saved under the default
    [maxHistorySize], loaded by a manager created with [maxHistorySize] 2. *)
Definition savedToggle (id : string) : SerializableCommand :=
  mkSer id "toggle-checklist-item" day (Iso 1) (PToggleChecklistItem "i1").
Definition history_three : HistoryDB :=
  mkHistoryDB false true ∅ defaultConfig true true true
    {[ day := mkHistoryState
                [savedToggle "a"; savedToggle "b"; savedToggle "c"] [] day 100 ]}
    [].
Definition loaded_three : State Cmd :=
  new_HistoryManager day (Some 2) history_three world0.

(** A toggle of an item that the day does not have, with a callback that
    would throw if it were called. *)
Definition toggleMissing : Cmd :=
  ToggleChecklistItemCommand
    (mkBase "t0" "toggle-checklist-item" day (ValidDate 1)) "no-such-item"
    (Some (Raises (Error "Error" "never called"))).

(** A session on a store whose durable backend does not open: an edit, the
    backend coming back, an undo, a new manager, a redo. *)
Definition history_noopen : HistoryDB :=
  mkHistoryDB false true ∅ defaultConfig false true true ∅ [].
Definition start_noopen : State Cmd :=
  mkState (mkManager [] [] day 100 false) history_noopen
          (fst (edit1 world0)).
Definition session : list (Event Cmd) :=
  [EvExecuteCommand (snd (edit1 world0)); EvBackend true true true ∅; EvUndo;
   EvNewManager day None; EvSwitchDate "2024-01-02"; EvRedo].

Definition undo_after_edit3 : State Cmd * Outcome bool := undo after_edit3.




Definition undo_after_delete : State Cmd * Outcome bool := undo after_delete.
Definition toggle_on_three : State Cmd * Outcome unit := exec toggle1 loaded_three.

End Scenario.

(* ================================================================== *)
(** * More concrete inputs *)
(* ================================================================== *)

Module Examples.

(** [trim] on texts whose only white space is the space character. *)
Fixpoint dropSpaces (l : list Ascii.ascii) : list Ascii.ascii :=
  match l with
  | [] => []
  | a :: l' => if Ascii.eqb a (Ascii.ascii_of_nat 32) then dropSpaces l' else l
  end.

Definition trimSpaces (s : string) : string :=
  string_of_list_ascii
    (List.rev (dropSpaces (List.rev (dropSpaces (list_ascii_of_string s))))).

Definition day : string := Scenario.day.



(** A search index that runs in memory and holds the entry of the note,
    and one over a database that opens and accepts writes. *)
Definition searchOff : SearchDB :=
  mkSearchDB false false
    [mkSearchIndex "note-n1" KindNote "A" day (Some "n1") None] true true ∅.


Definition entryB : SearchIndex :=
  mkSearchIndex "note-n1" KindNote "B" day (Some "n1") None.

(** Commands on the day of [Scenario.world0]: an edit of the note, a
    toggle of the first item, an edit whose callback throws, and the
    batches made of them. *)
Definition editAB : Cmd :=
  EditNoteCommand (mkBase "e0" "edit-note" day (ValidDate 1)) "n1" "B" "A" None.

Definition toggleI1 : Cmd :=
  ToggleChecklistItemCommand
    (mkBase "t1" "toggle-checklist-item" day (ValidDate 2)) "i1" None.

Definition editFails : Cmd :=
  EditNoteCommand (mkBase "e1" "edit-note" day (ValidDate 3)) "n1" "C" "B"
    (Some (Raises (Error "Error" "callback failed"))).

Definition batchBase : BaseCommand := mkBase "b0" "batch" day (ValidDate 4).

Definition batchOK : Cmd := BatchCommand batchBase [editAB; toggleI1] "two".

(** A reorder is executed; 300 ms later a second reorder is constructed. *)
Definition reorder1 :=
  new_ReorderChecklistCommand day ["i2"; "i1"] None (ValidDate 1000).
Definition after_reorder1 : State Cmd := fst (Scenario.exec reorder1 Scenario.start).
Definition reorder2 :=
  new_ReorderChecklistCommand day ["i1"; "i2"] None (ValidDate 1300).
Definition reorder2_ready : State Cmd :=
  set_world (fst (reorder2 (world after_reorder1))) after_reorder1.

(** A session without loads, and one that ends with a command that
    throws. *)
Definition noLoads : list (Event Cmd) :=
  [EvExecuteCommand editAB; EvExecuteCommand toggleI1; EvUndo; EvRedo;
   EvUndo; EvClearHistory].

Definition withFailure : list (Event Cmd) :=
  [EvExecuteCommand editAB; EvExecuteCommand editFails; EvUndo;
   EvSwitchDate "2024-01-02"].

(** The module state with no manager yet. *)
Definition globals0 : Globals Cmd :=
  mkGlobals None Scenario.history0 Scenario.world0.

(** A manager without optimistic updates and without persistence. *)
Definition history_plain : HistoryDB :=
  mkHistoryDB false true ∅ (mkConfig 100 false 1000 false) true true true ∅ [].
Definition start_plain : State Cmd :=
  new_HistoryManager day None history_plain Scenario.world0.

(** Persisted data of an edit, as [serialize] writes it, and an entry whose
    type tag names no class. *)
Definition editData : SerializableCommand :=
  mkSer "e0" "edit-note" day (Iso 1) (PEditNote "n1" "A" "B").

Definition unknownData : SerializableCommand :=
  mkSer "z0" "unknown" day (Iso 1) (PToggleChecklistItem "i1").

End Examples.

(* ================================================================== *)
(** * Properties of the day-record store *)
(* ================================================================== *)

Section StoreFacts.

Implicit Types (w : World) (d : DayData) (l : list ChecklistItem).

(** ** Sorting by [order] *)

Lemma insert_by_order_Forall (P : ChecklistItem -> Prop) x l :
  P x -> Forall P l -> Forall P (insert_by_order x l).
Proof.
  intros Hx Hl. induction Hl as [|y l Hy Hl IH]; cbn.
  - by constructor.
  - destruct (_ <=? _); repeat constructor; auto.
Qed.

Lemma insert_by_order_ordered x l :
  ordered l -> ordered (insert_by_order x l).
Proof.
  unfold ordered. induction 1 as [|y l Hl IH Hy]; cbn.
  - repeat constructor.
  - destruct (item_order x <=? item_order y) eqn:Hxy.
    + apply Z.leb_le in Hxy. constructor; [by constructor|].
      constructor; [exact Hxy|].
      eapply Forall_impl; [exact Hy|]. unfold le_order. intros; lia.
    + apply Z.leb_gt in Hxy. constructor; [exact IH|].
      apply insert_by_order_Forall; [unfold le_order; lia|exact Hy].
Qed.

Lemma sort_by_order_ordered l : ordered (sort_by_order l).
Proof.
  induction l as [|x l IH]; cbn; [constructor|].
  by apply insert_by_order_ordered.
Qed.

Lemma sort_by_order_id l : ordered l -> sort_by_order l = l.
Proof.
  unfold ordered. induction 1 as [|x l Hl IH Hx]; cbn; [reflexivity|].
  rewrite IH. destruct Hx as [|y l' Hxy _]; cbn; [reflexivity|].
  unfold le_order in Hxy. apply Z.leb_le in Hxy. by rewrite Hxy.
Qed.

Lemma sort_by_order_idem l : sort_by_order (sort_by_order l) = sort_by_order l.
Proof. apply sort_by_order_id, sort_by_order_ordered. Qed.

Lemma normalise_idem d : normalise (normalise d) = normalise d.
Proof. unfold normalise, set_checklist. cbn. by rewrite sort_by_order_idem. Qed.

Lemma normalise_ordered d :
  ordered (day_checklist d) -> normalise d = d.
Proof.
  intros Ho. unfold normalise, set_checklist. rewrite sort_by_order_id by done.
  by destruct d.
Qed.

Lemma day_date_normalise d : day_date (normalise d) = day_date d.
Proof. reflexivity. Qed.

(** ** Reading the store *)

Lemma readDay_activeStore date w :
  readDay date w = normalise <$> activeStore w !! date.
Proof.
  unfold readDay, getDayData, activeStore.
  destruct (isIndexedDBAvailable w); cbn; by destruct (_ !! date).
Qed.

Lemma getDayData_snd date w : snd (getDayData date w) = readDay date w.
Proof. reflexivity. Qed.

Lemma activeStore_getDayData date w :
  activeStore (fst (getDayData date w))
  = if isIndexedDBAvailable w then activeStore w
    else match activeStore w !! date with
         | Some x => <[date := normalise x]> (activeStore w)
         | None => activeStore w
         end.
Proof.
  unfold getDayData, activeStore.
  destruct (isIndexedDBAvailable w) eqn:Hf; cbn.
  - destruct (_ !! date); cbn; by rewrite Hf.
  - destruct (_ !! date); cbn; by rewrite Hf.
Qed.

Lemma getDayData_flag date w :
  isIndexedDBAvailable (fst (getDayData date w)) = isIndexedDBAvailable w.
Proof.
  unfold getDayData. destruct (isIndexedDBAvailable w) eqn:Hf; cbn;
    destruct (_ !! date); cbn; by rewrite ?Hf.
Qed.

Lemma getDayData_uuid date w :
  uuidSource (fst (getDayData date w)) = uuidSource w
  /\ uuidNext (fst (getDayData date w)) = uuidNext w.
Proof.
  unfold getDayData. destruct (isIndexedDBAvailable w); cbn;
    by destruct (_ !! date).
Qed.

(** Reading is idempotent: a read changes no later read. *)
Lemma readDay_getDayData date' date w :
  readDay date' (fst (getDayData date w)) = readDay date' w.
Proof.
  rewrite !readDay_activeStore, activeStore_getDayData.
  destruct (isIndexedDBAvailable w); [reflexivity|].
  destruct (activeStore w !! date) as [x|] eqn:Hx; [|reflexivity].
  destruct (decide (date = date')) as [->|Hne].
  - rewrite lookup_insert_eq, Hx. cbn. by rewrite normalise_idem.
  - by rewrite lookup_insert_ne.
Qed.

Lemma wellKeyed_getDayData date w :
  wellKeyed w -> wellKeyed (fst (getDayData date w)).
Proof.
  intros Hk k d. rewrite activeStore_getDayData.
  destruct (isIndexedDBAvailable w); [apply Hk|].
  destruct (activeStore w !! date) as [x|] eqn:Hx; [|apply Hk].
  destruct (decide (date = k)) as [->|Hne].
  - rewrite lookup_insert_eq. intros [= <-]. cbn. by apply Hk.
  - rewrite lookup_insert_ne by done. apply Hk.
Qed.

Lemma activeStore_saveDayData d w :
  activeStore (saveDayData d w) = <[day_date d := d]> (activeStore w).
Proof.
  unfold saveDayData, activeStore.
  destruct (isIndexedDBAvailable w) eqn:Hf; cbn; by rewrite Hf.
Qed.

Lemma saveDayData_flag d w :
  isIndexedDBAvailable (saveDayData d w) = isIndexedDBAvailable w.
Proof. unfold saveDayData. by destruct (isIndexedDBAvailable w) eqn:Hf. Qed.

Lemma saveDayData_uuid d w :
  uuidSource (saveDayData d w) = uuidSource w
  /\ uuidNext (saveDayData d w) = uuidNext w.
Proof. unfold saveDayData. by destruct (isIndexedDBAvailable w). Qed.

Lemma readDay_saveDayData date d w :
  readDay date (saveDayData d w)
  = if String.eqb date (day_date d) then Some (normalise d) else readDay date w.
Proof.
  rewrite !readDay_activeStore, activeStore_saveDayData.
  destruct (String.eqb_spec date (day_date d)) as [->|Hne].
  - by rewrite lookup_insert_eq.
  - by rewrite lookup_insert_ne.
Qed.

Lemma wellKeyed_saveDayData d w :
  wellKeyed w -> wellKeyed (saveDayData d w).
Proof.
  intros Hk k x. rewrite activeStore_saveDayData.
  destruct (decide (day_date d = k)) as [<-|Hne].
  - rewrite lookup_insert_eq. by intros [= <-].
  - rewrite lookup_insert_ne by done. apply Hk.
Qed.

Lemma readDay_date date w d :
  wellKeyed w -> readDay date w = Some d -> day_date d = date.
Proof.
  intros Hk. rewrite readDay_activeStore.
  destruct (activeStore w !! date) as [x|] eqn:Hx; [|discriminate].
  intros [= <-]. cbn. by apply Hk.
Qed.

Lemma readDay_ordered date w d :
  readDay date w = Some d -> ordered (day_checklist d).
Proof.
  rewrite readDay_activeStore.
  destruct (activeStore w !! date) as [x|]; [|discriminate].
  intros [= <-]. apply sort_by_order_ordered.
Qed.

Lemma readDay_normal date w d :
  readDay date w = Some d -> normalise d = d.
Proof. intros Hd. eapply normalise_ordered, readDay_ordered, Hd. Qed.

Lemma readDay_randomUUID date w :
  readDay date (fst (randomUUID w)) = readDay date w.
Proof. by rewrite !readDay_activeStore. Qed.

Lemma wellKeyed_randomUUID w : wellKeyed w -> wellKeyed (fst (randomUUID w)).
Proof. intros Hk. exact Hk. Qed.

(** ** [find], [update_first] and [filter] *)

Lemma update_first_not_found {A} (p : A -> bool) f (l : list A) :
  List.find p l = None -> update_first p f l = l.
Proof.
  induction l as [|x l IH]; cbn; [reflexivity|].
  destruct (p x); [discriminate|]. intros Hl. by rewrite IH.
Qed.




Lemma update_first_Forall {A} (P : A -> Prop) p f (l : list A) :
  (forall x, P x -> P (f x)) -> Forall P l -> Forall P (update_first p f l).
Proof.
  intros Hf. induction 1 as [|x l Hx Hl IH]; cbn; [constructor|].
  destruct (p x); constructor; auto.
Qed.

Lemma update_first_ordered p f l :
  (forall x, item_order (f x) = item_order x) ->
  ordered l -> ordered (update_first p f l).
Proof.
  intros Hf. unfold ordered. induction 1 as [|x l Hl IH Hx]; cbn; [constructor|].
  destruct (p x).
  - constructor; [exact Hl|].
    eapply Forall_impl; [exact Hx|]. unfold le_order. intros y. by rewrite Hf.
  - constructor; [exact IH|].
    apply update_first_Forall; [|exact Hx].
    unfold le_order. intros y. by rewrite Hf.
Qed.

Lemma filter_ordered p l : ordered l -> ordered (List.filter p l).
Proof.
  unfold ordered. induction 1 as [|x l Hl IH Hx]; cbn; [constructor|].
  destruct (p x); [|exact IH].
  constructor; [exact IH|].
  apply Forall_forall. intros y Hy. apply list_elem_of_In, filter_In in Hy.
  destruct Hy as [Hy _]. rewrite Forall_forall in Hx. apply Hx.
  by apply list_elem_of_In.
Qed.

(** ** What each store operation does to the days as read *)

Lemma set_notes_normal d ns :
  normalise d = d -> normalise (set_notes d ns) = set_notes d ns.
Proof.
  unfold normalise, set_notes, set_checklist. cbn. intros Hd.
  destruct d as [dt n cl]. cbn in *. by injection Hd as ->.
Qed.

Lemma set_checklist_normal d cl :
  ordered cl -> normalise (set_checklist d cl) = set_checklist d cl.
Proof.
  intros Ho. unfold normalise, set_checklist. cbn.
  by rewrite sort_by_order_id.
Qed.

(** The two ways a store operation ends after its [getDayData]: it saves
    a modified record, or it returns. *)
Lemma getDayData_read date w w1 r :
  getDayData date w = (w1, r) ->
  r = readDay date w
  /\ (forall date', readDay date' w1 = readDay date' w)
  /\ (wellKeyed w -> wellKeyed w1)
  /\ uuidSource w1 = uuidSource w /\ uuidNext w1 = uuidNext w.
Proof.
  intros E.
  pose proof (getDayData_snd date w) as Hsnd.
  pose proof (fun date' => readDay_getDayData date' date w) as Hread.
  pose proof (wellKeyed_getDayData date w) as Hk.
  pose proof (getDayData_uuid date w) as Hu.
  rewrite E in *. cbn [fst snd] in *. by rewrite Hsnd.
Qed.

Lemma readDay_saved date date' w w1 dd x :
  wellKeyed w ->
  getDayData date w = (w1, Some dd) ->
  day_date x = day_date dd ->
  normalise x = x ->
  readDay date' (saveDayData x w1)
  = if String.eqb date' date then Some x else readDay date' w.
Proof.
  intros Hk E Hx Hn.
  destruct (getDayData_read date w w1 _ E) as (Hdd & Hread & _).
  rewrite readDay_saveDayData, Hx, Hn, Hread.
  by rewrite (readDay_date date w dd Hk (eq_sym Hdd)).
Qed.

Lemma readDay_updateNote date date' noteId content w :
  wellKeyed w ->
  readDay date' (updateNote date noteId content w)
  = if String.eqb date' date
    then (fun dd =>
            set_notes dd
              (update_first (fun n => String.eqb (note_id n) noteId)
                            (setContent content) (day_notes dd)))
         <$> readDay date w
    else readDay date' w.
Proof.
  intros Hk. unfold updateNote.
  destruct (getDayData date w) as [w1 [dd|]] eqn:E;
    destruct (getDayData_read date w w1 _ E) as (Hdd & Hread & _).
  - destruct (List.find _ _) eqn:Hfind.
    + rewrite (readDay_saved date date' w w1 dd); auto.
      * by rewrite <- Hdd.
      * apply set_notes_normal. eapply readDay_normal. by rewrite <- Hdd.
    + rewrite Hread, <- Hdd. cbn.
      rewrite update_first_not_found by done.
      destruct (String.eqb_spec date' date) as [->|]; [|done].
      rewrite <- Hdd. by destruct dd.
  - rewrite Hread, <- Hdd.
    destruct (String.eqb_spec date' date) as [->|]; [|done]. by rewrite <- Hdd.
Qed.

Lemma wellKeyed_updateNote date noteId content w :
  wellKeyed w -> wellKeyed (updateNote date noteId content w).
Proof.
  intros Hk. unfold updateNote.
  destruct (getDayData date w) as [w1 [dd|]] eqn:E;
    destruct (getDayData_read date w w1 _ E) as (_ & _ & Hk1 & _); auto.
  destruct (List.find _ _); auto. by apply wellKeyed_saveDayData, Hk1.
Qed.

Lemma readDay_updateChecklistItem date date' itemId updates w :
  wellKeyed w ->
  readDay date' (updateChecklistItem date itemId updates w)
  = if String.eqb date' date
    then (fun dd =>
            set_checklist dd
              (update_first (fun i => String.eqb (item_id i) itemId)
                            (assign_updates updates) (day_checklist dd)))
         <$> readDay date w
    else readDay date' w.
Proof.
  intros Hk. unfold updateChecklistItem.
  destruct (getDayData date w) as [w1 [dd|]] eqn:E;
    destruct (getDayData_read date w w1 _ E) as (Hdd & Hread & _).
  - destruct (List.find _ _) eqn:Hfind.
    + rewrite (readDay_saved date date' w w1 dd); auto.
      * by rewrite <- Hdd.
      * apply set_checklist_normal, update_first_ordered; [done|].
        eapply readDay_ordered. by rewrite <- Hdd.
    + rewrite Hread, <- Hdd. cbn.
      rewrite update_first_not_found by done.
      destruct (String.eqb_spec date' date) as [->|]; [|done].
      rewrite <- Hdd. by destruct dd.
  - rewrite Hread, <- Hdd.
    destruct (String.eqb_spec date' date) as [->|]; [|done]. by rewrite <- Hdd.
Qed.

Lemma wellKeyed_updateChecklistItem date itemId updates w :
  wellKeyed w -> wellKeyed (updateChecklistItem date itemId updates w).
Proof.
  intros Hk. unfold updateChecklistItem.
  destruct (getDayData date w) as [w1 [dd|]] eqn:E;
    destruct (getDayData_read date w w1 _ E) as (_ & _ & Hk1 & _); auto.
  destruct (List.find _ _); auto. by apply wellKeyed_saveDayData, Hk1.
Qed.

(** A read-modify-write of one day: [getDayData], then [saveDayData] of
    the modified record. *)
Lemma readDay_modify date date' w (f : DayData -> DayData) :
  wellKeyed w ->
  (forall d, day_date (f d) = day_date d) ->
  readDay date'
    (match getDayData date w with
     | (w1, None) => w1
     | (w1, Some dayData) => saveDayData (f dayData) w1
     end)
  = if String.eqb date' date
    then (fun d => normalise (f d)) <$> readDay date w
    else readDay date' w.
Proof.
  intros Hk Hdate.
  destruct (getDayData date w) as [w1 [dd|]] eqn:E;
    destruct (getDayData_read date w w1 _ E) as (Hdd & Hread & _).
  - rewrite readDay_saveDayData, Hdate, Hread, <- Hdd. cbn.
    by rewrite (readDay_date date w dd Hk (eq_sym Hdd)).
  - rewrite Hread, <- Hdd.
    destruct (String.eqb_spec date' date) as [->|]; [|done]. by rewrite <- Hdd.
Qed.

Lemma wellKeyed_modify date w (f : DayData -> DayData) :
  wellKeyed w ->
  wellKeyed
    (match getDayData date w with
     | (w1, None) => w1
     | (w1, Some dayData) => saveDayData (f dayData) w1
     end).
Proof.
  intros Hk.
  destruct (getDayData date w) as [w1 [dd|]] eqn:E;
    destruct (getDayData_read date w w1 _ E) as (_ & _ & Hk1 & _); auto.
  by apply wellKeyed_saveDayData, Hk1.
Qed.


Lemma readDay_deleteNote date date' noteId w :
  wellKeyed w ->
  readDay date' (deleteNote date noteId w)
  = if String.eqb date' date
    then (fun dd =>
            set_notes dd
              (List.filter (fun n => negb (String.eqb (note_id n) noteId))
                           (day_notes dd)))
         <$> readDay date w
    else readDay date' w.
Proof.
  intros Hk. unfold deleteNote. rewrite readDay_modify by done.
  destruct (String.eqb date' date); [|reflexivity].
  destruct (readDay date w) as [dd|] eqn:Hdd; [|reflexivity]. cbn.
  by rewrite set_notes_normal by (eapply readDay_normal, Hdd).
Qed.

Lemma readDay_deleteChecklistItem date date' itemId w :
  wellKeyed w ->
  readDay date' (deleteChecklistItem date itemId w)
  = if String.eqb date' date
    then (fun dd =>
            set_checklist dd
              (List.filter (fun i => negb (String.eqb (item_id i) itemId))
                           (day_checklist dd)))
         <$> readDay date w
    else readDay date' w.
Proof.
  intros Hk. unfold deleteChecklistItem. rewrite readDay_modify by done.
  destruct (String.eqb date' date); [|reflexivity].
  destruct (readDay date w) as [dd|] eqn:Hdd; [|reflexivity]. cbn.
  rewrite set_checklist_normal; [done|].
  apply filter_ordered. eapply readDay_ordered, Hdd.
Qed.

(** [getDayData(date) || createEmptyDayData(date)] *)
Lemma getOrCreateDayData_spec date w w1 dd :
  wellKeyed w ->
  getOrCreateDayData date w = (w1, dd) ->
  dd = mkDay date (notesOf date w) (checklistOf date w)
  /\ wellKeyed w1
  /\ uuidSource w1 = uuidSource w /\ uuidNext w1 = uuidNext w
  /\ forall date', readDay date' w1
                   = if String.eqb date' date then Some dd else readDay date' w.
Proof.
  intros Hk. unfold getOrCreateDayData, notesOf, checklistOf.
  destruct (getDayData date w) as [w0 [d0|]] eqn:E;
    destruct (getDayData_read date w w0 _ E) as (Hdd & Hread & Hk0 & Hs & Hn).
  - intros [= <- <-]. rewrite <- Hdd.
    split; [|split; [auto|split; [done|split; [done|]]]].
    + rewrite <- (readDay_date date w d0 Hk (eq_sym Hdd)). by destruct d0.
    + intros date'. rewrite Hread.
      destruct (String.eqb_spec date' date) as [->|]; done.
  - unfold createEmptyDayData. intros [= <- <-]. rewrite <- Hdd.
    destruct (saveDayData_uuid (mkDay date [] []) w0) as [Hs' Hn'].
    split; [done|]. split; [by apply wellKeyed_saveDayData, Hk0|].
    split; [congruence|]. split; [congruence|].
    intros date'. rewrite readDay_saveDayData, Hread. cbn.
    by destruct (String.eqb date' date).
Qed.

Lemma addNote_spec date content w w' note :
  wellKeyed w ->
  addNote date content w = (w', note) ->
  note = mkNote (uuidSource w (uuidNext w)) content
  /\ wellKeyed w'
  /\ forall date',
       readDay date' w'
       = if String.eqb date' date
         then Some (mkDay date (notesOf date w ++ [note]) (checklistOf date w))
         else readDay date' w.
Proof.
  intros Hk. unfold addNote.
  destruct (getOrCreateDayData date w) as [w1 dd] eqn:E.
  destruct (getOrCreateDayData_spec date w w1 dd Hk E)
    as (-> & Hk1 & Hs & Hn & Hread).
  cbn. intros [= <- <-]. rewrite Hs, Hn.
  split; [done|]. split; [by apply wellKeyed_saveDayData|].
  intros date'. rewrite readDay_saveDayData. cbn.
  destruct (String.eqb_spec date' date) as [->|Hne].
  - unfold normalise, set_checklist. cbn. f_equal. f_equal.
    unfold checklistOf. destruct (readDay date w) as [d0|] eqn:Hd0; [|done].
    apply sort_by_order_id. eapply readDay_ordered, Hd0.
  - transitivity (readDay date' w1); [by rewrite !readDay_activeStore|].
    rewrite Hread. by destruct (String.eqb_spec date' date).
Qed.

Lemma fold_left_max_bound (l : list Z) a :
  a <= fold_left Z.max l a /\ Forall (fun x => x <= fold_left Z.max l a) l.
Proof.
  revert a. induction l as [|x l IH]; intros a; cbn; [split; [lia|constructor]|].
  destruct (IH (Z.max a x)) as [Ha Hl]. split; [lia|].
  constructor; [lia|exact Hl].
Qed.

Lemma max_order_bound l : Forall (fun y => item_order y <= max_order l) l.
Proof.
  destruct l as [|x l]; [constructor|]. cbn.
  destruct (fold_left_max_bound (List.map item_order l) (item_order x))
    as [Hx Hl].
  constructor; [exact Hx|]. by rewrite Forall_map in Hl.
Qed.

Lemma ordered_snoc l x :
  ordered l -> Forall (fun y => le_order y x) l -> ordered (l ++ [x]).
Proof.
  unfold ordered. induction 1 as [|y l Hl IH Hy]; cbn; intros Hx.
  - repeat constructor.
  - apply Forall_cons in Hx as [Hyx Hx]. constructor; [by apply IH|].
    apply Forall_app. split; [exact Hy|]. by constructor.
Qed.

Lemma addChecklistItem_spec date text w w' item :
  wellKeyed w ->
  addChecklistItem date text w = (w', item) ->
  item = mkItem (uuidSource w (uuidNext w)) text false
                (max_order (checklistOf date w) + 1) (Some date)
  /\ wellKeyed w'
  /\ forall date',
       readDay date' w'
       = if String.eqb date' date
         then Some (mkDay date (notesOf date w) (checklistOf date w ++ [item]))
         else readDay date' w.
Proof.
  intros Hk. unfold addChecklistItem.
  destruct (getOrCreateDayData date w) as [w1 dd] eqn:E.
  destruct (getOrCreateDayData_spec date w w1 dd Hk E)
    as (-> & Hk1 & Hs & Hn & Hread).
  cbn. intros [= <- <-]. rewrite Hs, Hn.
  split; [done|]. split; [by apply wellKeyed_saveDayData|].
  assert (Hord : ordered (checklistOf date w
                          ++ [mkItem (uuidSource w (uuidNext w)) text false
                                     (max_order (checklistOf date w) + 1)
                                     (Some date)])).
  { apply ordered_snoc.
    - unfold checklistOf. destruct (readDay date w) as [d0|] eqn:Hd0.
      + eapply readDay_ordered, Hd0.
      + constructor.
    - eapply Forall_impl; [apply max_order_bound|].
      unfold le_order. cbn. intros; lia. }
  intros date'. rewrite readDay_saveDayData. cbn [day_date set_checklist].
  destruct (String.eqb_spec date' date) as [->|Hne].
  - unfold normalise, set_checklist. cbn [day_date day_notes day_checklist].
    by rewrite sort_by_order_idem, sort_by_order_id.
  - transitivity (readDay date' w1); [by rewrite !readDay_activeStore|].
    rewrite Hread. by destruct (String.eqb_spec date' date).
Qed.


(** ** Reordering *)


















Lemma readDay_reorderChecklistItems date date' itemIds w :
  wellKeyed w ->
  readDay date' (reorderChecklistItems date itemIds w)
  = if String.eqb date' date
    then (fun dd =>
            set_checklist dd
              (sort_by_order
                 (reorder_from (item_map (day_checklist dd)) 0 itemIds)))
         <$> readDay date w
    else readDay date' w.
Proof.
  intros Hk. unfold reorderChecklistItems. by rewrite readDay_modify.
Qed.


(** ** From records to notes and checklists *)


(** C10.  When the day's record has no checklist item with the command's
    item id (or the day has no record), [execute()] and [undo()] of a
    toggle command return normally without calling the callback, leave the
    command as it is, and leave every day reading as before; over
    IndexedDB the world is unchanged. *)
Theorem C10_toggle_of_absent_item_is_a_noop b itemId cb w :
  List.find (fun i => String.eqb (item_id i) itemId)
            (checklistOf (base_dateKey b) w) = None ->
  exists w',
    Cmd_execute (ToggleChecklistItemCommand b itemId cb) w
    = (ToggleChecklistItemCommand b itemId cb, w', Done tt)
    /\ Cmd_undo (ToggleChecklistItemCommand b itemId cb) w
       = (ToggleChecklistItemCommand b itemId cb, w', Done tt)
    /\ (forall date, readDay date w' = readDay date w)
    /\ (isIndexedDBAvailable w = true -> w' = w).
Proof.
  intros Hnone. exists (fst (getDayData (base_dateKey b) w)).
  unfold checklistOf in Hnone. rewrite <- getDayData_snd in Hnone.
  cbn [Cmd_execute Cmd_undo].
  destruct (getDayData (base_dateKey b) w) as [w1 dd] eqn:E.
  cbn [fst snd] in *.
  assert (Hfind : match dd with
                  | Some d => List.find (fun i => String.eqb (item_id i) itemId)
                                        (day_checklist d)
                  | None => None
                  end = None) by (destruct dd; [exact Hnone|reflexivity]).
  rewrite Hfind. repeat split.
  - intros date. replace w1 with (fst (getDayData (base_dateKey b) w))
      by (by rewrite E). apply readDay_getDayData.
  - intros Hidb. unfold getDayData in E. rewrite Hidb in E. cbn in E.
    destruct (idbDayData w !! base_dateKey b); by injection E.
Qed.

End StoreFacts.

(* ================================================================== *)
(** * Properties of the history manager *)
(* ================================================================== *)

Section ManagerFacts.

Context {C : Type} `{Command C}.

Implicit Types (s : State C) (c : C) (l : list (option C)).

Lemma top_push l x : top (push x l) = x.
Proof. unfold top, push. by rewrite last_snoc. Qed.

Lemma pop_rest_push l x : pop_rest (push x l) = l.
Proof. unfold pop_rest, push. apply removelast_last. Qed.

Lemma update_top_push l x y : update_top y (push x l) = push y l.
Proof.
  unfold update_top, push. rewrite removelast_last.
  destruct l; reflexivity.
Qed.

Lemma length_push l x : length (push x l) = S (length l).
Proof. unfold push. rewrite length_app. simpl. lia. Qed.

Lemma top_nil : top (@nil (option C)) = None.
Proof. reflexivity. Qed.

Lemma update_top_shift_push l x y :
  update_top y (shift (push x l)) = shift (push y l).
Proof.
  destruct l as [|z l]; [reflexivity|].
  unfold shift, push. simpl. apply (update_top_push l x y).
Qed.

(** The merge attempt reads the stacks and the world, not the flag. *)
Lemma tryMerge_set_isExecuting c b s :
  tryMerge c (set_isExecuting b s) = tryMerge c s.
Proof. reflexivity. Qed.

(** What a successful [executeCommand] that does not merge leaves behind:
    the executed command pushed, the oldest entry dropped if the stack
    outgrew [maxHistorySize], and an empty redo stack. *)
Lemma executeCommand_push s c w0 s' :
  isExecuting (manager s) = false ->
  tryMerge c s = (w0, None) ->
  executeCommand c s = (s', Done tt) ->
  exists c',
    undoStack (manager s') =
      (if maxHistorySize (manager s)
          <? Z.of_nat (length (push (Some c') (undoStack (manager s))))
       then shift (push (Some c') (undoStack (manager s)))
       else push (Some c') (undoStack (manager s)))
    /\ redoStack (manager s') = []
    /\ isExecuting (manager s') = false
    /\ maxHistorySize (manager s') = maxHistorySize (manager s)
    /\ currentDateKey (manager s') = currentDateKey (manager s).
Proof.
  intros Hidle Hmerge. unfold executeCommand. rewrite Hidle.
  unfold executeCommand_try. rewrite tryMerge_set_isExecuting, Hmerge.
  cbn [manager history world set_world set_isExecuting pushCommand
       set_undoStack set_redoStack].
  destruct (cfg_enableOptimisticUpdates (globalConfig (history s))).
  - destruct (cmd_execute c w0) as [[c1 w1] [[]|e]]; cbn.
    + unfold persistCommand, do_saveHistory. cbn.
      destruct (saveHistory _ _) as [h' [[]|e]]; cbn.
      * intros [= <-]. exists c1. cbn. auto.
      * destruct (cmd_undo c1 w1) as [[c2 w2] [[]|e']]; cbn; intros [= _ Hr]; discriminate.
    + destruct (instanceof_Error e); intros [= _ Hr]; discriminate.
  - destruct (cmd_execute c w0) as [[c1 w1] [[]|e]]; cbn.
    + unfold persistCommand, do_saveHistory. cbn.
      destruct (saveHistory _ _) as [h' [[]|e]]; cbn.
      * intros [= <-]. exists c1. cbn. split; [|auto].
        rewrite !length_push.
        destruct (_ <? _); [apply update_top_shift_push | apply update_top_push].
      * intros [= _ Hr]; discriminate.
    + destruct (instanceof_Error e); intros [= _ Hr]; discriminate.
Qed.

(** What a successful [undo] leaves behind: the top entry moved from the
    undo stack to the redo stack. *)
Lemma undo_done s s' :
  undo s = (s', Done true) ->
  exists e,
    undoStack (manager s') = pop_rest (undoStack (manager s))
    /\ redoStack (manager s') = push e (redoStack (manager s))
    /\ isExecuting (manager s') = false
    /\ maxHistorySize (manager s') = maxHistorySize (manager s).
Proof.
  unfold undo.
  destruct (_ || _); [intros [= _ Hr]; discriminate|].
  unfold undo_try.
  cbn [manager history world set_world set_isExecuting set_undoStack
       set_redoStack].
  destruct (cfg_enableOptimisticUpdates (globalConfig (history s))).
  - destruct (entry_undo _ _) as [[c1 w1] [[]|e]]; cbn.
    + unfold persistUndo, do_saveHistory. cbn.
      destruct (saveHistory _ _) as [h' [[]|e]]; cbn.
      * intros [= <-]. exists c1. cbn. auto.
      * destruct (entry_execute c1 w1) as [[c2 w2] [[]|e']]; cbn;
          intros [= _ Hr]; discriminate.
    + intros [= _ Hr]; discriminate.
  - destruct (entry_undo _ _) as [[c1 w1] [[]|e]]; cbn.
    + unfold persistUndo, do_saveHistory. cbn.
      destruct (saveHistory _ _) as [h' [[]|e]]; cbn.
      * intros [= <-]. exists c1. cbn. rewrite update_top_push. auto.
      * intros [= _ Hr]; discriminate.
    + intros [= _ Hr]; discriminate.
Qed.

Lemma tryMerge_empty s c :
  undoStack (manager s) = [] -> tryMerge c s = (world s, None).
Proof. intros Hs. unfold tryMerge. by rewrite Hs. Qed.

(** C5.  On a manager created over an empty history, [execute(c1)]
    followed by [undo()] leaves one entry on the redo stack, and the
    successful execution of any command [c2] after that leaves none.  In
    any state, a successful [executeCommand] that does not merge (it pushes
    the command as a new entry) leaves the redo stack empty. *)
Theorem C5_new_action_invalidates_redo :
  (forall s c1 c2 s1 s2,
      fresh s ->
      executeCommand c1 s = (s1, Done tt) ->
      undo s1 = (s2, Done true) ->
      length (redoStack (manager s2)) = 1%nat
      /\ forall s3, executeCommand c2 s2 = (s3, Done tt) ->
                    length (redoStack (manager s3)) = 0%nat)
  /\ (forall s c w0 s',
         isExecuting (manager s) = false ->
         tryMerge c s = (w0, None) ->
         executeCommand c s = (s', Done tt) ->
         redoStack (manager s') = []).
Proof.
  split.
  - intros s c1 c2 s1 s2 (Hu & Hr & Hidle) Hexec Hundo.
    destruct (executeCommand_push s c1 _ s1 Hidle (tryMerge_empty s c1 Hu) Hexec)
      as (c1' & Hu1 & Hr1 & Hidle1 & _).
    destruct (undo_done s1 s2 Hundo) as (e & Hu2 & Hr2 & Hidle2 & _).
    rewrite Hu in Hu1. rewrite Hr1 in Hr2.
    assert (Hempty : undoStack (manager s2) = []).
    { rewrite Hu2, Hu1. destruct (_ <? _); reflexivity. }
    split; [by rewrite Hr2|].
    intros s3 Hexec3.
    destruct (executeCommand_push s2 c2 _ s3 Hidle2 (tryMerge_empty s2 c2 Hempty)
                                  Hexec3) as (c2' & _ & Hr3 & _).
    by rewrite Hr3.
  - intros s c w0 s' Hidle Hmerge Hexec.
    destruct (executeCommand_push s c w0 s' Hidle Hmerge Hexec)
      as (c' & _ & Hr & _).
    exact Hr.
Qed.


Lemma saveHistory_done (m : HistoryManager C) h st :
  currentHistoryState m = Done st ->
  snd (saveHistory m h) = Done tt.
Proof.
  intros Hst. unfold saveHistory. rewrite Hst.
  repeat (case_match; cbn; try reflexivity).
Qed.


(** A rejected [put] is absorbed: the state goes to the in-memory map and
    [saveHistory] returns normally. *)
Lemma saveHistory_put_rejected (m : HistoryManager C) h st :
  cfg_enablePersistence (globalConfig h) = true ->
  isHistoryDBAvailable h = true ->
  historyDbInstance h = true ->
  idb_writes h = false ->
  currentHistoryState m = Done st ->
  saveHistory m h
  = (set_fallbackHistory st (log_call (IdbPut (currentDateKey m)) h), Done tt).
Proof.
  intros Hp Ha Hi Hw Hst. unfold saveHistory.
  rewrite Hp, Ha, Hst, Hi. cbn. by rewrite Hw, Hi.
Qed.


(** ** The capacity of the stacks *)

Lemma length_pop_rest l : length (pop_rest l) = Nat.pred (length l).
Proof.
  unfold pop_rest. destruct l as [|x l] using rev_ind; [done|].
  rewrite removelast_last, length_app. cbn. lia.
Qed.

Lemma length_shift l : length (shift l) = Nat.pred (length l).
Proof. by destruct l. Qed.

Lemma length_update_top l x : length (update_top x l) = length l.
Proof.
  unfold update_top. destruct l as [|y l]; [done|].
  rewrite length_app. change (length [x]) with 1%nat.
  pose proof (length_pop_rest (y :: l)) as Hl. unfold pop_rest in Hl.
  rewrite Hl. cbn. lia.
Qed.

Ltac stack_lengths :=
  unfold withinCapacity in *; cbn in *;
  repeat first
    [ rewrite length_push in * | rewrite length_pop_rest in *
    | rewrite length_shift in * | rewrite length_update_top in * ];
  cbn in *; try lia.

(** Each operation of the manager keeps the stacks within the capacity; so
    does every sequence of them that starts from empty stacks. *)
Lemma withinCapacity_executeCommand s c :
  withinCapacity (manager s) ->
  withinCapacity (manager (fst (executeCommand c s))).
Proof.
  intros Hcap. unfold executeCommand.
  destruct (isExecuting (manager s)); [exact Hcap|].
  unfold executeCommand_try, persistCommand, do_saveHistory.
  destruct (tryMerge _ _) as [w0 [mc|]];
    destruct (cfg_enableOptimisticUpdates _); cbn;
    destruct (cmd_execute _ _) as [[c1 w1] [[]|e]]; cbn;
    try (destruct (saveHistory _ _) as [h [[]|e']]; cbn);
    try (destruct (cmd_undo _ _) as [[c2 w2] [[]|e'']]; cbn);
    try (destruct (_ <? _) eqn:Hlt;
         [apply Z.ltb_lt in Hlt|apply Z.ltb_ge in Hlt]);
    stack_lengths.
Qed.

Lemma withinCapacity_undo s :
  withinCapacity (manager s) -> withinCapacity (manager (fst (undo s))).
Proof.
  intros Hcap. unfold undo.
  destruct (length (undoStack (manager s))) as [|n] eqn:Hn; [exact Hcap|].
  destruct (isExecuting (manager s)); [exact Hcap|]. cbn [Nat.eqb orb].
  unfold undo_try, persistUndo, do_saveHistory, redo_to_undo.
  destruct (cfg_enableOptimisticUpdates _); cbn;
    destruct (entry_undo _ _) as [[c1 w1] [[]|e]]; cbn;
    try (destruct (saveHistory _ _) as [h [[]|e']]; cbn);
    try (destruct (entry_execute _ _) as [[c2 w2] [[]|e'']]; cbn);
    stack_lengths.
Qed.

Lemma withinCapacity_redo s :
  withinCapacity (manager s) -> withinCapacity (manager (fst (redo s))).
Proof.
  intros Hcap. unfold redo.
  destruct (length (redoStack (manager s))) as [|n] eqn:Hn; [exact Hcap|].
  destruct (isExecuting (manager s)); [exact Hcap|]. cbn [Nat.eqb orb].
  unfold redo_try, persistRedo, do_saveHistory, undo_to_redo.
  destruct (cfg_enableOptimisticUpdates _); cbn;
    destruct (entry_execute _ _) as [[c1 w1] [[]|e]]; cbn;
    try (destruct (saveHistory _ _) as [h [[]|e']]; cbn);
    try (destruct (entry_undo _ _) as [[c2 w2] [[]|e'']]; cbn);
    stack_lengths.
Qed.

Lemma withinCapacity_undoStack (m : HistoryManager C) :
  withinCapacity m -> Z.of_nat (length (undoStack m)) <= maxHistorySize m.
Proof. unfold withinCapacity. lia. Qed.

Lemma withinCapacity_step (e : Event C) s :
  loadsHistory e = false ->
  withinCapacity (manager s) -> withinCapacity (manager (step e s)).
Proof.
  intros He Hcap. destruct e; try discriminate He; cbn [step].
  - by apply withinCapacity_executeCommand.
  - by apply withinCapacity_undo.
  - by apply withinCapacity_redo.
  - unfold clearHistory, do_saveHistory.
    destruct (saveHistory _ _) as [h r]. stack_lengths.
  - exact Hcap.
  - exact Hcap.
Qed.

Lemma withinCapacity_run (evs : list (Event C)) s :
  Forall (fun e => loadsHistory e = false) evs ->
  withinCapacity (manager s) -> withinCapacity (manager (run evs s)).
Proof.
  revert s. induction evs as [|e evs IH]; intros s Hevs Hcap; [exact Hcap|].
  apply Forall_cons in Hevs as [He Hevs].
  cbn. apply IH; [exact Hevs|]. by apply withinCapacity_step.
Qed.

(** Starting from empty stacks, as long as no history is loaded, the undo
    stack holds at most [maxHistorySize] entries. *)
Lemma fresh_run_within_maxHistorySize (evs : list (Event C)) s :
  fresh s -> 0 <= maxHistorySize (manager s) ->
  Forall (fun e => loadsHistory e = false) evs ->
  Z.of_nat (length (undoStack (manager (run evs s))))
  <= maxHistorySize (manager (run evs s)).
Proof.
  intros (Hus & Hrs & _) Hmax Hevs.
  apply withinCapacity_undoStack, withinCapacity_run; [exact Hevs|].
  unfold withinCapacity. rewrite Hus, Hrs. cbn. lia.
Qed.

(** ** Operations whose command throws *)

(** With optimistic updates, a command that throws in [executeCommand]
    leaves the manager as it was. *)
Lemma executeCommand_throw_optimistic s c w0 c1 w1 e :
  isExecuting (manager s) = false ->
  cfg_enableOptimisticUpdates (globalConfig (history s)) = true ->
  tryMerge c s = (w0, None) ->
  cmd_execute c w0 = (c1, w1, Throw e) ->
  instanceof_Error e = true ->
  executeCommand c s
  = (set_world w1 s, Throw (CommandExecutionError (message e) e)).
Proof.
  intros Hidle Hopt Hmerge Hexec Herr.
  unfold executeCommand. rewrite Hidle.
  unfold executeCommand_try. rewrite tryMerge_set_isExecuting, Hmerge.
  cbn. rewrite Hopt, Hexec. cbn. rewrite Herr. cbn.
  destruct s as [[us rs k mx ex] h w]. cbn in *. by subst ex.
Qed.

(** With optimistic updates, a command that throws in [undo] is dropped:
    the handler moves the top of the redo stack, or [undefined] if that
    stack is empty, onto the undo stack in its place. *)
Lemma undo_throw_optimistic s us c c1 w1 e :
  isExecuting (manager s) = false ->
  cfg_enableOptimisticUpdates (globalConfig (history s)) = true ->
  undoStack (manager s) = push (Some c) us ->
  cmd_undo c (world s) = (c1, w1, Throw e) ->
  exists s',
    undo s = (s', Throw (CommandExecutionError "Undo failed" e))
    /\ undoStack (manager s') = push (top (redoStack (manager s))) us
    /\ redoStack (manager s') = pop_rest (redoStack (manager s)).
Proof.
  intros Hidle Hopt Hus Hundo.
  unfold undo. rewrite Hidle, Hus, length_push. cbn [Nat.eqb orb].
  unfold undo_try. cbn. rewrite Hopt, Hus, top_push, pop_rest_push.
  cbn [entry_undo]. rewrite Hundo. cbn.
  eexists. repeat split.
Qed.

(** The mirror image for [redo]. *)
Lemma redo_throw_optimistic s rs c c1 w1 e :
  isExecuting (manager s) = false ->
  cfg_enableOptimisticUpdates (globalConfig (history s)) = true ->
  redoStack (manager s) = push (Some c) rs ->
  cmd_execute c (world s) = (c1, w1, Throw e) ->
  exists s',
    redo s = (s', Throw (CommandExecutionError "Redo failed" e))
    /\ redoStack (manager s') = push (top (undoStack (manager s))) rs
    /\ undoStack (manager s') = pop_rest (undoStack (manager s)).
Proof.
  intros Hidle Hopt Hrs Hexec.
  unfold redo. rewrite Hidle, Hrs, length_push. cbn [Nat.eqb orb].
  unfold redo_try. cbn. rewrite Hopt, Hrs, top_push, pop_rest_push.
  cbn [entry_execute]. rewrite Hexec. cbn.
  eexists. repeat split.
Qed.

(** ** Operations that succeed *)

Lemma serializeStack_push l c :
  serializeStack (push (Some c) l)
  = match serializeStack l with
    | Throw e => Throw e
    | Done ss =>
        match cmd_serialize c with
        | Throw e => Throw e
        | Done sc => Done (ss ++ match sc with Some x => [x] | None => [] end)
        end
    end.
Proof.
  unfold push. induction l as [|[c0|] l IH]; cbn.
  - destruct (cmd_serialize c) as [[x|]|e]; reflexivity.
  - rewrite IH. destruct (cmd_serialize c0) as [s0|e0]; [|reflexivity].
    destruct (serializeStack l) as [ss|e]; [|reflexivity].
    destruct (cmd_serialize c) as [sc|e]; [|reflexivity].
    by destruct s0.
  - reflexivity.
Qed.

Lemma initHistoryDB_config h : globalConfig (initHistoryDB h) = globalConfig h.
Proof. unfold initHistoryDB. by destruct (idb_opens _). Qed.

Lemma saveHistory_config (m : HistoryManager C) h :
  globalConfig (fst (saveHistory m h)) = globalConfig h.
Proof.
  unfold saveHistory.
  repeat (case_match; cbn); rewrite ?initHistoryDB_config; reflexivity.
Qed.

Lemma do_saveHistory_done s st :
  currentHistoryState (manager s) = Done st ->
  exists h, do_saveHistory s = (set_history h s, Done tt)
            /\ globalConfig h = globalConfig (history s).
Proof.
  intros Hst. unfold do_saveHistory.
  pose proof (saveHistory_done (manager s) (history s) st Hst) as Hs.
  pose proof (saveHistory_config (manager s) (history s)) as Hc.
  destruct (saveHistory _ _) as [h r]. cbn in Hs, Hc. subst r. by exists h.
Qed.


Lemma update_top_twice l x y : update_top y (update_top x l) = update_top y l.
Proof.
  destruct l as [|z l]; [reflexivity|].
  unfold update_top at 2 3.
  change (removelast (z :: l) ++ [x]) with (push x (removelast (z :: l))).
  apply update_top_push.
Qed.

(** A command that merges with the top entry replaces it. *)
Lemma executeCommand_merged s c w0 m m1 w1 st :
  isExecuting (manager s) = false ->
  tryMerge c s = (w0, Some m) ->
  cmd_execute m w0 = (m1, w1, Done tt) ->
  currentHistoryState
    (manager (set_undoStack (update_top (Some m1) (undoStack (manager s))) s))
  = Done st ->
  exists s',
    executeCommand c s = (s', Done tt)
    /\ world s' = w1
    /\ undoStack (manager s') = update_top (Some m1) (undoStack (manager s))
    /\ redoStack (manager s') = redoStack (manager s)
    /\ isExecuting (manager s') = false
    /\ maxHistorySize (manager s') = maxHistorySize (manager s)
    /\ currentDateKey (manager s') = currentDateKey (manager s)
    /\ globalConfig (history s') = globalConfig (history s).
Proof.
  intros Hidle Hmerge Hexec Hst.
  unfold executeCommand. rewrite Hidle.
  unfold executeCommand_try. rewrite tryMerge_set_isExecuting, Hmerge.
  cbn. rewrite Hexec.
  destruct (cfg_enableOptimisticUpdates (globalConfig (history s))).
  - match goal with |- context [do_saveHistory ?s0] =>
      edestruct (do_saveHistory_done s0) as (h & Hh & Hc); [exact Hst|] end.
    rewrite Hh. cbn. eexists. repeat split; exact Hc.
  - rewrite update_top_twice.
    match goal with |- context [do_saveHistory ?s0] =>
      edestruct (do_saveHistory_done s0) as (h & Hh & Hc); [exact Hst|] end.
    rewrite Hh. cbn. eexists. repeat split; exact Hc.
Qed.


Lemma serialisable_stacks (m : HistoryManager C) :
  serialisable m <-> stackOK (undoStack m) /\ stackOK (redoStack m).
Proof.
  unfold serialisable, stackOK, currentHistoryState. split.
  - intros [st Hst].
    destruct (serializeStack (undoStack m)) as [su|]; [|discriminate].
    destruct (serializeStack (redoStack m)) as [sr|]; [|discriminate].
    eauto.
  - intros [[su ->] [sr ->]]. eauto.
Qed.

Lemma stackOK_push l c :
  stackOK (push (Some c) l)
  <-> stackOK l /\ exists x, cmd_serialize c = Done x.
Proof.
  unfold stackOK. rewrite serializeStack_push. split.
  - intros [ss Hss].
    destruct (serializeStack l) as [sl|]; [|discriminate].
    destruct (cmd_serialize c) as [x|]; [|discriminate]. eauto.
  - intros [[sl ->] [x ->]]. eauto.
Qed.


(** ** The in-memory fallback is permanent *)

Lemma getPersistedHistory_memoryOnly k h :
  isHistoryDBAvailable h = false ->
  getPersistedHistory k h = (h, fallbackHistoryStorage h !! k).
Proof. intros Hh. unfold getPersistedHistory. by rewrite Hh. Qed.

Lemma saveHistory_memoryOnly (m : HistoryManager C) h st :
  isHistoryDBAvailable h = false ->
  cfg_enablePersistence (globalConfig h) = true ->
  currentHistoryState m = Done st ->
  saveHistory m h = (set_fallbackHistory st h, Done tt).
Proof. intros Hh Hp Hst. unfold saveHistory. by rewrite Hp, Hst, Hh. Qed.

Lemma memoryOnly_saveHistory calls (m : HistoryManager C) h :
  memoryOnly calls h -> memoryOnly calls (fst (saveHistory m h)).
Proof.
  intros [Hh Hc]. unfold saveHistory. rewrite Hh. cbn.
  repeat (case_match; cbn); done.
Qed.

Lemma memoryOnly_do_saveHistory calls s :
  memoryOnly calls (history s) ->
  memoryOnly calls (history (fst (do_saveHistory s))).
Proof.
  intros Hm. unfold do_saveHistory.
  pose proof (memoryOnly_saveHistory calls (manager s) (history s) Hm) as Hs.
  destruct (saveHistory _ _) as [h r]. exact Hs.
Qed.

Lemma memoryOnly_loadHistory calls s :
  memoryOnly calls (history s) -> memoryOnly calls (history (loadHistory s)).
Proof.
  intros [Hh Hc]. unfold loadHistory.
  rewrite (getPersistedHistory_memoryOnly _ _ Hh).
  repeat (case_match; cbn); done.
Qed.

Ltac save_step calls Hm Hs :=
  match goal with
  | |- context [do_saveHistory ?s] =>
      assert (Hs : memoryOnly calls (history (fst (do_saveHistory s))))
        by (apply memoryOnly_do_saveHistory; exact Hm);
      destruct (do_saveHistory s) as [? [[]|?]]; cbn [fst] in Hs
  end.

Lemma memoryOnly_persistCommand calls c f s :
  memoryOnly calls (history s) ->
  memoryOnly calls (history (fst (fst (persistCommand c f s)))).
Proof.
  intros Hm. unfold persistCommand. save_step calls Hm Hs; [exact Hs|].
  destruct f; [|exact Hs].
  destruct (cmd_undo _ _) as [[? ?] [[]|?]]; exact Hs.
Qed.

Lemma memoryOnly_executeCommand calls c s :
  memoryOnly calls (history s) ->
  memoryOnly calls (history (fst (executeCommand c s))).
Proof.
  intros Hm. unfold executeCommand.
  destruct (isExecuting (manager s)); [exact Hm|].
  unfold executeCommand_try.
  destruct (tryMerge _ _) as [w0 [mc|]];
    destruct (cfg_enableOptimisticUpdates _);
    cbn [manager history world set_world set_isExecuting pushCommand
         set_undoStack set_redoStack];
    destruct (cmd_execute _ _) as [[c1 w1] [[]|e]]; cbn [fst snd history set_isExecuting set_world set_undoStack];
    try exact Hm.
  - save_step calls Hm Hs; exact Hs.
  - save_step calls Hm Hs; exact Hs.
  - pose proof (memoryOnly_persistCommand calls c1 true
                  (pushCommand c1 (set_world w1 (set_world w0
                     (set_isExecuting true s)))) Hm) as Hs.
    destruct (persistCommand _ _ _) as [[s1 f] r]. exact Hs.
  - match goal with |- context [persistCommand c1 false ?s0] =>
      pose proof (memoryOnly_persistCommand calls c1 false s0 Hm) as Hs end.
    destruct (persistCommand _ _ _) as [[s1 f] r]. exact Hs.
Qed.

Lemma memoryOnly_persistUndo calls e f s :
  memoryOnly calls (history s) ->
  memoryOnly calls (history (fst (fst (persistUndo e f s)))).
Proof.
  intros Hm. unfold persistUndo. save_step calls Hm Hs; [exact Hs|].
  destruct f; [|exact Hs].
  destruct (entry_execute _ _) as [[? ?] [[]|?]]; exact Hs.
Qed.

Lemma memoryOnly_persistRedo calls e f s :
  memoryOnly calls (history s) ->
  memoryOnly calls (history (fst (fst (persistRedo e f s)))).
Proof.
  intros Hm. unfold persistRedo. save_step calls Hm Hs; [exact Hs|].
  destruct f; [|exact Hs].
  destruct (entry_undo _ _) as [[? ?] [[]|?]]; exact Hs.
Qed.

Lemma memoryOnly_undo calls s :
  memoryOnly calls (history s) ->
  memoryOnly calls (history (fst (undo s))).
Proof.
  intros Hm. unfold undo.
  destruct (_ || _); [exact Hm|].
  unfold undo_try.
  destruct (cfg_enableOptimisticUpdates _);
    cbn [manager history world set_world set_isExecuting set_undoStack
         set_redoStack];
    destruct (entry_undo _ _) as [[c1 w1] [[]|e]];
    cbn [fst snd history set_isExecuting set_world set_undoStack
         set_redoStack redo_to_undo negb];
    try exact Hm.
  - match goal with |- context [persistUndo c1 true ?s0] =>
      pose proof (memoryOnly_persistUndo calls c1 true s0 Hm) as Hs end.
    destruct (persistUndo _ _ _) as [[s1 f] [b|e]]; [exact Hs|].
    destruct f; exact Hs.
  - match goal with |- context [persistUndo c1 false ?s0] =>
      pose proof (memoryOnly_persistUndo calls c1 false s0 Hm) as Hs end.
    destruct (persistUndo _ _ _) as [[s1 f] [b|e]]; [exact Hs|].
    destruct f; exact Hs.
Qed.

Lemma memoryOnly_redo calls s :
  memoryOnly calls (history s) ->
  memoryOnly calls (history (fst (redo s))).
Proof.
  intros Hm. unfold redo.
  destruct (_ || _); [exact Hm|].
  unfold redo_try.
  destruct (cfg_enableOptimisticUpdates _);
    cbn [manager history world set_world set_isExecuting set_undoStack
         set_redoStack];
    destruct (entry_execute _ _) as [[c1 w1] [[]|e]];
    cbn [fst snd history set_isExecuting set_world set_undoStack
         set_redoStack undo_to_redo negb];
    try exact Hm.
  - match goal with |- context [persistRedo c1 true ?s0] =>
      pose proof (memoryOnly_persistRedo calls c1 true s0 Hm) as Hs end.
    destruct (persistRedo _ _ _) as [[s1 f] [b|e]]; [exact Hs|].
    destruct f; exact Hs.
  - match goal with |- context [persistRedo c1 false ?s0] =>
      pose proof (memoryOnly_persistRedo calls c1 false s0 Hm) as Hs end.
    destruct (persistRedo _ _ _) as [[s1 f] [b|e]]; [exact Hs|].
    destruct f; exact Hs.
Qed.

Lemma memoryOnly_switchDate calls k s :
  memoryOnly calls (history s) ->
  memoryOnly calls (history (fst (switchDate k s))).
Proof.
  intros Hm. unfold switchDate.
  destruct (String.eqb _ _); [exact Hm|].
  save_step calls Hm Hs; [|exact Hs].
  apply memoryOnly_loadHistory. exact Hs.
Qed.

Lemma memoryOnly_step calls (e : Event C) s :
  memoryOnly calls (history s) -> memoryOnly calls (history (step e s)).
Proof.
  intros Hm. destruct e; cbn [step].
  - by apply memoryOnly_executeCommand.
  - by apply memoryOnly_undo.
  - by apply memoryOnly_redo.
  - by apply memoryOnly_switchDate.
  - unfold clearHistory. by apply memoryOnly_do_saveHistory.
  - unfold new_HistoryManager. by apply memoryOnly_loadHistory.
  - exact Hm.
  - exact Hm.
Qed.

Lemma memoryOnly_run calls (evs : list (Event C)) s :
  memoryOnly calls (history s) -> memoryOnly calls (history (run evs s)).
Proof.
  revert s. induction evs as [|e evs IH]; intros s Hm; [exact Hm|].
  cbn. apply IH. by apply memoryOnly_step.
Qed.

(** C9.  If the durable backend fails to open, [initHistoryDB] enters the
    in-memory fallback.  From then on, whatever happens in the session
    (operations of the manager, new managers, changes of configuration,
    the backend becoming available again), the store stays in fallback
    mode, no further call is made to the durable backend, every
    [getPersistedHistory] answers from the in-memory map and every
    [saveHistory] of serialisable stacks writes to it. *)
Theorem C9_fallback_is_permanent s (evs : list (Event C)) :
  idb_opens (history s) = false ->
  isHistoryDBAvailable (initHistoryDB (history s)) = false
  /\ isHistoryDBAvailable
       (history (run evs (set_history (initHistoryDB (history s)) s))) = false
  /\ idb_calls (history (run evs (set_history (initHistoryDB (history s)) s)))
     = idb_calls (initHistoryDB (history s))
  /\ (forall k,
        getPersistedHistory k
          (history (run evs (set_history (initHistoryDB (history s)) s)))
        = (history (run evs (set_history (initHistoryDB (history s)) s)),
           fallbackHistoryStorage
             (history (run evs (set_history (initHistoryDB (history s)) s)))
           !! k))
  /\ (forall (m : HistoryManager C) st,
        cfg_enablePersistence
          (globalConfig
             (history (run evs (set_history (initHistoryDB (history s)) s))))
        = true ->
        currentHistoryState m = Done st ->
        saveHistory m
          (history (run evs (set_history (initHistoryDB (history s)) s)))
        = (set_fallbackHistory st
             (history (run evs (set_history (initHistoryDB (history s)) s))),
           Done tt)).
Proof.
  intros Hopen.
  assert (Hinit : isHistoryDBAvailable (initHistoryDB (history s)) = false).
  { unfold initHistoryDB. cbn. by rewrite Hopen. }
  split; [exact Hinit|].
  pose proof (memoryOnly_run (idb_calls (initHistoryDB (history s))) evs
                (set_history (initHistoryDB (history s)) s)) as Hrun.
  destruct Hrun as [Hflag Hcalls]; [by split|].
  split; [exact Hflag|]. split; [exact Hcalls|]. split.
  - intros k. by apply getPersistedHistory_memoryOnly.
  - intros m st Hp Hst. by apply saveHistory_memoryOnly.
Qed.

(** C8 (amended).  A call made while the manager is executing changes
    nothing: [executeCommand] throws the busy [UndoRedoError]; [undo] and
    [redo] return [false], the answer they also give on an empty stack. *)
Theorem C8_reentrant_calls_change_nothing s c :
  isExecuting (manager s) = true ->
  executeCommand c s = (s, Throw busy)
  /\ undo s = (s, Done false)
  /\ redo s = (s, Done false).
Proof.
  intros Hbusy. unfold executeCommand, undo, redo. rewrite Hbusy.
  rewrite !orb_true_r. auto.
Qed.

End ManagerFacts.

(* ================================================================== *)
(** * Properties of the catalog under the manager *)
(* ================================================================== *)

Section EditFacts.

Implicit Types (c : Cmd) (w : World) (s : State Cmd).












(** Whatever two text edits [merge] combines, the result undoes to the
    old text of the command passed to [executeCommand], writes the new text
    of the entry that was on the stack, and carries that entry's
    timestamp. *)
Lemma Cmd_merge_text_ends this other w w' m :
  isTextEdit this = true ->
  Cmd_merge this other w = (w', Some m) ->
  editOld m = editOld this /\ editNew m = editNew other
  /\ cmd_timestamp m = cmd_timestamp other.
Proof.
  intros Hedit.
  destruct this; try discriminate Hedit; destruct other; cbn;
    try discriminate; case_match; cbn; intros [= _ <-]; done.
Qed.

Lemma targetText_randomUUID c w :
  targetText c (fst (randomUUID w)) = targetText c w.
Proof.
  destruct c; try reflexivity; cbn [targetText];
    unfold noteContent, itemText, notesOf, checklistOf;
    by rewrite !readDay_activeStore.
Qed.

Lemma targetText_sameTarget c1 c2 w :
  sameTarget c1 c2 = true -> cmd_dateKey c1 = cmd_dateKey c2 ->
  targetText c1 w = targetText c2 w.
Proof.
  intros Hsame Hdate. destruct c1, c2; try discriminate; cbn in *;
    apply String.eqb_eq in Hsame; by rewrite Hsame, Hdate.
Qed.



End EditFacts.

Lemma wellKeyed_decide w :
  bool_decide (map_Forall (fun k d => day_date d = k) (activeStore w)) = true ->
  wellKeyed w.
Proof. intros Hd. apply bool_decide_eq_true in Hd. exact Hd. Qed.


(* ================================================================== *)
(** * [execute()] followed by [undo()] *)
(* ================================================================== *)

Section InverseLaw.

Implicit Types (c : Cmd) (w : World) (b : BaseCommand).










End InverseLaw.



(** C8, as stated, fails for [undo]: on a manager that is executing and
    has an entry to undo, [undo()] returns [false]; no busy condition is
    raised. *)
Lemma C8_undo_while_executing_returns_false :
  isExecuting (manager Scenario.executing) = true
  /\ length (undoStack (manager Scenario.executing)) = 1%nat
  /\ undo Scenario.executing = (Scenario.executing, Done false)
  /\ ~ (exists e, snd (undo Scenario.executing) = Throw e).
Proof.
  split; [reflexivity|]. split; [reflexivity|].
  assert (Hu : undo Scenario.executing = (Scenario.executing, Done false))
    by reflexivity.
  split; [exact Hu|].
  rewrite Hu. intros [e He]. discriminate He.
Qed.



(** C3 fails on the code.  With the default configuration, a manager
    holds an edit and, on top, a delete-note command whose restore callback
    throws; the redo stack is empty.  [undo()] raises a
    [CommandExecutionError], but the stacks are not left as they were: the
    delete command is gone, and [undefined], popped from the empty redo
    stack, has been pushed in its place. *)
Theorem C3_failed_undo_loses_the_command :
  cfg_enableOptimisticUpdates
    (globalConfig (history Scenario.after_delete)) = true
  /\ (exists a b, undoStack (manager Scenario.after_delete) = [Some a; Some b]
                  /\ undoStack (manager (fst Scenario.undo_after_delete))
                     = [Some a; None])
  /\ redoStack (manager Scenario.after_delete) = []
  /\ redoStack (manager (fst Scenario.undo_after_delete)) = []
  /\ snd Scenario.undo_after_delete
     = Throw (CommandExecutionError "Undo failed"
                                    (Error "Error" "restore failed"))
  /\ undoStack (manager (fst Scenario.undo_after_delete))
     <> undoStack (manager Scenario.after_delete).
Proof.
  split; [reflexivity|].
  split; [eexists _, _; split; vm_compute; reflexivity|].
  repeat (split; [vm_compute; reflexivity|]).
  vm_compute. discriminate.
Qed.

(** C6 fails on the code.  A history of three entries was saved for the
    day; a manager created for that day with [maxHistorySize = 2] loads all
    three, and executing one more command pushes a fourth entry and evicts
    one: the undo stack holds three entries against a bound of two. *)
Theorem C6_loaded_history_exceeds_maxHistorySize :
  maxHistorySize (manager Scenario.loaded_three) = 2
  /\ length (undoStack (manager Scenario.loaded_three)) = 3%nat
  /\ snd Scenario.toggle_on_three = Done tt
  /\ maxHistorySize (manager (fst Scenario.toggle_on_three)) = 2
  /\ length (undoStack (manager (fst Scenario.toggle_on_three))) = 3%nat.
Proof. repeat split; vm_compute; reflexivity. Qed.

Lemma C10_witness :
  List.find (fun i => String.eqb (item_id i) "no-such-item")
            (checklistOf Scenario.day Scenario.world0) = None
  /\ Cmd_execute Scenario.toggleMissing Scenario.world0
     = (Scenario.toggleMissing, Scenario.world0, Done tt)
  /\ Cmd_undo Scenario.toggleMissing Scenario.world0
     = (Scenario.toggleMissing, Scenario.world0, Done tt).
Proof.
  split; [reflexivity|].
  destruct (C10_toggle_of_absent_item_is_a_noop
              (mkBase "t0" "toggle-checklist-item" Scenario.day (ValidDate 1))
              "no-such-item" (Some (Raises (Error "Error" "never called")))
              Scenario.world0)
    as (w' & Hexec & Hundo & _ & Hsame); [reflexivity|].
  rewrite (Hsame eq_refl) in Hexec, Hundo. split; [exact Hexec|exact Hundo].
Defined.

Lemma C9_witness :
  idb_opens (history Scenario.start_noopen) = false
  /\ isHistoryDBAvailable
       (history (run Scenario.session
                     (set_history (initHistoryDB (history Scenario.start_noopen))
                                  Scenario.start_noopen))) = false
  /\ idb_calls
       (history (run Scenario.session
                     (set_history (initHistoryDB (history Scenario.start_noopen))
                                  Scenario.start_noopen))) = [IdbOpen].
Proof.
  split; [reflexivity|].
  destruct (C9_fallback_is_permanent Scenario.start_noopen Scenario.session)
    as (_ & Hflag & Hcalls & _); [reflexivity|].
  split; [exact Hflag|]. rewrite Hcalls. reflexivity.
Defined.

(** C1 fails on the code.  A note with content A is edited three times,
    100 ms apart: A to B, B to C, C to D.  [executeCommand] calls
    [command.merge(lastCommand)], so inside [merge] the receiver is the
    current command and [other] is its predecessor: each merged command
    keeps the current command's old content, the predecessor's new content
    and the predecessor's timestamp, and executing it writes the
    predecessor's new content.  After the third edit the single undo entry
    goes from C to B with the first edit's timestamp, the note reads B, and
    one [undo()] leaves the note at C, an intermediate value, not at A. *)
Theorem C1_merge_keeps_the_wrong_ends :
  noteContent Scenario.day "n1" (world Scenario.start) = Some "A"
  /\ (exists m,
        undoStack (manager Scenario.after_edit3) = [Some m]
        /\ editOld m = "C" /\ editNew m = "B"
        /\ cmd_timestamp m = ValidDate 1000)
  /\ noteContent Scenario.day "n1" (world Scenario.after_edit3) = Some "B"
  /\ snd Scenario.undo_after_edit3 = Done true
  /\ noteContent Scenario.day "n1" (world (fst Scenario.undo_after_edit3))
     = Some "C".
Proof.
  split; [vm_compute; reflexivity|].
  split; [eexists; repeat split; vm_compute; reflexivity|].
  repeat split; vm_compute; reflexivity.
Qed.

Lemma C8_witness :
  isExecuting (manager Scenario.executing) = true
  /\ executeCommand Scenario.edit1_cmd Scenario.executing
      = (Scenario.executing, Throw busy)
  /\ undo Scenario.executing = (Scenario.executing, Done false)
  /\ redo Scenario.executing = (Scenario.executing, Done false).
Proof.
  split; [reflexivity|].
  apply (C8_reentrant_calls_change_nothing Scenario.executing Scenario.edit1_cmd).
  reflexivity.
Defined.

Lemma C5_witness :
  fresh Scenario.both_ready
  /\ length (redoStack (manager Scenario.edit_undone)) = 1%nat
  /\ length (redoStack (manager Scenario.toggle_done)) = 0%nat.
Proof.
  assert (Hfresh : fresh Scenario.both_ready) by (repeat split).
  split; [exact Hfresh|].
  destruct (@C5_new_action_invalidates_redo Cmd _) as [Hscenario _].
  destruct (Hscenario Scenario.both_ready Scenario.edit1_cmd
              Scenario.toggle1_cmd Scenario.edit_done Scenario.edit_undone
              Hfresh)
    as [H1 H2].
  - vm_compute; reflexivity.
  - vm_compute; reflexivity.
  - split; [exact H1|].
    apply H2. vm_compute; reflexivity.
Defined.

(* ================================================================== *)
(** * More of db.ts: what the writers do to the day they are called for *)
(* ================================================================== *)

Section StoreWriters.

Implicit Types (w : World) (d : DayData) (l : list ChecklistItem).



Lemma read_set_notes date w (f : list Note -> list Note) :
  match (fun dd => set_notes dd (f (day_notes dd))) <$> readDay date w with
  | Some d => day_notes d
  | None => []
  end = match readDay date w with Some d => f (day_notes d) | None => [] end.
Proof. by destruct (readDay date w). Qed.







Lemma find_filter_out {A} (p : A -> bool) (l : list A) :
  List.find p (List.filter (fun x => negb (p x)) l) = None.
Proof.
  induction l as [|x l IH]; cbn; [reflexivity|].
  destruct (p x) eqn:Hp; cbn; [exact IH|]. by rewrite Hp.
Qed.




End StoreWriters.

(* ================================================================== *)
(** * More of db.ts: reordering, trimming, and what a write leaves alone *)
(* ================================================================== *)

Section StoreReorder.

Implicit Types (w : World) (d : DayData) (l : list ChecklistItem).








End StoreReorder.

Section StoreTrim.

Variable trim : string -> string.

Implicit Types (w : World) (d : DayData) (l : list ChecklistItem).

Lemma filter_length_eq {A} (p : A -> bool) (l : list A) :
  length (List.filter p l) = length l -> List.filter p l = l.
Proof.
  induction l as [|x l IH]; cbn; [reflexivity|].
  destruct (p x); cbn.
  - intros [= Hl]. by rewrite IH.
  - intros Hl. pose proof (List.filter_length_le p l). lia.
Qed.

Lemma readDay_trimEmptyChecklistItems date date' w :
  wellKeyed w ->
  readDay date' (trimEmptyChecklistItems trim date w)
  = if String.eqb date' date
    then (fun dd =>
            set_checklist dd
              (List.filter
                 (fun item => negb (String.eqb (trim (item_text item)) ""))
                 (day_checklist dd)))
         <$> readDay date w
    else readDay date' w.
Proof.
  intros Hk. unfold trimEmptyChecklistItems.
  destruct (getDayData date w) as [w1 [dd|]] eqn:E;
    destruct (getDayData_read date w w1 _ E) as (Hdd & Hread & _).
  - destruct (Nat.eqb_spec (length (List.filter (fun item =>
                 negb (String.eqb (trim (item_text item)) ""))
                 (day_checklist dd))) (length (day_checklist dd))) as [Hl|Hl];
      cbn [negb].
    + rewrite Hread, <- Hdd. cbn. rewrite (filter_length_eq _ _ Hl).
      destruct (String.eqb_spec date' date) as [->|]; [|reflexivity].
      rewrite <- Hdd. by destruct dd.
    + rewrite (readDay_saved date date' w w1 dd _ Hk E); [by rewrite <- Hdd|done|].
      apply set_checklist_normal, filter_ordered.
      by apply (readDay_ordered date w).
  - rewrite Hread. destruct (String.eqb_spec date' date) as [->|]; [|reflexivity].
    by rewrite <- Hdd.
Qed.


Lemma wellKeyed_trimEmptyChecklistItems date w :
  wellKeyed w -> wellKeyed (trimEmptyChecklistItems trim date w).
Proof.
  intros Hk. unfold trimEmptyChecklistItems.
  destruct (getDayData date w) as [w1 [dd|]] eqn:E;
    destruct (getDayData_read date w w1 _ E) as (_ & _ & Hk1 & _);
    [|by apply Hk1].
  destruct (negb _); [|by apply Hk1].
  apply wellKeyed_saveDayData. by apply Hk1.
Qed.

(** X6.  A writer of db.ts that is called for one date changes nothing
    that any other date reads, and it keeps every record stored under its
    own date. *)
Theorem X6_a_write_touches_one_day date op w :
  wellKeyed w ->
  wellKeyed (applyWrite trim date op w)
  /\ forall date', date' <> date ->
       readDay date' (applyWrite trim date op w) = readDay date' w.
Proof.
  intros Hk.
  assert (Hne : forall date' (a b : option DayData), date' <> date ->
                  (if String.eqb date' date then a else b) = b).
  { intros date' a b Hd. by destruct (String.eqb_spec date' date). }
  destruct op; cbn [applyWrite].
  - destruct (addNote date content w) as [w' note] eqn:E.
    destruct (addNote_spec _ _ _ _ _ Hk E) as (_ & Hk' & Hread).
    split; [exact Hk'|]. intros date' Hd. cbn. rewrite Hread. by apply Hne.
  - split; [by apply wellKeyed_updateNote|].
    intros date' Hd. rewrite readDay_updateNote by done. by apply Hne.
  - split; [by apply wellKeyed_modify|].
    intros date' Hd. rewrite readDay_deleteNote by done. by apply Hne.
  - destruct (addChecklistItem date text w) as [w' item] eqn:E.
    destruct (addChecklistItem_spec _ _ _ _ _ Hk E) as (_ & Hk' & Hread).
    split; [exact Hk'|]. intros date' Hd. cbn. rewrite Hread. by apply Hne.
  - split; [by apply wellKeyed_updateChecklistItem|].
    intros date' Hd. rewrite readDay_updateChecklistItem by done. by apply Hne.
  - split; [by apply wellKeyed_modify|].
    intros date' Hd. rewrite readDay_reorderChecklistItems by done.
    by apply Hne.
  - split; [by apply wellKeyed_modify|].
    intros date' Hd. rewrite readDay_deleteChecklistItem by done. by apply Hne.
  - split; [by apply wellKeyed_trimEmptyChecklistItems|].
    intros date' Hd. rewrite readDay_trimEmptyChecklistItems by done.
    by apply Hne.
  - cbn. split; [by apply wellKeyed_saveDayData|].
    intros date' Hd. rewrite readDay_saveDayData. cbn. by apply Hne.
Qed.

End StoreTrim.

(* ================================================================== *)
(** * searchService.ts: the index entries that db.ts writes and removes *)
(* ================================================================== *)

Section SearchIndexFacts.

Implicit Types (s : SearchDB) (item : SearchIndex) (index : list SearchIndex).

Lemma upsert_cons item x index :
  upsert item (x :: index)
  = if String.eqb (si_id x) (si_id item) then item :: index
    else x :: upsert item index.
Proof.
  unfold upsert. cbn.
  destruct (String.eqb_spec (si_id x) (si_id item)) as [He|He].
  - by rewrite decide_True.
  - rewrite decide_False by done.
    by destruct (list_find _ index) as [[i y]|].
Qed.

Lemma searchEntry_upsert item index :
  searchEntry (si_id item) (upsert item index) = Some item.
Proof.
  unfold searchEntry. induction index as [|x index IH].
  - cbn. by rewrite String.eqb_refl.
  - rewrite upsert_cons.
    destruct (String.eqb (si_id x) (si_id item)) eqn:He; cbn.
    + by rewrite String.eqb_refl.
    + by rewrite He.
Qed.

Lemma searchEntry_upsert_other item index id :
  id <> si_id item ->
  searchEntry id (upsert item index) = searchEntry id index.
Proof.
  intros Hid. unfold searchEntry. induction index as [|x index IH].
  - cbn. by destruct (String.eqb_spec (si_id item) id).
  - rewrite upsert_cons.
    destruct (String.eqb_spec (si_id x) (si_id item)) as [He|He]; cbn.
    + destruct (String.eqb_spec (si_id item) id); [congruence|].
      destruct (String.eqb_spec (si_id x) id); [congruence|reflexivity].
    + by rewrite IH.
Qed.

Lemma upsert_ids item index :
  NoDup (List.map si_id index) -> NoDup (List.map si_id (upsert item index)).
Proof.
  induction index as [|x index IH]; intros Hnd.
  - cbn. apply NoDup_singleton.
  - rewrite upsert_cons. cbn in Hnd. apply NoDup_cons in Hnd as [Hx Hnd].
    destruct (String.eqb_spec (si_id x) (si_id item)) as [He|He]; cbn.
    + apply NoDup_cons. by rewrite <- He.
    + apply NoDup_cons. split; [|by apply IH].
      intros Hin. apply Hx. clear -Hin He.
      induction index as [|y index IH]; cbn in *.
      * apply list_elem_of_singleton in Hin. congruence.
      * rewrite upsert_cons in Hin.
        destruct (String.eqb_spec (si_id y) (si_id item)); cbn in Hin.
        -- apply elem_of_cons in Hin as [Hin|Hin]; [congruence|by right].
        -- apply elem_of_cons in Hin as [Hin|Hin];
             [rewrite Hin; by left|right; by apply IH].
Qed.



(** Which of the two stores a call writes to: [true] for the in-memory
    index. *)
Lemma addToSearchIndex_cases item s :
  (fallbackSearchIndex (addToSearchIndex item s)
     = upsert item (fallbackSearchIndex s)
   /\ sidb_rows (addToSearchIndex item s) = sidb_rows s
   /\ (isSearchIndexAvailable s = false
       \/ sidb_opens s = false /\ searchDbInstance s = false
       \/ sidb_writes s = false))
  \/ (fallbackSearchIndex (addToSearchIndex item s) = fallbackSearchIndex s
      /\ sidb_rows (addToSearchIndex item s)
         = <[si_id item := item]> (sidb_rows s)
      /\ isSearchIndexAvailable s = true /\ sidb_writes s = true
      /\ (sidb_opens s = true \/ searchDbInstance s = true)).
Proof.
  unfold addToSearchIndex, initSearchDB.
  destruct s as [inst avail fb opens writes rows]; cbn.
  destruct avail, inst, opens, writes; cbn; auto 10.
Qed.

(** X10.  The in-memory search index holds one entry per id:
    [addToSearchIndex], when it writes there, replaces the entry that
    carries the id of the item or appends the item if there is none, so the
    item is the entry found under its id, every other id finds what it
    found before, and ids that were distinct stay distinct;
    [removeFromSearchIndex] then leaves no entry under the id. *)
Theorem X10_in_memory_index_holds_one_entry_per_id item s :
  isSearchIndexAvailable s = false ->
  searchEntry (si_id item) (fallbackSearchIndex (addToSearchIndex item s))
  = Some item
  /\ (forall id, id <> si_id item ->
        searchEntry id (fallbackSearchIndex (addToSearchIndex item s))
        = searchEntry id (fallbackSearchIndex s))
  /\ (NoDup (List.map si_id (fallbackSearchIndex s)) ->
      NoDup (List.map si_id (fallbackSearchIndex (addToSearchIndex item s))))
  /\ searchEntry (si_id item)
       (fallbackSearchIndex
          (removeFromSearchIndex (si_id item) (addToSearchIndex item s)))
     = None
  /\ sidb_rows (removeFromSearchIndex (si_id item) (addToSearchIndex item s))
     = sidb_rows s.
Proof.
  intros Hoff. unfold addToSearchIndex, removeFromSearchIndex.
  rewrite Hoff. cbn. rewrite Hoff. cbn.
  split; [apply searchEntry_upsert|].
  split; [intros id Hid; by apply searchEntry_upsert_other|].
  split; [apply upsert_ids|]. split; [|reflexivity].
  unfold searchEntry.
  apply (find_filter_out (fun e => String.eqb (si_id e) (si_id item))).
Qed.



Lemma prefix_note_checklist a b : "note-" +:+ a <> "checklist-" +:+ b.
Proof. discriminate. Qed.

(** X12.  The entries of notes and of checklist items never meet:
    indexing a note leaves, in both stores of the index, the entry of
    every checklist item as it was, also for an item that carries the id of
    the note; and indexing a checklist item leaves the entry of every note
    as it was. *)
Theorem X12_note_and_item_entries_never_meet
    (date : string) (note : Note) (item : ChecklistItem) s :
  (searchEntry ("checklist-" +:+ item_id item)
     (fallbackSearchIndex (indexNote date note s))
   = searchEntry ("checklist-" +:+ item_id item) (fallbackSearchIndex s)
   /\ sidb_rows (indexNote date note s) !! ("checklist-" +:+ item_id item)
      = sidb_rows s !! ("checklist-" +:+ item_id item))
  /\ (searchEntry ("note-" +:+ note_id note)
        (fallbackSearchIndex (indexChecklistItem date item s))
      = searchEntry ("note-" +:+ note_id note) (fallbackSearchIndex s)
      /\ sidb_rows (indexChecklistItem date item s) !! ("note-" +:+ note_id note)
         = sidb_rows s !! ("note-" +:+ note_id note)).
Proof.
  assert (Hother : forall it id, id <> si_id it ->
            searchEntry id (fallbackSearchIndex (addToSearchIndex it s))
            = searchEntry id (fallbackSearchIndex s)
            /\ sidb_rows (addToSearchIndex it s) !! id = sidb_rows s !! id).
  { intros it id Hid.
    destruct (addToSearchIndex_cases it s) as [(Hf & Hr & _)|(Hf & Hr & _)];
      rewrite Hf, Hr.
    - split; [by apply searchEntry_upsert_other|reflexivity].
    - split; [reflexivity|]. by rewrite lookup_insert_ne. }
  split; apply Hother; cbn; discriminate.
Qed.

End SearchIndexFacts.

(* ================================================================== *)
(** * More of db.ts: the readers behind the calendar *)
(* ================================================================== *)

Section StoreReaders.

Implicit Types (w : World) (d : DayData) (l : list ChecklistItem).



Lemma same_eq x y : JsNumber.same x y = true -> x = y.
Proof.
  destruct x as [a|a| |s m e], y as [b|b| |s' m' e']; cbn; try discriminate;
    try reflexivity.
  - by intros ->%Bool.eqb_prop.
  - by intros ->%Bool.eqb_prop.
  - intros [[->%Bool.eqb_prop ->%Pos.eqb_eq]%andb_prop ->%Z.eqb_eq]%andb_prop.
    reflexivity.
Qed.

(** For up to 199 items, the binary64 computation
    [Math.round((completed / length) * 100)] gives an integer between 0
    and 100 that is within one half of the exact ratio in percent, is 100
    only for [completed = length] and 0 only for [completed = 0].  (It is
    not always the exact ratio rounded halves up: 23 of 40 gives 57, the
    product being 57.49999999999999.) *)
Lemma percentage_table :
  forallb
    (fun n =>
       forallb
         (fun c =>
            let x :=
              JsNumber.Math_round
                (JsNumber.mul
                   (JsNumber.div (JsNumber.of_Z (Z.of_nat c))
                                 (JsNumber.of_Z (Z.of_nat n)))
                   (JsNumber.of_Z 100)) in
            match JsNumber.to_Z x with
            | Some p =>
                JsNumber.same x (JsNumber.of_Z p)
                && (0 <=? p) && (p <=? 100)
                && (Z.abs (200 * Z.of_nat c - 2 * Z.of_nat n * p) <=? Z.of_nat n)
                && Bool.eqb (p =? 100) (c =? n)%nat
                && Bool.eqb (p =? 0) (c =? 0)%nat
            | None => false
            end)
         (seq 0 (S n)))
    (seq 1 199)
  = true.
Proof. vm_compute. reflexivity. Qed.

Lemma percentage_rounds (c n : nat) :
  (1 <= n <= 199)%nat -> (c <= n)%nat ->
  exists p : Z,
    JsNumber.Math_round
      (JsNumber.mul
         (JsNumber.div (JsNumber.of_Z (Z.of_nat c)) (JsNumber.of_Z (Z.of_nat n)))
         (JsNumber.of_Z 100))
    = JsNumber.of_Z p
    /\ 0 <= p <= 100
    /\ Z.abs (200 * Z.of_nat c - 2 * Z.of_nat n * p) <= Z.of_nat n
    /\ (p = 100 <-> c = n) /\ (p = 0 <-> c = 0%nat).
Proof.
  intros Hn Hc. pose proof percentage_table as Ht.
  rewrite forallb_forall in Ht.
  specialize (Ht n ltac:(apply in_seq; lia)). rewrite forallb_forall in Ht.
  specialize (Ht c ltac:(apply in_seq; lia)). cbv zeta in Ht.
  destruct (JsNumber.to_Z _) as [p|]; [|discriminate].
  repeat (apply andb_prop in Ht as [Ht ?]).
  exists p. split; [by apply same_eq|].
  split; [lia|]. split; [lia|].
  split.
  - destruct (Z.eqb_spec p 100), (Nat.eqb_spec c n); try discriminate; done.
  - destruct (Z.eqb_spec p 0), (Nat.eqb_spec c 0); try discriminate; done.
Qed.

Lemma filter_length_all {A} (p : A -> bool) (l : list A) :
  length (List.filter p l) = length l <-> Forall (fun x => p x = true) l.
Proof.
  induction l as [|x l IH]; cbn; [split; [constructor|reflexivity]|].
  pose proof (List.filter_length_le p l). destruct (p x) eqn:Hp; cbn.
  - rewrite Forall_cons. split.
    + intros [= Hl]. split; [exact Hp|by apply IH].
    + intros [_ Hl]. f_equal. by apply IH.
  - split; [lia|]. intros [Hx _]%Forall_cons. congruence.
Qed.

Lemma filter_length_none {A} (p : A -> bool) (l : list A) :
  length (List.filter p l) = 0%nat <-> Forall (fun x => p x = false) l.
Proof.
  induction l as [|x l IH]; cbn; [split; [constructor|reflexivity]|].
  destruct (p x) eqn:Hp; cbn.
  - split; [discriminate|]. intros [Hx _]%Forall_cons. congruence.
  - rewrite Forall_cons. split; [intros Hl; split; [exact Hp|by apply IH]|].
    intros [_ Hl]. by apply IH.
Qed.

(** X9.  [getCompletionPercentage] on a day with at most 199 checklist
    items: the number returned is an integer between 0 and 100 that is
    within one half of the share of completed items in percent; it is 100
    exactly when the checklist is not empty and every item is completed,
    and 0 exactly when no item is completed (so also for a day with no
    items or no record). *)
Theorem X9_completion_percentage date w :
  (length (checklistOf date w) <= 199)%nat ->
  exists p : Z,
    snd (getCompletionPercentage date w) = JsNumber.of_Z p
    /\ 0 <= p <= 100
    /\ Z.abs (200 * Z.of_nat (length (List.filter item_completed
                                                  (checklistOf date w)))
              - 2 * Z.of_nat (length (checklistOf date w)) * p)
       <= Z.of_nat (length (checklistOf date w))
    /\ (p = 100 <->
        checklistOf date w <> []
        /\ Forall (fun i => item_completed i = true) (checklistOf date w))
    /\ (p = 0 <->
        Forall (fun i => item_completed i = false) (checklistOf date w)).
Proof.
  intros Hlen.
  assert (Hres :
    snd (getCompletionPercentage date w)
    = if (length (checklistOf date w) =? 0)%nat then JsNumber.of_Z 0
      else JsNumber.Math_round
             (JsNumber.mul
                (JsNumber.div
                   (JsNumber.of_Z
                      (Z.of_nat (length (List.filter item_completed
                                                     (checklistOf date w)))))
                   (JsNumber.of_Z (Z.of_nat (length (checklistOf date w)))))
                (JsNumber.of_Z 100))).
  { unfold getCompletionPercentage, checklistOf.
    pose proof (getDayData_snd date w) as Hs.
    destruct (getDayData date w) as [w1 [dd|]]; cbn in *; by rewrite <- Hs. }
  rewrite Hres. clear Hres.
  pose proof (List.filter_length_le item_completed (checklistOf date w)) as Hc.
  pose proof (filter_length_all item_completed (checklistOf date w)) as Hall.
  pose proof (filter_length_none item_completed (checklistOf date w)) as Hnone.
  destruct (checklistOf date w) as [|x cl] eqn:Hcl.
  - exists 0. cbn. split; [reflexivity|]. split; [lia|]. split; [lia|].
    split; [split; [lia|intros [? _]; done]|]. split; [constructor|reflexivity].
  - set (l := x :: cl) in *.
    assert (Hn : (1 <= length l)%nat) by (subst l; cbn; lia).
    destruct (Nat.eqb_spec (length l) 0) as [H0|_]; [lia|].
    destruct (percentage_rounds (length (List.filter item_completed l))
                (length l) ltac:(lia) Hc)
      as (p & Hp & Hrange & Hnear & H100 & H0).
    exists p. split; [exact Hp|]. split; [exact Hrange|].
    split; [exact Hnear|]. rewrite H100, H0, Hall, Hnone.
    split; [|reflexivity]. split; [by intros ?|by intros [_ ?]].
Qed.

End StoreReaders.

(* ================================================================== *)
(** * commands.ts: the persisted form of a command, and the batch *)
(* ================================================================== *)

Section Persisted.

(** Induction over commands, through the commands of a batch. *)
Lemma Cmd_nested_ind (P : Cmd -> Prop) :
  (forall c, match c with BatchCommand _ _ _ => False | _ => True end -> P c) ->
  (forall b commands description,
     Forall P commands -> P (BatchCommand b commands description)) ->
  forall c, P c.
Proof.
  intros Hsimple Hbatch. fix IH 1. intros c.
  destruct c as [| | | | | | | |b commands description];
    try (apply Hsimple; exact I).
  apply Hbatch. induction commands as [|c1 commands IHl]; constructor.
  - apply IH.
  - exact IHl.
Qed.

(** Induction over persisted commands, through the data of a batch. *)
Lemma Ser_nested_ind (P : SerializableCommand -> Prop) :
  (forall i t k ts payload,
     match payload with PBatch _ _ => False | _ => True end ->
     P (mkSer i t k ts payload)) ->
  (forall i t k ts commands description,
     Forall P commands -> P (mkSer i t k ts (PBatch commands description))) ->
  forall data, P data.
Proof.
  intros Hsimple Hbatch. fix IH 1. intros [i t k ts payload].
  destruct payload as [| | | | | | | |commands description];
    try (apply Hsimple; exact I).
  apply Hbatch. induction commands as [|d1 commands IHl]; constructor.
  - apply IH.
  - exact IHl.
Qed.

(** The methods of [BatchCommand] in terms of the loops. *)
Lemma execute_batch b commands description w :
  Cmd_execute (BatchCommand b commands description) w
  = let '(commands', w1, r) := executeAll commands w in
    (BatchCommand b commands' description, w1, r).
Proof. reflexivity. Qed.


Lemma serialize_batch b commands description :
  Cmd_serialize (BatchCommand b commands description)
  = match toISOString (base_timestamp b) with
    | Throw e => Throw e
    | Done ms =>
        match serializeAll commands with
        | Throw e => Throw e
        | Done ss =>
            Done (mkSer (base_id b) (base_type b) (base_dateKey b) (Iso ms)
                        (PBatch ss description))
        end
    end.
Proof.
  cbn [Cmd_serialize base_of].
  by destruct (toISOString (base_timestamp b)) as [ms|e].
Qed.

Lemma deserialize_batch i k ts commands description w :
  Cmd_deserialize (mkSer i "batch" k ts (PBatch commands description)) w
  = let '(w1, cs) := deserializeAll commands w in
    (fst (randomUUID w1),
     Some (BatchCommand (mkBase i "batch" k (Date_of_iso ts)) cs description)).
Proof. reflexivity. Qed.

Lemma constructed_inv c :
  constructed c = true ->
  base_type (base_of c) = classTag c
  /\ exists ms, base_timestamp (base_of c) = ValidDate ms.
Proof.
  destruct c; cbn; intros Hc;
    apply andb_prop in Hc as [Hc _]; apply andb_prop in Hc as [Ht Hd];
    apply String.eqb_eq in Ht; (split; [exact Ht|]);
    match goal with
    | H : isValidDate (base_timestamp ?b) = true |- _ =>
        destruct (base_timestamp b) as [ms|]; [by exists ms|discriminate]
    end.
Qed.

(** Serialising a constructed command and rebuilding it. *)
Lemma serialize_deserialize c :
  constructed c = true ->
  exists data,
    Cmd_serialize c = Done data
    /\ writtenBySerialize data = true
    /\ forall w, exists w',
         Cmd_deserialize data w = (w', Some (withoutCallbacks c)).
Proof.
  induction c as [c Hsimple|b commands description IH] using Cmd_nested_ind;
    intros Hc.
  - destruct (constructed_inv c Hc) as (Ht & ms & Hms).
    destruct c as [[i t k ts]| [i t k ts]| [i t k ts]| [i t k ts]| [i t k ts]
                  | [i t k ts]| [i t k ts]| [i t k ts]|]; [..|done];
      cbn in Ht, Hms; subst t ts;
      (eexists; split; [reflexivity|]; split; [reflexivity|]);
      intros w; eexists; reflexivity.
  - destruct (constructed_inv _ Hc) as (Ht & ms & Hms).
    destruct b as [i t k ts]. cbn in Ht, Hms. subst t ts.
    cbn in Hc. 
    assert (Hall : exists ss,
              serializeAll commands = Done ss
              /\ forallb writtenBySerialize ss = true
              /\ forall w, exists w',
                   deserializeAll ss w
                   = (w', List.map withoutCallbacks commands)).
    { clear -IH Hc. induction IH as [|c1 commands H1 _ IHl]; cbn in *.
      - exists []. repeat split. intros w. by exists w.
      - apply andb_prop in Hc as [Hc1 Hcs].
        destruct (H1 Hc1) as (s1 & Hs1 & Hw1 & Hd1).
        destruct (IHl Hcs) as (ss & Hss & Hws & Hds).
        exists (s1 :: ss). rewrite Hs1, Hss. cbn. rewrite Hw1, Hws.
        repeat split. intros w. destruct (Hd1 w) as [w1 Hd1w].
        destruct (Hds w1) as [w2 Hdsw]. exists w2. by rewrite Hd1w, Hdsw. }
    destruct Hall as (ss & Hss & Hws & Hds).
    rewrite serialize_batch. cbn. rewrite Hss.
    eexists. split; [reflexivity|]. split; [cbn; by rewrite Hws|].
    intros w. rewrite deserialize_batch. destruct (Hds w) as [w1 Hw1].
    rewrite Hw1. cbn. eexists. reflexivity.
Qed.

(** Rebuilding a command from data that [serialize] wrote, and
    serialising it again. *)
Lemma deserialize_serialize data :
  writtenBySerialize data = true ->
  forall w, exists w' c,
    Cmd_deserialize data w = (w', Some c)
    /\ Cmd_serialize c = Done data
    /\ constructed c = true
    /\ withoutCallbacks c = c.
Proof.
  induction data as [i t k ts payload Hsimple|i t k ts commands description IH]
    using Ser_nested_ind; intros Hw w.
  - cbn in Hw. apply andb_prop in Hw as [Hts Ht].
    destruct ts as [ms|]; [|discriminate].
    destruct payload; [..|done]; apply String.eqb_eq in Ht; subst t;
      do 2 eexists; (split; [reflexivity|]); repeat split.
  - cbn in Hw. apply andb_prop in Hw as [Hts Ht].
    destruct ts as [ms|]; [|discriminate].
    apply andb_prop in Ht as [Ht Hall]. apply String.eqb_eq in Ht. subst t.
    assert (Hcs : forall w0, exists w1 cs,
              deserializeAll commands w0 = (w1, cs)
              /\ serializeAll cs = Done commands
              /\ forallb constructed cs = true
              /\ List.map withoutCallbacks cs = cs).
    { clear -IH Hall. induction IH as [|d1 commands H1 _ IHl]; intros w0.
      - exists w0, []. by repeat split.
      - cbn in Hall. apply andb_prop in Hall as [Hd1 Hds].
        destruct (H1 Hd1 w0) as (w1 & c1 & Hc1 & Hs1 & Hk1 & Hn1).
        destruct (IHl Hds w1) as (w2 & cs & Hcs & Hss & Hks & Hns).
        exists w2, (c1 :: cs). cbn. rewrite Hc1, Hcs, Hs1, Hss, Hk1, Hks, Hn1, Hns.
        by repeat split. }
    destruct (Hcs w) as (w1 & cs & Hd & Hs & Hk & Hn).
    rewrite deserialize_batch, Hd. do 2 eexists. split; [reflexivity|].
    rewrite serialize_batch. cbn. rewrite Hs, Hk, Hn. by repeat split.
Qed.

(** [deserializeCommand] draws ids; it leaves the day store alone. *)
Lemma deserialize_store data w :
  isIndexedDBAvailable (fst (Cmd_deserialize data w)) = isIndexedDBAvailable w
  /\ idbDayData (fst (Cmd_deserialize data w)) = idbDayData w
  /\ fallbackStorage (fst (Cmd_deserialize data w)) = fallbackStorage w
  /\ uuidSource (fst (Cmd_deserialize data w)) = uuidSource w.
Proof.
  revert w.
  induction data as [i t k ts payload Hsimple|i t k ts commands description IH]
    using Ser_nested_ind; intros w.
  - destruct payload; [..|done]; cbn; repeat case_match; cbn; done.
  - destruct (String.eqb_spec t "batch") as [->|Hne].
    + rewrite deserialize_batch.
      assert (Hall : forall w0,
                isIndexedDBAvailable (fst (deserializeAll commands w0))
                = isIndexedDBAvailable w0
                /\ idbDayData (fst (deserializeAll commands w0)) = idbDayData w0
                /\ fallbackStorage (fst (deserializeAll commands w0))
                   = fallbackStorage w0
                /\ uuidSource (fst (deserializeAll commands w0)) = uuidSource w0).
      { clear -IH. induction IH as [|d1 commands H1 _ IHl]; intros w0; cbn;
          [done|].
        specialize (H1 w0). destruct (Cmd_deserialize d1 w0) as [wa c1].
        specialize (IHl wa). destruct (deserializeAll commands wa) as [wb cs].
        cbn in *. destruct H1 as (? & ? & ? & ?), IHl as (? & ? & ? & ?).
        repeat split; congruence. }
      specialize (Hall w). destruct (deserializeAll commands w) as [w1 cs].
      exact Hall.
    + cbn. repeat case_match; cbn; try done.
      match goal with H : String.eqb t "batch" = true |- _ =>
        apply String.eqb_eq in H; contradiction end.
Qed.

(** X13.  A command of the catalog that carries the type tag of its class
    and a valid timestamp (the commands of a batch likewise) serialises,
    and [deserializeCommand] rebuilds from the data the same command
    without its callbacks: the same id, type, date key, timestamp and
    fields, the commands of a batch rebuilt likewise.  Rebuilding draws
    ids and leaves the day store as it is. *)
Theorem X13_serialize_then_deserialize c w :
  constructed c = true ->
  exists data w',
    Cmd_serialize c = Done data
    /\ Cmd_deserialize data w = (w', Some (withoutCallbacks c))
    /\ activeStore w' = activeStore w.
Proof.
  intros Hc. destruct (serialize_deserialize c Hc) as (data & Hs & _ & Hd).
  destruct (Hd w) as [w' Hw']. exists data, w'.
  split; [exact Hs|]. split; [exact Hw'|].
  destruct (deserialize_store data w) as (Hf & Hi & Hm & _).
  rewrite Hw' in Hf, Hi, Hm. cbn in Hf, Hi, Hm.
  unfold activeStore. by rewrite Hf, Hi, Hm.
Qed.

(** X14.  Data that [serialize] wrote (an ISO timestamp, the payload of
    the class that the type tag names, the data of a batch likewise) is
    rebuilt by [deserializeCommand] into a command that serialises to the
    same data again; an entry whose type tag names no class of the catalog
    is rebuilt into nothing. *)
Theorem X14_deserialize_then_serialize data w :
  (writtenBySerialize data = true ->
   exists w' c,
     Cmd_deserialize data w = (w', Some c) /\ Cmd_serialize c = Done data)
  /\ (~ ser_type data ∈ ["add-note"; "edit-note"; "delete-note";
                         "add-checklist-item"; "edit-checklist-item";
                         "toggle-checklist-item"; "delete-checklist-item";
                         "reorder-checklist"; "batch"] ->
      Cmd_deserialize data w = (w, None)).
Proof.
  split.
  - intros Hw. destruct (deserialize_serialize data Hw w) as (w' & c & Hd & Hs & _).
    by exists w', c.
  - destruct data as [i t k ts payload]. cbn [ser_type]. intros Ht.
    assert (Hne : forall x, x ∈ ["add-note"; "edit-note"; "delete-note";
                         "add-checklist-item"; "edit-checklist-item";
                         "toggle-checklist-item"; "delete-checklist-item";
                         "reorder-checklist"; "batch"] ->
                  String.eqb t x = false).
    { intros x Hx. apply String.eqb_neq. intros ->. by apply Ht. }
    cbn [Cmd_deserialize].
    rewrite !Hne by (repeat first [by left | right]). reflexivity.
Qed.

End Persisted.

(* ================================================================== *)
(** * commands.ts and the manager: batches and merged reorders *)
(* ================================================================== *)

Section BatchAndReorder.

Lemma executeAll_stops cs1 c cs2 w cs1' w1 c' w2 e :
  executeAll cs1 w = (cs1', w1, Done tt) ->
  Cmd_execute c w1 = (c', w2, Throw e) ->
  executeAll (cs1 ++ c :: cs2) w = (cs1' ++ c' :: cs2, w2, Throw e).
Proof.
  revert w cs1'. induction cs1 as [|c0 cs1 IH]; intros w cs1'; cbn.
  - intros [= <- <-] Hc. by rewrite Hc.
  - destruct (Cmd_execute c0 w) as [[c0' w0] [[]|e0]]; [|discriminate].
    destruct (executeAll cs1 w0) as [[l w'] r] eqn:E.
    intros [= <- <- ->] Hc. by rewrite (IH _ _ E Hc).
Qed.

Lemma tryMerge_batch (s : State Cmd) b commands description :
  tryMerge (BatchCommand b commands description) s = (world s, None).
Proof.
  unfold tryMerge. destruct (top _) as [lastCommand|]; [|reflexivity].
  by destruct (canMergeCommands _ _ _), lastCommand.
Qed.

(** X15.  [BatchCommand.execute] stops at the first of its commands that
    throws and rolls nothing back: the commands before it stay executed,
    the commands after it are not run, and the batch throws what the
    command threw.  Through [executeCommand], with optimistic updates, the
    batch is then not recorded: the stacks are as before, while the day
    store keeps what the first commands did. *)
Theorem X15_batch_stops_at_the_first_failure
    b cs1 c cs2 description (s : State Cmd) cs1' w1 c' w2 e :
  executeAll cs1 (world s) = (cs1', w1, Done tt) ->
  Cmd_execute c w1 = (c', w2, Throw e) ->
  Cmd_execute (BatchCommand b (cs1 ++ c :: cs2) description) (world s)
  = (BatchCommand b (cs1' ++ c' :: cs2) description, w2, Throw e)
  /\ (isExecuting (manager s) = false ->
      cfg_enableOptimisticUpdates (globalConfig (history s)) = true ->
      instanceof_Error e = true ->
      executeCommand (BatchCommand b (cs1 ++ c :: cs2) description) s
      = (set_world w2 s, Throw (CommandExecutionError (message e) e))).
Proof.
  intros Hcs1 Hc.
  assert (Hexec :
    Cmd_execute (BatchCommand b (cs1 ++ c :: cs2) description) (world s)
    = (BatchCommand b (cs1' ++ c' :: cs2) description, w2, Throw e)).
  { rewrite execute_batch. by rewrite (executeAll_stops _ _ _ _ _ _ _ _ _ Hcs1 Hc). }
  split; [exact Hexec|]. intros Hidle Hopt Herr.
  eapply executeCommand_throw_optimistic; eauto using tryMerge_batch.
Qed.


(** X16.  A reorder that is executed within the merge window of the
    reorder on top of the undo stack is merged with it, and the merged
    command carries the new order of the command on the stack, not that of
    the command being executed: the stack keeps its length, the day reads
    as after reordering once more to the order that the command on the
    stack had asked for, and the order asked for now is not applied. *)
Theorem X16_merged_reorder_repeats_the_first_order
    (s : State Cmd) us b1 o1 old1 cb1 b2 o2 old2 cb2 t delta :
  base_type b1 = base_type b2 ->
  base_dateKey b1 = base_dateKey b2 ->
  base_timestamp b1 = ValidDate t ->
  base_timestamp b2 = ValidDate (t + delta) ->
  0 <= delta < cfg_mergeTimeWindow (globalConfig (history s)) ->
  call_opt cb2 = Done tt ->
  isExecuting (manager s) = false ->
  undoStack (manager s) = push (Some (ReorderChecklistCommand b1 o1 old1 cb1)) us ->
  serialisable (manager s) ->
  wellKeyed (world s) ->
  exists s' b' old',
    executeCommand (ReorderChecklistCommand b2 o2 old2 cb2) s = (s', Done tt)
    /\ undoStack (manager s')
       = push (Some (ReorderChecklistCommand b' o1 old' cb2)) us
    /\ redoStack (manager s') = redoStack (manager s)
    /\ forall date,
         readDay date (world s')
         = readDay date (reorderChecklistItems (base_dateKey b2) o1 (world s)).
Proof.
  intros Htype Hdate Hts1 Hts2 Hdelta Hcb Hidle Hus Hser Hk.
  set (c1 := ReorderChecklistCommand b1 o1 old1 cb1) in *.
  set (c2 := ReorderChecklistCommand b2 o2 old2 cb2).
  apply serialisable_stacks in Hser as [Hsu Hsr].
  rewrite Hus in Hsu. apply stackOK_push in Hsu as [Hsus _].
  set (w0 := fst (randomUUID (world s))).
  set (b' := set_timestamp
               (mkBase (uuidSource (world s) (uuidNext (world s)))
                       "reorder-checklist" (base_dateKey b2) (ValidDate t))
               (ValidDate t)).
  assert (Htry : tryMerge c2 s
                 = (w0, Some (ReorderChecklistCommand b' o1 old2 cb2))).
  { unfold tryMerge. rewrite Hus, top_push. unfold canMergeCommands.
    cbn [cmd_type cmd_dateKey cmd_timestamp Cmd_Command base_of c1 c2].
    rewrite Htype, Hdate, Hts1, Hts2, !String.eqb_refl. cbn [andb diff_lt].
    replace (t + delta - t <? cfg_mergeTimeWindow (globalConfig (history s)))
      with true by (symmetry; apply Z.ltb_lt; lia).
    cbn [cmd_merge Cmd_Command Cmd_merge c1 c2].
    rewrite Htype, Hts1, Hts2, String.eqb_refl. cbn [andb diff_lt].
    replace (t - (t + delta) <? 500) with true
      by (symmetry; apply Z.ltb_lt; lia).
    reflexivity. }
  destruct (getDayData (base_dateKey b2) w0) as [w1 dd] eqn:E.
  destruct (getDayData_read _ _ _ _ E) as (Hdd & Hread1 & Hk1 & _).
  set (old' := match dd with
               | Some d => List.map item_id (sort_by_order (day_checklist d))
               | None => old2
               end).
  assert (Hexec : cmd_execute (ReorderChecklistCommand b' o1 old2 cb2) w0
                  = (ReorderChecklistCommand b' o1 old' cb2,
                     reorderChecklistItems (base_dateKey b2) o1 w1, Done tt)).
  { cbn [cmd_execute Cmd_Command Cmd_execute]. cbn [b' base_dateKey set_timestamp].
    rewrite E. by rewrite Hcb. }
  assert (Hok : serialisable
                  (manager (set_undoStack
                              (update_top
                                 (Some (ReorderChecklistCommand b' o1 old' cb2))
                                 (undoStack (manager s))) s))).
  { apply serialisable_stacks. cbn. rewrite Hus, update_top_push.
    split; [|exact Hsr]. apply stackOK_push. split; [exact Hsus|].
    cbn. eauto. }
  destruct Hok as [st Hst].
  destruct (executeCommand_merged s c2 _ _ _ _ st Hidle Htry Hexec Hst)
    as (s' & Hs' & Hw' & Hu' & Hr' & _).
  exists s', b', old'. split; [exact Hs'|].
  rewrite Hu', Hus, update_top_push. split; [reflexivity|].
  split; [exact Hr'|]. intros date. rewrite Hw'.
  assert (Hkw0 : wellKeyed w0) by (by apply wellKeyed_randomUUID).
  rewrite (readDay_reorderChecklistItems _ _ _ _ (Hk1 Hkw0)).
  rewrite (readDay_reorderChecklistItems _ _ _ _ Hk).
  rewrite !Hread1. unfold w0. by rewrite !readDay_randomUUID.
Qed.

End BatchAndReorder.

(* ================================================================== *)
(** * commands.ts: a batch of commands and its inverse *)
(* ================================================================== *)

Section BatchInverse.

Implicit Types (w : World) (d : DayData).


Lemma sameDays_sym w w' : sameDays w w' -> sameDays w' w.
Proof. intros H date. destruct (H date). by split. Qed.




Lemma sameDays_getDayData date w : sameDays (fst (getDayData date w)) w.
Proof.
  intros date'. unfold notesOf, checklistOf. by rewrite readDay_getDayData.
Qed.






End BatchInverse.

(* ================================================================== *)
(** * undoRedo.ts: the manager over a session, and the history store *)
(* ================================================================== *)

Section ManagerMore.

Context {C : Type} `{Command C}.

Implicit Types (s : State C) (h : HistoryDB) (m : HistoryManager C).

(** X18.  As long as no history is loaded (no manager is created, the
    date is not switched), the two stacks together never hold more than
    [maxHistorySize] entries: the bound holds after every sequence of
    [executeCommand], [undo], [redo] and [clearHistory], whatever succeeds
    or throws on the way, from any state in which it holds. *)
Theorem X18_stacks_stay_within_capacity (evs : list (Event C)) s :
  Forall (fun e => loadsHistory e = false) evs ->
  Z.of_nat (length (undoStack (manager s)) + length (redoStack (manager s)))
  <= maxHistorySize (manager s) ->
  Z.of_nat (length (undoStack (manager (run evs s)))
            + length (redoStack (manager (run evs s))))
  <= maxHistorySize (manager (run evs s)).
Proof. intros Hevs Hcap. by apply withinCapacity_run. Qed.

Lemma manager_do_saveHistory s : manager (fst (do_saveHistory s)) = manager s.
Proof. unfold do_saveHistory. by destruct (saveHistory _ _). Qed.

Lemma loadHistory_fields s :
  isExecuting (manager (loadHistory s)) = isExecuting (manager s)
  /\ maxHistorySize (manager (loadHistory s)) = maxHistorySize (manager s)
  /\ currentDateKey (manager (loadHistory s)) = currentDateKey (manager s).
Proof.
  unfold loadHistory. repeat (case_match; cbn); done.
Qed.

Lemma executeCommand_fields s c :
  isExecuting (manager s) = false ->
  isExecuting (manager (fst (executeCommand c s))) = false
  /\ maxHistorySize (manager (fst (executeCommand c s)))
     = maxHistorySize (manager s)
  /\ currentDateKey (manager (fst (executeCommand c s)))
     = currentDateKey (manager s).
Proof.
  intros Hidle. unfold executeCommand. rewrite Hidle.
  unfold executeCommand_try, persistCommand, do_saveHistory.
  destruct (tryMerge _ _) as [w0 [mc|]];
    destruct (cfg_enableOptimisticUpdates _); cbn;
    destruct (cmd_execute _ _) as [[c1 w1] [[]|e]]; cbn;
    try (destruct (saveHistory _ _) as [h [[]|e']]; cbn);
    try (destruct (cmd_undo _ _) as [[c2 w2] [[]|e'']]; cbn);
    done.
Qed.

Lemma undo_fields s :
  isExecuting (manager s) = false ->
  isExecuting (manager (fst (undo s))) = false
  /\ maxHistorySize (manager (fst (undo s))) = maxHistorySize (manager s)
  /\ currentDateKey (manager (fst (undo s))) = currentDateKey (manager s).
Proof.
  intros Hidle. unfold undo. rewrite Hidle.
  destruct (_ =? _)%nat; cbn [orb]; [done|].
  unfold undo_try, persistUndo, do_saveHistory, redo_to_undo.
  destruct (cfg_enableOptimisticUpdates _); cbn;
    destruct (entry_undo _ _) as [[c1 w1] [[]|e]]; cbn;
    try (destruct (saveHistory _ _) as [h [[]|e']]; cbn);
    try (destruct (entry_execute _ _) as [[c2 w2] [[]|e'']]; cbn);
    done.
Qed.

Lemma redo_fields s :
  isExecuting (manager s) = false ->
  isExecuting (manager (fst (redo s))) = false
  /\ maxHistorySize (manager (fst (redo s))) = maxHistorySize (manager s)
  /\ currentDateKey (manager (fst (redo s))) = currentDateKey (manager s).
Proof.
  intros Hidle. unfold redo. rewrite Hidle.
  destruct (_ =? _)%nat; cbn [orb]; [done|].
  unfold redo_try, persistRedo, do_saveHistory, undo_to_redo.
  destruct (cfg_enableOptimisticUpdates _); cbn;
    destruct (entry_execute _ _) as [[c1 w1] [[]|e]]; cbn;
    try (destruct (saveHistory _ _) as [h [[]|e']]; cbn);
    try (destruct (entry_undo _ _) as [[c2 w2] [[]|e'']]; cbn);
    done.
Qed.

Lemma step_fields (e : Event C) s :
  isExecuting (manager s) = false ->
  isExecuting (manager (step e s)) = false
  /\ (createsManager e = false ->
      maxHistorySize (manager (step e s)) = maxHistorySize (manager s)).
Proof.
  intros Hidle. destruct e; cbn [step createsManager].
  - destruct (executeCommand_fields s command Hidle) as (? & ? & _). by split.
  - destruct (undo_fields s Hidle) as (? & ? & _). by split.
  - destruct (redo_fields s Hidle) as (? & ? & _). by split.
  - unfold switchDate. destruct (String.eqb _ _); [by split|].
    pose proof (manager_do_saveHistory s) as Hm.
    destruct (do_saveHistory s) as [s1 [[]|e]]; cbn in *.
    + match goal with |- context [loadHistory ?x] =>
        destruct (loadHistory_fields x) as (-> & -> & _) end.
      cbn. by rewrite Hm.
    + by rewrite Hm.
  - unfold clearHistory.
    match goal with |- context [do_saveHistory ?x] =>
      rewrite (manager_do_saveHistory x) end. by split.
  - unfold new_HistoryManager.
    match goal with |- context [loadHistory ?x] =>
      destruct (loadHistory_fields x) as (-> & _) end. by split.
  - by split.
  - by split.
Qed.

(** X19.  A manager that is idle is idle again after every operation,
    whether the operation returns or throws: [isExecuting] is never left
    set.  And no operation of a manager changes its [maxHistorySize], not
    even loading a history that was saved under another bound. *)
Theorem X19_idle_and_capacity_are_kept (evs : list (Event C)) s :
  isExecuting (manager s) = false ->
  isExecuting (manager (run evs s)) = false
  /\ (Forall (fun e => createsManager e = false) evs ->
      maxHistorySize (manager (run evs s)) = maxHistorySize (manager s)).
Proof.
  revert s. induction evs as [|e evs IH]; intros s Hidle; [by split|].
  destruct (step_fields e s Hidle) as [Hidle' Hmax].
  change (run (e :: evs) s) with (run evs (step e s)).
  destruct (IH _ Hidle') as [Hi Hm]. split; [exact Hi|].
  intros [He Hevs]%Forall_cons. by rewrite (Hm Hevs), (Hmax He).
Qed.

Lemma currentHistoryState_dateKey m st :
  currentHistoryState m = Done st ->
  hs_dateKey st = currentDateKey m /\ hs_maxHistorySize st = maxHistorySize m.
Proof.
  unfold currentHistoryState.
  destruct (serializeStack (undoStack m)); [|discriminate].
  destruct (serializeStack (redoStack m)); [|discriminate].
  by intros [= <-].
Qed.

Lemma getPersistedHistory_reliable k h :
  reliable h ->
  snd (getPersistedHistory k h) = stored h k
  /\ reliable (fst (getPersistedHistory k h))
  /\ (forall k', stored (fst (getPersistedHistory k h)) k' = stored h k')
  /\ globalConfig (fst (getPersistedHistory k h)) = globalConfig h.
Proof.
  unfold reliable, stored, getPersistedHistory, initHistoryDB.
  destruct h as [inst avail fb cfg opens reads writes rows calls]; cbn.
  intros [->|(-> & -> & -> & ->)]; destruct inst; cbn; auto 10.
Qed.

Lemma saveHistory_reliable m h st :
  reliable h ->
  cfg_enablePersistence (globalConfig h) = true ->
  currentHistoryState m = Done st ->
  snd (saveHistory m h) = Done tt
  /\ reliable (fst (saveHistory m h))
  /\ (forall k, stored (fst (saveHistory m h)) k
                = if String.eqb k (currentDateKey m) then Some st
                  else stored h k)
  /\ globalConfig (fst (saveHistory m h)) = globalConfig h.
Proof.
  intros Hrel Hp Hst.
  destruct (currentHistoryState_dateKey m st Hst) as [Hk _].
  assert (Hlook : forall (M : gmap string HistoryState) k,
            <[hs_dateKey st := st]> M !! k
            = if String.eqb k (currentDateKey m) then Some st else M !! k).
  { intros M k. rewrite Hk. destruct (String.eqb_spec k (currentDateKey m)) as [->|].
    - apply lookup_insert_eq.
    - by apply lookup_insert_ne. }
  unfold saveHistory. rewrite Hp, Hst. cbn [negb].
  unfold reliable, stored, initHistoryDB, set_fallbackHistory, put_row, log_call
    in *.
  destruct h as [inst avail fb cfg opens reads writes rows calls]; cbn in *.
  destruct Hrel as [->|(-> & -> & -> & ->)]; destruct inst; cbn; auto 10.
Qed.

(** X20.  On a history store whose reads return what its writes stored
    (the in-memory map, or a database that opens, reads and writes), a
    state that [saveHistory] saves is the state that [getPersistedHistory]
    returns for the date of the manager, and the states of the other dates
    are returned as before. *)
Theorem X20_saved_history_is_read_back m h st :
  reliable h ->
  cfg_enablePersistence (globalConfig h) = true ->
  currentHistoryState m = Done st ->
  snd (saveHistory m h) = Done tt
  /\ snd (getPersistedHistory (currentDateKey m) (fst (saveHistory m h)))
     = Some st
  /\ forall k, k <> currentDateKey m ->
       snd (getPersistedHistory k (fst (saveHistory m h)))
       = snd (getPersistedHistory k h).
Proof.
  intros Hrel Hp Hst.
  destruct (saveHistory_reliable m h st Hrel Hp Hst) as (Hr & Hrel' & Hsto & _).
  split; [exact Hr|]. split.
  - destruct (getPersistedHistory_reliable (currentDateKey m) _ Hrel') as [-> _].
    by rewrite Hsto, String.eqb_refl.
  - intros k Hk.
    destruct (getPersistedHistory_reliable k _ Hrel') as [-> _].
    destruct (getPersistedHistory_reliable k _ Hrel) as [-> _].
    rewrite Hsto. by destruct (String.eqb_spec k (currentDateKey m)).
Qed.

(** X21.  When the database of the history is open and answers reads but
    rejects the [put], [saveHistory] returns normally with the state in the
    in-memory map only, and the next [getPersistedHistory] for the date
    still reads the database: it returns the row that the database held
    before, not the state just saved. *)
Theorem X21_rejected_put_is_not_read_back m h st :
  cfg_enablePersistence (globalConfig h) = true ->
  isHistoryDBAvailable h = true ->
  historyDbInstance h = true ->
  idb_reads h = true ->
  idb_writes h = false ->
  currentHistoryState m = Done st ->
  snd (saveHistory m h) = Done tt
  /\ fallbackHistoryStorage (fst (saveHistory m h)) !! currentDateKey m = Some st
  /\ snd (getPersistedHistory (currentDateKey m) (fst (saveHistory m h)))
     = idb_rows h !! currentDateKey m.
Proof.
  intros Hp Ha Hi Hr Hw Hst.
  rewrite (saveHistory_put_rejected m h st Hp Ha Hi Hw Hst).
  destruct (currentHistoryState_dateKey m st Hst) as [Hk _].
  split; [reflexivity|]. split.
  - cbn. rewrite Hk. apply lookup_insert_eq.
  - unfold getPersistedHistory, set_fallbackHistory, log_call.
    destruct h as [inst avail fb cfg opens reads writes rows calls].
    cbn in Ha, Hi, Hr |- *. by subst.
Qed.

(** X23.  With [enablePersistence] switched off nothing is stored and
    nothing is loaded: [saveHistory] leaves the history store untouched,
    and a manager that is created or switched to another date has empty
    stacks, so the history of the date it leaves is dropped. *)
Theorem X23_without_persistence_history_is_dropped s k maxSize :
  cfg_enablePersistence (globalConfig (history s)) = false ->
  saveHistory (manager s) (history s) = (history s, Done tt)
  /\ (k <> currentDateKey (manager s) ->
      exists s',
        switchDate k s = (s', Done tt)
        /\ undoStack (manager s') = [] /\ redoStack (manager s') = []
        /\ currentDateKey (manager s') = k
        /\ history s' = history s /\ world s' = world s)
  /\ undoStack (manager (new_HistoryManager k maxSize (history s) (world s))) = []
  /\ redoStack (manager (new_HistoryManager k maxSize (history s) (world s))) = []
  /\ history (new_HistoryManager k maxSize (history s) (world s)) = history s.
Proof.
  intros Hp.
  assert (Hsave : forall m, saveHistory m (history s) = (history s, Done tt)).
  { intros m. unfold saveHistory. by rewrite Hp. }
  split; [apply Hsave|]. split.
  - intros Hk. unfold switchDate.
    destruct (String.eqb_spec (currentDateKey (manager s)) k); [congruence|].
    unfold do_saveHistory. rewrite Hsave. cbn.
    unfold loadHistory. cbn. rewrite Hp. cbn.
    eexists. split; [reflexivity|]. cbn. by destruct s.
  - unfold new_HistoryManager, loadHistory. cbn. by rewrite Hp.
Qed.

Lemma new_HistoryManager_dateKey k maxSize h w :
  currentDateKey (manager (new_HistoryManager (C := C) k maxSize h w)) = k.
Proof.
  unfold new_HistoryManager.
  match goal with |- context [loadHistory ?x] =>
    destruct (loadHistory_fields x) as (_ & _ & ->) end.
  reflexivity.
Qed.

(** X24.  [getHistoryManager] keeps one manager: asked again for the date
    of the manager it holds, it returns that manager as it is, loads
    nothing and ignores the [maxHistorySize] it is given; so of two callers
    that ask for the same date with different bounds, the first sets the
    bound. *)
Theorem X24_getHistoryManager_keeps_the_manager k max1 max2 (g : Globals C) :
  getHistoryManager k max2 (getHistoryManager k max1 g)
  = getHistoryManager k max1 g
  /\ (forall m, globalHistoryManager g = Some m -> currentDateKey m = k ->
        getHistoryManager k max2 g = g)
  /\ exists m, globalHistoryManager (getHistoryManager k max1 g) = Some m
               /\ currentDateKey m = k.
Proof.
  assert (Hafter : exists m,
            globalHistoryManager (getHistoryManager k max1 g) = Some m
            /\ currentDateKey m = k).
  { unfold getHistoryManager.
    destruct (globalHistoryManager g) as [m|] eqn:Hg.
    - destruct (String.eqb_spec (currentDateKey m) k) as [Hk|Hk].
      + exists m. by rewrite Hg.
      + eexists. split; [reflexivity|]. apply new_HistoryManager_dateKey.
    - eexists. split; [reflexivity|]. apply new_HistoryManager_dateKey. }
  split; [|split; [|exact Hafter]].
  - destruct Hafter as (m & Hm & Hk).
    unfold getHistoryManager at 1. by rewrite Hm, Hk, String.eqb_refl.
  - intros m Hm Hk. unfold getHistoryManager. by rewrite Hm, Hk, String.eqb_refl.
Qed.





(** X26.  With optimistic updates switched off, [executeCommand] records
    the command before it executes it and does not take it back when the
    command throws: the call raises a [CommandExecutionError], and the
    command that failed is on top of the undo stack, the redo stack having
    been emptied. *)
Theorem X26_pessimistic_failure_stays_on_the_stack s c w0 c1 w1 e :
  isExecuting (manager s) = false ->
  cfg_enableOptimisticUpdates (globalConfig (history s)) = false ->
  tryMerge c s = (w0, None) ->
  cmd_execute c w0 = (c1, w1, Throw e) ->
  instanceof_Error e = true ->
  Z.of_nat (length (undoStack (manager s))) < maxHistorySize (manager s) ->
  exists s',
    executeCommand c s = (s', Throw (CommandExecutionError (message e) e))
    /\ undoStack (manager s') = push (Some c1) (undoStack (manager s))
    /\ redoStack (manager s') = []
    /\ world s' = w1
    /\ isExecuting (manager s') = false.
Proof.
  intros Hidle Hopt Hmerge Hexec Herr Hroom.
  unfold executeCommand. rewrite Hidle.
  unfold executeCommand_try. rewrite tryMerge_set_isExecuting, Hmerge.
  cbn. rewrite Hopt. cbn. rewrite Hexec. cbn. rewrite Herr. cbn.
  eexists. split; [reflexivity|]. cbn.
  rewrite length_push.
  destruct (Z.ltb_spec (maxHistorySize (manager s))
              (Z.of_nat (S (length (undoStack (manager s)))))) as [Hlt|_];
    [lia|].
  by rewrite update_top_push.
Qed.

(** X27.  [canUndo] tells whether [undo] acts: when it answers [false],
    [undo] returns [false] and changes nothing; when it answers [true],
    [undo] never returns [false]: it returns [true] or raises.  Likewise
    [canRedo] and [redo]. *)
Theorem X27_canUndo_tells_whether_undo_acts s :
  (canUndo s = false -> undo s = (s, Done false))
  /\ (canUndo s = true -> forall s', undo s <> (s', Done false))
  /\ (canRedo s = false -> redo s = (s, Done false))
  /\ (canRedo s = true -> forall s', redo s <> (s', Done false)).
Proof.
  unfold canUndo, canRedo, undo, redo. repeat split.
  - intros Hc. destruct (_ =? _)%nat, (isExecuting _); done.
  - intros Hc s'. destruct (_ =? _)%nat; [done|].
    destruct (isExecuting _); [done|]. cbn [orb].
    unfold undo_try, persistUndo, do_saveHistory.
    destruct (cfg_enableOptimisticUpdates _); cbn;
      destruct (entry_undo _ _) as [[c1 w1] [[]|e]]; cbn;
      try (destruct (saveHistory _ _) as [h [[]|e']]; cbn);
      try (destruct (entry_execute _ _) as [[c2 w2] [[]|e'']]; cbn);
      intros [= _ Hr]; discriminate.
  - intros Hc. destruct (_ =? _)%nat, (isExecuting _); done.
  - intros Hc s'. destruct (_ =? _)%nat; [done|].
    destruct (isExecuting _); [done|]. cbn [orb].
    unfold redo_try, persistRedo, do_saveHistory.
    destruct (cfg_enableOptimisticUpdates _); cbn;
      destruct (entry_execute _ _) as [[c1 w1] [[]|e]]; cbn;
      try (destruct (saveHistory _ _) as [h [[]|e']]; cbn);
      try (destruct (entry_undo _ _) as [[c2 w2] [[]|e'']]; cbn);
      intros [= _ Hr]; discriminate.
Qed.

End ManagerMore.

(* ================================================================== *)
(** * The manager over the catalog: the history of a date *)
(* ================================================================== *)

Section CatalogHistory.

Implicit Types (s : State Cmd) (h : HistoryDB).

Lemma stack_roundtrip (l : list (option Cmd)) :
  constructedStack l ->
  exists ss,
    serializeStack l = Done ss
    /\ forall w, exists w',
         deserializeStack ss w = (w', List.map (fmap withoutCallbacks) l).
Proof.
  induction 1 as [|e l (c & -> & Hc) _ (ss & Hss & Hds)].
  - exists []. split; [reflexivity|]. intros w. by exists w.
  - destruct (serialize_deserialize c Hc) as (d & Hd & _ & Hdd).
    exists (d :: ss). split.
    + cbn. rewrite Hd. cbn. by rewrite Hss.
    + intros w. destruct (Hdd w) as [w1 Hw1]. destruct (Hds w1) as [w2 Hw2].
      exists w2. cbn. rewrite Hw1. cbn in Hw2 |- *. by rewrite Hw2.
Qed.

Lemma loadHistory_stored s st w1 w2 us rs :
  cfg_enablePersistence (globalConfig (history s)) = true ->
  reliable (history s) ->
  stored (history s) (currentDateKey (manager s)) = Some st ->
  deserializeStack (hs_undoStack st) (world s) = (w1, us) ->
  deserializeStack (hs_redoStack st) w1 = (w2, rs) ->
  undoStack (manager (loadHistory s)) = us
  /\ redoStack (manager (loadHistory s)) = rs
  /\ currentDateKey (manager (loadHistory s)) = currentDateKey (manager s).
Proof.
  intros Hp Hrel Hsto Hus Hrs. unfold loadHistory. rewrite Hp. cbn [negb].
  destruct (getPersistedHistory_reliable
              (currentDateKey (manager s)) (history s) Hrel) as (Hr & _).
  destruct (getPersistedHistory _ _) as [h' r]. cbn in Hr. subst r.
  rewrite Hsto. cbn. rewrite Hus, Hrs. done.
Qed.

(** X22.  The history of a date survives a visit to another date: on a
    history store whose reads return what its writes stored, a manager
    whose stacks hold constructed commands of the catalog and that is
    switched to another date and back has, entry for entry, the commands it
    had, without their callbacks.  (The history loaded for the other date
    must serialise; if not, the way back throws.) *)
Theorem X22_history_survives_a_change_of_date s k :
  cfg_enablePersistence (globalConfig (history s)) = true ->
  reliable (history s) ->
  constructedStack (undoStack (manager s)) ->
  constructedStack (redoStack (manager s)) ->
  k <> currentDateKey (manager s) ->
  serialisable (manager (fst (switchDate k s))) ->
  exists s1 s2,
    switchDate k s = (s1, Done tt)
    /\ currentDateKey (manager s1) = k
    /\ switchDate (currentDateKey (manager s)) s1 = (s2, Done tt)
    /\ currentDateKey (manager s2) = currentDateKey (manager s)
    /\ undoStack (manager s2)
       = List.map (fmap withoutCallbacks) (undoStack (manager s))
    /\ redoStack (manager s2)
       = List.map (fmap withoutCallbacks) (redoStack (manager s)).
Proof.
  intros Hp Hrel Hcu Hcr Hk Hser.
  set (k0 := currentDateKey (manager s)) in *.
  destruct (stack_roundtrip _ Hcu) as (su & Hsu & Hdu).
  destruct (stack_roundtrip _ Hcr) as (sr & Hsr & Hdr).
  set (st0 := mkHistoryState su sr k0 (maxHistorySize (manager s))).
  assert (Hst0 : currentHistoryState (manager s) = Done st0).
  { unfold currentHistoryState. by rewrite Hsu, Hsr. }
  destruct (saveHistory_reliable (manager s) (history s) st0 Hrel Hp Hst0)
    as (Hr1 & Hrel1 & Hsto1 & Hcfg1).
  (* the way there *)
  assert (Hsw1 : exists s1,
            switchDate k s = (s1, Done tt)
            /\ currentDateKey (manager s1) = k
            /\ reliable (history s1)
            /\ stored (history s1) k0 = Some st0
            /\ globalConfig (history s1) = globalConfig (history s)).
  { unfold switchDate. fold k0.
    destruct (String.eqb_spec k0 k) as [Heq|_]; [congruence|].
    unfold do_saveHistory.
    destruct (saveHistory (manager s) (history s)) as [h1 r1].
    cbn in Hr1, Hrel1, Hsto1, Hcfg1. subst r1.
    eexists. split; [reflexivity|].
    match goal with |- context [loadHistory ?x] => set (s0 := x) end.
    destruct (loadHistory_fields s0) as (_ & _ & Hkey).
    split; [by rewrite Hkey|].
    unfold loadHistory. cbn [s0 history manager set_currentDateKey set_redoStack
                              set_undoStack set_history currentDateKey].
    rewrite Hcfg1, Hp. cbn [negb].
    destruct (getPersistedHistory_reliable k h1 Hrel1)
      as (_ & Hrel' & Hsto' & Hcfg').
    destruct (getPersistedHistory k h1) as [h1' r].
    cbn in Hrel', Hsto', Hcfg'.
    assert (Hk0 : stored h1' k0 = Some st0).
    { rewrite Hsto', Hsto1. fold k0. by rewrite String.eqb_refl. }
    destruct r as [stk|]; cbn.
    - destruct (deserializeStack (hs_undoStack stk) _) as [wa usk].
      destruct (deserializeStack (hs_redoStack stk) wa) as [wb rsk]. cbn.
      repeat split; congruence.
    - repeat split; congruence. }
  destruct Hsw1 as (s1 & Hs1 & Hk1 & Hrel1' & Hsto1' & Hcfg1').
  rewrite Hs1 in Hser. cbn in Hser. destruct Hser as [stk Hstk].
  exists s1. 
  assert (Hp1 : cfg_enablePersistence (globalConfig (history s1)) = true)
    by (by rewrite Hcfg1').
  destruct (saveHistory_reliable (manager s1) (history s1) stk Hrel1' Hp1 Hstk)
    as (Hr2 & Hrel2 & Hsto2 & Hcfg2).
  (* the way back *)
  unfold switchDate at 2. rewrite Hk1.
  destruct (String.eqb_spec k k0) as [Heq|_]; [congruence|].
  unfold do_saveHistory.
  destruct (saveHistory (manager s1) (history s1)) as [h2 r2].
  cbn in Hr2, Hrel2, Hsto2, Hcfg2. subst r2.
  match goal with |- context [loadHistory ?x] => set (s0 := x) end.
  assert (Hsto0 : stored (history s0) (currentDateKey (manager s0)) = Some st0).
  { cbn. rewrite Hsto2, Hk1.
    destruct (String.eqb_spec k0 k) as [Heq|_]; [congruence|exact Hsto1']. }
  destruct (Hdu (world s0)) as [w1 Hw1]. destruct (Hdr w1) as [w2 Hw2].
  destruct (loadHistory_stored s0 st0 w1 w2
              (List.map (fmap withoutCallbacks) (undoStack (manager s)))
              (List.map (fmap withoutCallbacks) (redoStack (manager s))))
    as (Hu & Hr & Hkey);
    [cbn; congruence|exact Hrel2|exact Hsto0|exact Hw1|exact Hw2|].
  eexists. split; [exact Hs1|]. split; [reflexivity|].
  split; [reflexivity|]. by rewrite Hu, Hr, Hkey.
Qed.

End CatalogHistory.

(* ================================================================== *)
(** * useUndoRedo.ts: what the hook reports *)
(* ================================================================== *)

Section HookFacts.

Context {C : Type} `{Command C}.

Lemma undo_throws s s' e :
  undo s = (s', Throw e) ->
  exists cause, e = CommandExecutionError "Undo failed" cause.
Proof.
  unfold undo. destruct (_ || _); [discriminate|].
  destruct (undo_try _) as [[s1 applied] [b|error]]; [discriminate|].
  intros [= _ <-]. by eexists.
Qed.

Lemma redo_throws s s' e :
  redo s = (s', Throw e) ->
  exists cause, e = CommandExecutionError "Redo failed" cause.
Proof.
  unfold redo. destruct (_ || _); [discriminate|].
  destruct (redo_try _) as [[s1 applied] [b|error]]; [discriminate|].
  intros [= _ <-]. by eexists.
Qed.

(** X28.  The wrappers of [undo] and [redo] that the hook returns never
    throw: when the manager raises, they return [false] and hand the error
    to [onError] once.  Whatever made the manager raise, [handleError] then
    shows "Failed to execute action": the text of the error starts with a
    capital ("Undo failed", "Redo failed"), so neither "undo" nor "redo" is
    found in it. *)
Theorem X28_failed_undo_is_reported_as_execute (s : State C) s' e :
  (undo s = (s', Throw e) ->
   hook_undo (Some s) false true = (Some s', [OnError e], false)
   /\ handleError e = ErrorText "Failed to execute action")
  /\ (redo s = (s', Throw e) ->
      hook_redo (Some s) false true = (Some s', [OnError e], false)
      /\ handleError e = ErrorText "Failed to execute action").
Proof.
  split; intros Hthrow.
  - destruct (undo_throws _ _ _ Hthrow) as [cause ->].
    unfold hook_undo. cbn. by rewrite Hthrow.
  - destruct (redo_throws _ _ _ Hthrow) as [cause ->].
    unfold hook_redo. cbn. by rewrite Hthrow.
Qed.

End HookFacts.

(* ================================================================== *)
(** * The properties above at concrete inputs *)
(* ================================================================== *)






Lemma X6_witness :
  wellKeyed Scenario.world0
  /\ "2024-01-02" <> Scenario.day
  /\ readDay "2024-01-02"
       (applyWrite Examples.trimSpaces Scenario.day
          (WReorderChecklistItems ["i2"]) Scenario.world0)
     = readDay "2024-01-02" Scenario.world0.
Proof.
  assert (Hk : wellKeyed Scenario.world0)
    by (apply wellKeyed_decide; vm_compute; reflexivity).
  assert (Hne : "2024-01-02" <> Scenario.day) by discriminate.
  destruct (X6_a_write_touches_one_day Examples.trimSpaces Scenario.day
              (WReorderChecklistItems ["i2"]) Scenario.world0 Hk)
    as (_ & Hframe).
  split; [exact Hk|]. split; [exact Hne|]. exact (Hframe _ Hne).
Defined.



Lemma X9_witness :
  (length (checklistOf Scenario.day Scenario.world0) <= 199)%nat
  /\ snd (getCompletionPercentage Scenario.day Scenario.world0)
     = JsNumber.of_Z 50
  /\ exists p : Z,
       snd (getCompletionPercentage Scenario.day Scenario.world0)
       = JsNumber.of_Z p
       /\ 0 <= p <= 100.
Proof.
  assert (Hlen : (length (checklistOf Scenario.day Scenario.world0) <= 199)%nat)
    by (vm_compute; repeat constructor).
  destruct (X9_completion_percentage Scenario.day Scenario.world0 Hlen)
    as (p & Hp & Hrange & _).
  split; [exact Hlen|]. split; [vm_compute; reflexivity|].
  exists p. split; [exact Hp|exact Hrange].
Defined.

Lemma X10_witness :
  isSearchIndexAvailable Examples.searchOff = false
  /\ searchEntry "note-n1" (fallbackSearchIndex Examples.searchOff)
     = Some (mkSearchIndex "note-n1" KindNote "A" Examples.day (Some "n1") None)
  /\ searchEntry (si_id Examples.entryB)
       (fallbackSearchIndex
          (addToSearchIndex Examples.entryB Examples.searchOff))
     = Some Examples.entryB
  /\ length (fallbackSearchIndex
               (addToSearchIndex Examples.entryB Examples.searchOff)) = 1%nat.
Proof.
  assert (Hoff : isSearchIndexAvailable Examples.searchOff = false)
    by reflexivity.
  destruct (X10_in_memory_index_holds_one_entry_per_id Examples.entryB
              Examples.searchOff Hoff) as (Hfound & _).
  split; [exact Hoff|]. split; [vm_compute; reflexivity|].
  split; [exact Hfound|]. vm_compute. reflexivity.
Defined.


Lemma X13_witness :
  constructed Examples.batchOK = true
  /\ exists data w',
       Cmd_serialize Examples.batchOK = Done data
       /\ Cmd_deserialize data Scenario.world0
          = (w', Some (withoutCallbacks Examples.batchOK))
       /\ activeStore w' = activeStore Scenario.world0.
Proof.
  assert (Hc : constructed Examples.batchOK = true) by (vm_compute; reflexivity).
  split; [exact Hc|].
  exact (X13_serialize_then_deserialize Examples.batchOK Scenario.world0 Hc).
Defined.

Lemma X14_witness :
  writtenBySerialize Examples.editData = true
  /\ (exists w' c,
        Cmd_deserialize Examples.editData Scenario.world0 = (w', Some c)
        /\ Cmd_serialize c = Done Examples.editData)
  /\ Cmd_deserialize Examples.unknownData Scenario.world0
     = (Scenario.world0, None).
Proof.
  assert (Hw : writtenBySerialize Examples.editData = true)
    by (vm_compute; reflexivity).
  split; [exact Hw|]. split.
  - destruct (X14_deserialize_then_serialize Examples.editData Scenario.world0)
      as (Hround & _).
    exact (Hround Hw).
  - destruct (X14_deserialize_then_serialize Examples.unknownData
                Scenario.world0) as (_ & Hnone).
    apply Hnone. intros Hin.
    repeat (apply elem_of_cons in Hin as [Hin|Hin]; [discriminate Hin|]).
    by apply elem_of_nil in Hin.
Defined.

Lemma X15_witness :
  exists cs1' w1 c' w2 e,
    executeAll [Examples.editAB] (world Scenario.start) = (cs1', w1, Done tt)
    /\ Cmd_execute Examples.editFails w1 = (c', w2, Throw e)
    /\ isExecuting (manager Scenario.start) = false
    /\ cfg_enableOptimisticUpdates (globalConfig (history Scenario.start)) = true
    /\ instanceof_Error e = true
    /\ executeCommand
         (BatchCommand Examples.batchBase
            ([Examples.editAB] ++ Examples.editFails :: [Examples.toggleI1])
            "three")
         Scenario.start
       = (set_world w2 Scenario.start,
          Throw (CommandExecutionError (message e) e))
    /\ noteContent Scenario.day "n1" w2 = Some "C".
Proof.
  pose (r1 := executeAll [Examples.editAB] (world Scenario.start)).
  pose (r2 := Cmd_execute Examples.editFails (snd (fst r1))).
  assert (H1 : r1 = (fst (fst r1), snd (fst r1), Done tt))
    by (vm_compute; reflexivity).
  assert (H2 : r2 = (fst (fst r2), snd (fst r2),
                     Throw (Error "Error" "callback failed")))
    by (vm_compute; reflexivity).
  assert (Hidle : isExecuting (manager Scenario.start) = false)
    by (vm_compute; reflexivity).
  assert (Hopt : cfg_enableOptimisticUpdates
                   (globalConfig (history Scenario.start)) = true)
    by (vm_compute; reflexivity).
  assert (Herr : instanceof_Error (Error "Error" "callback failed") = true)
    by reflexivity.
  destruct (X15_batch_stops_at_the_first_failure Examples.batchBase
              [Examples.editAB] Examples.editFails [Examples.toggleI1] "three"
              Scenario.start _ _ _ _ _ H1 H2) as (_ & Hcall).
  exists (fst (fst r1)), (snd (fst r1)), (fst (fst r2)), (snd (fst r2)),
         (Error "Error" "callback failed").
  split; [exact H1|]. split; [exact H2|]. split; [exact Hidle|].
  split; [exact Hopt|]. split; [exact Herr|].
  split; [exact (Hcall Hidle Hopt Herr)|]. vm_compute. reflexivity.
Defined.

Lemma X16_witness :
  serialisable (manager Examples.reorder2_ready)
  /\ wellKeyed (world Examples.reorder2_ready)
  /\ undoStack (manager Examples.reorder2_ready)
     = push (Some (ReorderChecklistCommand
                     (mkBase "uuid-0" "reorder-checklist" "2024-01-01"
                             (ValidDate 1000))
                     ["i2"; "i1"] ["i1"; "i2"] None)) []
  /\ exists s' b' old',
       executeCommand
         (ReorderChecklistCommand
            (mkBase "uuid-1" "reorder-checklist" "2024-01-01" (ValidDate 1300))
            ["i1"; "i2"] [] None)
         Examples.reorder2_ready = (s', Done tt)
       /\ undoStack (manager s')
          = push (Some (ReorderChecklistCommand b' ["i2"; "i1"] old' None)) []
       /\ List.map item_id (checklistOf Scenario.day (world s')) = ["i2"; "i1"].
Proof.
  assert (Hser : serialisable (manager Examples.reorder2_ready)).
  { unfold serialisable.
    destruct (currentHistoryState (manager Examples.reorder2_ready))
      as [st|e] eqn:Hst; [by exists st|].
    exfalso. vm_compute in Hst. discriminate. }
  assert (Hk : wellKeyed (world Examples.reorder2_ready))
    by (apply wellKeyed_decide; vm_compute; reflexivity).
  assert (Hus : undoStack (manager Examples.reorder2_ready)
                = push (Some (ReorderChecklistCommand
                                (mkBase "uuid-0" "reorder-checklist"
                                        "2024-01-01" (ValidDate 1000))
                                ["i2"; "i1"] ["i1"; "i2"] None)) [])
    by (vm_compute; reflexivity).
  assert (Hwin : 0 <= 300 < cfg_mergeTimeWindow
                             (globalConfig (history Examples.reorder2_ready)))
    by (vm_compute; split; discriminate || reflexivity).
  destruct (X16_merged_reorder_repeats_the_first_order
              Examples.reorder2_ready []
              (mkBase "uuid-0" "reorder-checklist" "2024-01-01" (ValidDate 1000))
              ["i2"; "i1"] ["i1"; "i2"] None
              (mkBase "uuid-1" "reorder-checklist" "2024-01-01" (ValidDate 1300))
              ["i1"; "i2"] [] None 1000 300
              eq_refl eq_refl eq_refl eq_refl Hwin eq_refl eq_refl Hus Hser Hk)
    as (s' & b' & old' & Hexec & Hstack & _ & Hread).
  split; [exact Hser|]. split; [exact Hk|]. split; [exact Hus|].
  exists s', b', old'. split; [exact Hexec|]. split; [exact Hstack|].
  unfold checklistOf. rewrite (Hread Scenario.day).
  vm_compute. reflexivity.
Defined.


Lemma X18_witness :
  Forall (fun e => loadsHistory e = false) Examples.noLoads
  /\ Z.of_nat (length (undoStack (manager (run Examples.noLoads Scenario.start)))
               + length (redoStack
                           (manager (run Examples.noLoads Scenario.start))))
     <= maxHistorySize (manager (run Examples.noLoads Scenario.start)).
Proof.
  assert (Hevs : Forall (fun e : Event Cmd => loadsHistory e = false)
                        Examples.noLoads)
    by (repeat constructor).
  split; [exact Hevs|].
  apply (X18_stacks_stay_within_capacity Examples.noLoads Scenario.start Hevs).
  vm_compute. discriminate.
Defined.

Lemma X19_witness :
  isExecuting (manager Scenario.start) = false
  /\ Forall (fun e : Event Cmd => createsManager e = false) Examples.withFailure
  /\ isExecuting (manager (run Examples.withFailure Scenario.start)) = false
  /\ maxHistorySize (manager (run Examples.withFailure Scenario.start))
     = maxHistorySize (manager Scenario.start).
Proof.
  assert (Hidle : isExecuting (manager Scenario.start) = false)
    by (vm_compute; reflexivity).
  assert (Hevs : Forall (fun e : Event Cmd => createsManager e = false)
                        Examples.withFailure)
    by (repeat constructor).
  destruct (X19_idle_and_capacity_are_kept Examples.withFailure Scenario.start
              Hidle) as (Hafter & Hmax).
  split; [exact Hidle|]. split; [exact Hevs|].
  split; [exact Hafter|exact (Hmax Hevs)].
Defined.

Lemma X20_witness :
  reliable Scenario.history0
  /\ cfg_enablePersistence (globalConfig Scenario.history0) = true
  /\ exists st,
       currentHistoryState (manager Scenario.after_edit1) = Done st
       /\ length (hs_undoStack st) = 1%nat
       /\ snd (getPersistedHistory
                 (currentDateKey (manager Scenario.after_edit1))
                 (fst (saveHistory (manager Scenario.after_edit1)
                                   Scenario.history0)))
          = Some st.
Proof.
  assert (Hrel : reliable Scenario.history0)
    by (right; repeat split; reflexivity).
  assert (Hper : cfg_enablePersistence (globalConfig Scenario.history0) = true)
    by reflexivity.
  split; [exact Hrel|]. split; [exact Hper|].
  destruct (currentHistoryState (manager Scenario.after_edit1))
    as [st|e] eqn:Hst; [|exfalso; vm_compute in Hst; discriminate].
  exists st. split; [reflexivity|]. split.
  - assert (Hlen : match currentHistoryState (manager Scenario.after_edit1) with
                   | Done st0 => length (hs_undoStack st0) = 1%nat
                   | Throw _ => True
                   end) by (vm_compute; reflexivity).
    rewrite Hst in Hlen. exact Hlen.
  - destruct (X20_saved_history_is_read_back (manager Scenario.after_edit1)
                Scenario.history0 st Hrel Hper Hst) as (_ & Hback & _).
    exact Hback.
Defined.

Lemma X21_witness :
  idb_writes (history Scenario.start_noput) = false
  /\ idb_rows (history Scenario.start_noput)
     !! currentDateKey (manager Scenario.after_edit1) = None
  /\ exists st,
       currentHistoryState (manager Scenario.after_edit1) = Done st
       /\ snd (saveHistory (manager Scenario.after_edit1)
                           (history Scenario.start_noput)) = Done tt
       /\ fallbackHistoryStorage
            (fst (saveHistory (manager Scenario.after_edit1)
                              (history Scenario.start_noput)))
          !! currentDateKey (manager Scenario.after_edit1) = Some st
       /\ snd (getPersistedHistory
                 (currentDateKey (manager Scenario.after_edit1))
                 (fst (saveHistory (manager Scenario.after_edit1)
                                   (history Scenario.start_noput))))
          = None.
Proof.
  assert (Hw : idb_writes (history Scenario.start_noput) = false)
    by (vm_compute; reflexivity).
  assert (Hrow : idb_rows (history Scenario.start_noput)
                 !! currentDateKey (manager Scenario.after_edit1) = None)
    by (vm_compute; reflexivity).
  split; [exact Hw|]. split; [exact Hrow|].
  destruct (currentHistoryState (manager Scenario.after_edit1))
    as [st|e] eqn:Hst; [|exfalso; vm_compute in Hst; discriminate].
  exists st. split; [reflexivity|].
  assert (Hper : cfg_enablePersistence
                   (globalConfig (history Scenario.start_noput)) = true)
    by (vm_compute; reflexivity).
  assert (Hav : isHistoryDBAvailable (history Scenario.start_noput) = true)
    by (vm_compute; reflexivity).
  assert (Hinst : historyDbInstance (history Scenario.start_noput) = true)
    by (vm_compute; reflexivity).
  assert (Hr : idb_reads (history Scenario.start_noput) = true)
    by (vm_compute; reflexivity).
  destruct (X21_rejected_put_is_not_read_back (manager Scenario.after_edit1)
              (history Scenario.start_noput) st Hper Hav Hinst Hr Hw Hst)
    as (Hret & Hmem & Hread).
  split; [exact Hret|]. split; [exact Hmem|].
  rewrite Hread. exact Hrow.
Defined.

Lemma X22_witness :
  cfg_enablePersistence (globalConfig (history Scenario.after_edit1)) = true
  /\ reliable (history Scenario.after_edit1)
  /\ length (undoStack (manager Scenario.after_edit1)) = 1%nat
  /\ exists s1 s2,
       switchDate "2024-01-02" Scenario.after_edit1 = (s1, Done tt)
       /\ undoStack (manager s1) = []
       /\ switchDate (currentDateKey (manager Scenario.after_edit1)) s1
          = (s2, Done tt)
       /\ undoStack (manager s2)
          = List.map (fmap withoutCallbacks)
                     (undoStack (manager Scenario.after_edit1)).
Proof.
  assert (Hper : cfg_enablePersistence
                   (globalConfig (history Scenario.after_edit1)) = true)
    by (vm_compute; reflexivity).
  assert (Hrel : reliable (history Scenario.after_edit1))
    by (right; repeat split; vm_compute; reflexivity).
  assert (Hu : constructedStack (undoStack (manager Scenario.after_edit1))).
  { replace (undoStack (manager Scenario.after_edit1))
      with [Some (EditNoteCommand
                    (mkBase "uuid-0" "edit-note" "2024-01-01" (ValidDate 1000))
                    "n1" "B" "A" None)]
      by (vm_compute; reflexivity).
    constructor; [|constructor].
    eexists. split; reflexivity. }
  assert (Hr : constructedStack (redoStack (manager Scenario.after_edit1))).
  { replace (redoStack (manager Scenario.after_edit1)) with (@nil (option Cmd))
      by (vm_compute; reflexivity).
    constructor. }
  assert (Hne : "2024-01-02" <> currentDateKey (manager Scenario.after_edit1))
    by (vm_compute; discriminate).
  assert (Hser : serialisable
                   (manager (fst (switchDate "2024-01-02"
                                             Scenario.after_edit1)))).
  { unfold serialisable.
    destruct (currentHistoryState
                (manager (fst (switchDate "2024-01-02" Scenario.after_edit1))))
      as [st|e] eqn:Hst; [by exists st|].
    exfalso. vm_compute in Hst. discriminate. }
  destruct (X22_history_survives_a_change_of_date Scenario.after_edit1
              "2024-01-02" Hper Hrel Hu Hr Hne Hser)
    as (s1 & s2 & Hgo & _ & Hback & _ & Hus & _).
  split; [exact Hper|]. split; [exact Hrel|].
  split; [vm_compute; reflexivity|].
  exists s1, s2. split; [exact Hgo|]. split; [|split; [exact Hback|exact Hus]].
  replace s1 with (fst (switchDate "2024-01-02" Scenario.after_edit1))
    by (rewrite Hgo; reflexivity).
  vm_compute. reflexivity.
Defined.

Lemma X23_witness :
  cfg_enablePersistence
    (globalConfig (history (fst (executeCommand Examples.editAB
                                                Examples.start_plain)))) = false
  /\ length (undoStack
               (manager (fst (executeCommand Examples.editAB
                                             Examples.start_plain)))) = 1%nat
  /\ "2024-01-02"
     <> currentDateKey (manager (fst (executeCommand Examples.editAB
                                                     Examples.start_plain)))
  /\ exists s',
       switchDate "2024-01-02"
                  (fst (executeCommand Examples.editAB Examples.start_plain))
       = (s', Done tt)
       /\ undoStack (manager s') = [] /\ redoStack (manager s') = [].
Proof.
  assert (Hper : cfg_enablePersistence
                   (globalConfig
                      (history (fst (executeCommand Examples.editAB
                                                    Examples.start_plain))))
                 = false) by (vm_compute; reflexivity).
  assert (Hne : "2024-01-02"
                <> currentDateKey
                     (manager (fst (executeCommand Examples.editAB
                                                   Examples.start_plain))))
    by (vm_compute; discriminate).
  destruct (X23_without_persistence_history_is_dropped
              (fst (executeCommand Examples.editAB Examples.start_plain))
              "2024-01-02" None Hper) as (_ & Hswitch & _).
  destruct (Hswitch Hne) as (s' & Hgo & Hus & Hrs & _).
  split; [exact Hper|]. split; [vm_compute; reflexivity|].
  split; [exact Hne|].
  exists s'. split; [exact Hgo|]. split; [exact Hus|exact Hrs].
Defined.

Lemma X24_witness :
  globalHistoryManager Examples.globals0 = None
  /\ getHistoryManager Examples.day (Some 7)
       (getHistoryManager Examples.day (Some 5) Examples.globals0)
     = getHistoryManager Examples.day (Some 5) Examples.globals0
  /\ exists m,
       globalHistoryManager
         (getHistoryManager Examples.day (Some 5) Examples.globals0) = Some m
       /\ maxHistorySize m = 5.
Proof.
  destruct (X24_getHistoryManager_keeps_the_manager Examples.day (Some 5)
              (Some 7) Examples.globals0) as (Hsame & _ & m & Hm & _).
  split; [reflexivity|]. split; [exact Hsame|].
  exists m. split; [exact Hm|].
  assert (Hmax : match globalHistoryManager
                         (getHistoryManager Examples.day (Some 5)
                                            Examples.globals0) with
                 | Some m0 => maxHistorySize m0 = 5
                 | None => True
                 end) by (vm_compute; reflexivity).
  rewrite Hm in Hmax. exact Hmax.
Defined.


Lemma X26_witness :
  cfg_enableOptimisticUpdates (globalConfig (history Examples.start_plain))
  = false
  /\ exists s',
       executeCommand Examples.editFails Examples.start_plain
       = (s', Throw (CommandExecutionError "callback failed"
                       (Error "Error" "callback failed")))
       /\ length (undoStack (manager s')) = 1%nat
       /\ noteContent Scenario.day "n1" (world s') = Some "C".
Proof.
  pose (r0 := tryMerge Examples.editFails Examples.start_plain).
  pose (r1 := cmd_execute Examples.editFails (fst r0)).
  assert (Hidle : isExecuting (manager Examples.start_plain) = false)
    by (vm_compute; reflexivity).
  assert (Hopt : cfg_enableOptimisticUpdates
                   (globalConfig (history Examples.start_plain)) = false)
    by (vm_compute; reflexivity).
  assert (H0 : r0 = (fst r0, None)) by (vm_compute; reflexivity).
  assert (H1 : r1 = (fst (fst r1), snd (fst r1),
                     Throw (Error "Error" "callback failed")))
    by (vm_compute; reflexivity).
  assert (Hroom : Z.of_nat (length (undoStack (manager Examples.start_plain)))
                  < maxHistorySize (manager Examples.start_plain))
    by (vm_compute; reflexivity).
  destruct (X26_pessimistic_failure_stays_on_the_stack Examples.start_plain
              Examples.editFails (fst r0) (fst (fst r1)) (snd (fst r1))
              (Error "Error" "callback failed") Hidle Hopt H0 H1 eq_refl Hroom)
    as (s' & Hexec & Hus & _ & Hw & _).
  split; [exact Hopt|].
  exists s'. split; [exact Hexec|]. split.
  - rewrite Hus. vm_compute. reflexivity.
  - rewrite Hw. vm_compute. reflexivity.
Defined.

Lemma X28_witness :
  undo Scenario.after_delete
  = (fst (undo Scenario.after_delete),
     Throw (CommandExecutionError "Undo failed"
              (Error "Error" "restore failed")))
  /\ hook_undo (Some Scenario.after_delete) false true
     = (Some (fst (undo Scenario.after_delete)),
        [OnError (CommandExecutionError "Undo failed"
                    (Error "Error" "restore failed"))],
        false)
  /\ handleError (CommandExecutionError "Undo failed"
                    (Error "Error" "restore failed"))
     = ErrorText "Failed to execute action".
Proof.
  assert (Hu : undo Scenario.after_delete
               = (fst (undo Scenario.after_delete),
                  Throw (CommandExecutionError "Undo failed"
                           (Error "Error" "restore failed"))))
    by (vm_compute; reflexivity).
  destruct (X28_failed_undo_is_reported_as_execute Scenario.after_delete
              (fst (undo Scenario.after_delete))
              (CommandExecutionError "Undo failed"
                 (Error "Error" "restore failed")))
    as (Hlaw & _).
  split; [exact Hu|]. exact (Hlaw Hu).
Defined.

Lemma X27_witness :
  canUndo Scenario.after_edit1 = true
  /\ canRedo Scenario.after_edit1 = false
  /\ (forall s', undo Scenario.after_edit1 <> (s', Done false))
  /\ redo Scenario.after_edit1 = (Scenario.after_edit1, Done false).
Proof.
  assert (Hu : canUndo Scenario.after_edit1 = true) by (vm_compute; reflexivity).
  assert (Hr : canRedo Scenario.after_edit1 = false)
    by (vm_compute; reflexivity).
  destruct (X27_canUndo_tells_whether_undo_acts Scenario.after_edit1)
    as (_ & Hacts & Hnot & _).
  split; [exact Hu|]. split; [exact Hr|].
  split; [exact (Hacts Hu)|exact (Hnot Hr)].
Defined.
